(** * EFI boot variables: a model of grub-core/commands/efi/efibootvars.c

    The three commands [bootnext], [bootorder] and [bootentries] are
    embedded as functions in a small state-and-fault monad over a [world]
    that holds the firmware variable store, the ambient [grub_errno], the
    console and a log of the calls made to the store and to the allocator.
    A fetch from the store has three outcomes: a buffer, absence, and a
    failure of the store that is recorded in the ambient error status.
    Reads and writes of C buffers are bounds-checked in the model: an access
    outside a buffer is a [Fault], so memory safety can be stated. *)

From Stdlib Require Import ZArith Ascii String Strings.Byte List Lia Bool.
From stdpp Require Import base option list gmap strings.

Local Open Scope string_scope.
Local Open Scope list_scope.
Local Open Scope Z_scope.

(** ** Characters and C strings *)

Module CStr.

(** A C string is modelled by the [string] of the characters stored at the
    pointer; the terminator is the end of the [string] or the first NUL in
    it, whichever comes first. *)
Definition NUL : ascii := "000"%char.

Definition char_code (c : ascii) : Z := Z.of_N (N_of_ascii c).

(** The characters a C reader sees: those before the terminator. *)
Fixpoint cstr (s : string) : string :=
  match s with
  | EmptyString => EmptyString
  | String c rest => if Ascii.eqb c NUL then EmptyString else String c (cstr rest)
  end.

(** [s[i]]; at the end of the characters stands the terminator. *)
Definition char_at (s : string) (i : nat) : ascii :=
  match String.get i (cstr s) with
  | Some c => c
  | None => NUL
  end.

Definition grub_strlen (s : string) : nat := String.length (cstr s).

(** Modelled from the spec: grub_isxdigit (grub/misc.h, not under src/), the
    test for the "hexadecimal digits (case-insensitive)" of the data model:
    the ranges '0'-'9', 'a'-'f' and 'A'-'F'. *)
Definition grub_isxdigit (c : ascii) : bool :=
  let n := char_code c in
  ((48 <=? n) && (n <=? 57)) || ((97 <=? n) && (n <=? 102))
  || ((65 <=? n) && (n <=? 70)).

(** Modelled from the spec: the value of a hexadecimal digit for
    grub_strtoul (grub/misc.h, not under src/), in either case. *)
Definition hex_value (c : ascii) : option Z :=
  let n := char_code c in
  if (48 <=? n) && (n <=? 57) then Some (n - 48)
  else if (97 <=? n) && (n <=? 102) then Some (n - 87)
  else if (65 <=? n) && (n <=? 70) then Some (n - 55)
  else None.

(** Modelled from the spec: one digit of the conversion %x of grub_printf
    (not under src/); identifiers are "displayed as exactly 4 lowercase
    hexadecimal digits". *)
Definition hex_digit (d : Z) : ascii :=
  ascii_of_N (Z.to_N (if d <? 10 then 48 + d else 87 + d)).

(** Modelled from the spec: the conversion %04x of grub_printf applied to
    a 16-bit value. *)
Definition fmt_04x (v : Z) : string :=
  String (hex_digit (Z.land (Z.shiftr v 12) 15))
    (String (hex_digit (Z.land (Z.shiftr v 8) 15))
       (String (hex_digit (Z.land (Z.shiftr v 4) 15))
          (String (hex_digit (Z.land v 15)) EmptyString))).

(** Modelled from the spec: grub_strncmp (grub/misc.h, not under src/), as
    the test grub_strncmp (p, s, n) == 0 for a NUL-free [p] of [n]
    characters: the first [n] characters of [s] are those of [p]. *)
Definition grub_strncmp_eq (p s : string) (n : nat) : bool :=
  String.eqb (String.substring 0 n (cstr p)) (String.substring 0 n (cstr s)).

(** [overwrite dest src] writes the characters of [src] over the start of
    [dest] and leaves the rest of [dest] in place. *)
Fixpoint overwrite (dest src : string) : string :=
  match src, dest with
  | EmptyString, _ => dest
  | String c src', String _ dest' => String c (overwrite dest' src')
  | String _ _, EmptyString => EmptyString
  end.

(** Modelled from the spec: grub_strncpy (grub/misc.h, not under src/).
    The spec (4.1) has the copy overwrite the destination with the first [n]
    characters of the source and, for a shorter source, copy "only the
    available characters, leaving trailing characters" of the destination
    "in place". [grub_strncpy dest off src n] is the buffer [dest] after
    grub_strncpy (dest + off, src, n). *)
Definition grub_strncpy (dest : string) (off : nat) (src : string) (n : nat) : string :=
  String.substring 0 off dest
  +:+ overwrite (String.substring off (String.length dest - off)%nat dest)
       (String.substring 0 n (cstr src)).

End CStr.
Export CStr.

(** ** Bytes and 16-bit values *)

Module Bytes.

#[global] Instance byte_eq_dec : EqDecision byte := Byte.byte_eq_dec.

Definition Z_of_byte (b : byte) : Z := Z.of_N (Byte.to_N b).

Definition byte_of_Z (z : Z) : byte :=
  match Byte.of_N (Z.to_N (z mod 256)) with
  | Some b => b
  | None => x00
  end.

(** A grub_efi_uint16_t in memory (little endian, as on every EFI target). *)
Definition u16 (lo hi : byte) : Z := Z_of_byte lo + 256 * Z_of_byte hi.

Definition u16_bytes (v : Z) : list byte :=
  [byte_of_Z v; byte_of_Z (Z.shiftr v 8)].

(** Conversion to grub_efi_uint16_t. *)
Definition to_u16 (v : Z) : Z := v mod 65536.

(** The complete 16-bit values of a buffer, in order. *)
Fixpoint u16s (buf : list byte) : list Z :=
  match buf with
  | lo :: hi :: rest => u16 lo hi :: u16s rest
  | _ => []
  end.

Definition string_of_bytes (l : list byte) : string :=
  string_of_list_ascii (map ascii_of_byte l).

End Bytes.
Export Bytes.

(** ** The world: firmware store, error state, console, call log *)

(** The error codes of grub/err.h that this file and its helpers use. *)
Inductive grub_err_t :=
| GRUB_ERR_NONE
| GRUB_ERR_OUT_OF_MEMORY
| GRUB_ERR_BAD_ARGUMENT
| GRUB_ERR_BAD_NUMBER
| GRUB_ERR_OUT_OF_RANGE
| GRUB_ERR_IO.

#[global] Instance grub_err_t_eq_dec : EqDecision grub_err_t.
Proof. solve_decision. Defined.

(** Calls to the external collaborators, in the order they are made. *)
Inductive call :=
| GetVariable (name : string)
| SetVariable (name : string) (data : list byte)
| Malloc (size : Z).

#[global] Instance call_eq_dec : EqDecision call.
Proof. solve_decision. Defined.

(** [vars] holds the variables of the EFI global-variable namespace that
    the store delivers (every access of this file passes [efi_var_guid]);
    [var_names] is the sequence of (name, vendor GUID) pairs that the
    store's enumeration returns; [get_status] tells why the store delivers
    nothing for a name: GRUB_ERR_NONE when the variable is simply absent,
    otherwise the kind and the message of the failure of the store;
    [malloc_ok] and [set_status] are the answers of the allocator and of the
    store to a request. *)
Record world := World {
  vars : gmap string (list byte);
  var_names : list (string * Z);
  get_status : string -> grub_err_t * string;
  malloc_ok : Z -> bool;
  set_status : string -> list byte -> grub_err_t;
  grub_errno : grub_err_t;
  grub_errmsg : string;
  console : list string;
  calls : list call
}.

Definition with_vars (w : world) (m : gmap string (list byte)) : world :=
  World m (var_names w) (get_status w) (malloc_ok w) (set_status w) (grub_errno w)
        (grub_errmsg w) (console w) (calls w).

Definition with_error (w : world) (e : grub_err_t) (msg : string) : world :=
  World (vars w) (var_names w) (get_status w) (malloc_ok w) (set_status w) e msg
        (console w) (calls w).

Definition with_console (w : world) (c : list string) : world :=
  World (vars w) (var_names w) (get_status w) (malloc_ok w) (set_status w)
        (grub_errno w) (grub_errmsg w) c (calls w).

Definition with_calls (w : world) (c : list call) : world :=
  World (vars w) (var_names w) (get_status w) (malloc_ok w) (set_status w)
        (grub_errno w) (grub_errmsg w) (console w) c.

(** ** The monad: state passing with memory faults *)

Inductive fault := OutOfBoundsRead | OutOfBoundsWrite | OutOfFuel.

Inductive result (A : Type) :=
| Ret (a : A)
| Fault (f : fault).
Arguments Ret {A} a.
Arguments Fault {A} f.

Definition M (A : Type) : Type := world -> result A * world.

Definition ret {A} (a : A) : M A := fun w => (Ret a, w).

Definition raise {A} (f : fault) : M A := fun w => (Fault f, w).

Definition bind {A B} (m : M A) (k : A -> M B) : M B :=
  fun w =>
    match m w with
    | (Ret a, w') => k a w'
    | (Fault f, w') => (Fault f, w')
    end.

Notation "x <- m ;; k" := (bind m (fun x => k))
  (at level 63, m at next level, right associativity).
Notation "m ;;; k" := (bind m (fun _ => k))
  (at level 63, right associativity).

(** *** The collaborators *)

(** grub_free has no counterpart: the world does not track the heap, so a
    release changes nothing in it. *)

Definition nl : string := String (ascii_of_nat 10) EmptyString.

Definition get_errno : M grub_err_t := fun w => (Ret (grub_errno w), w).

(** Modelled from the spec: grub_error (grub/err.h, not under src/), which
    signals an error of a kind with a message: the ambient error status
    takes it, and its code is returned. *)
Definition grub_error (e : grub_err_t) (msg : string) : M grub_err_t :=
  fun w => (Ret e, with_error w e msg).

(** Modelled from the spec: grub_printf (not under src/), with its
    formatted text: the text goes to the console. *)
Definition grub_printf (s : string) : M unit :=
  fun w => (Ret tt, with_console w (console w ++ [s])).

(** Modelled from the spec: the ambient error status after a fetch of
    [name] that delivered nothing. Absence "is not necessarily an error" and
    leaves the status as it is; a failure of the store ("a transport or
    permission error") is told apart from it by the "separate ambient
    error-status value", which takes the failure. *)
Definition store_failure (w : world) (name : string) : world :=
  let st := get_status w name in
  if decide (fst st = GRUB_ERR_NONE) then w else with_error w (fst st) (snd st).

(** Modelled from the spec: grub_efi_get_variable (grub/efi/efi.h, not under
    src/): get_variable(name, guid) -> (buffer, size) | absent. The pointer
    is NULL ([None]) both for a variable that is absent and for a failure of
    the store; the failure is left in the ambient error status. *)
Definition grub_efi_get_variable (name : string) : M (option (list byte)) :=
  fun w =>
    let w' := with_calls w (calls w ++ [GetVariable (cstr name)]) in
    match vars w !! cstr name with
    | Some buf => (Ret (Some buf), w')
    | None => (Ret None, store_failure w' (cstr name))
    end.

(** Modelled from the spec: grub_efi_set_variable (not under src/):
    set_variable(name, guid, buffer, size) -> status. The store answers one
    write call with a status; on success the variable holds the buffer. *)
Definition grub_efi_set_variable (name : string) (data : list byte) : M grub_err_t :=
  fun w =>
    let st := set_status w (cstr name) data in
    let w' := with_calls w (calls w ++ [SetVariable (cstr name) data]) in
    (Ret st,
     if decide (st = GRUB_ERR_NONE)
     then with_vars w' (<[cstr name := data]> (vars w'))
     else w').

(** Modelled from the spec: grub_malloc (grub/mm.h, not under src/): an
    allocation failure surfaces as an out-of-memory condition. The result
    tells whether the pointer is non-NULL. *)
Definition grub_malloc (size : Z) : M bool :=
  fun w =>
    let w' := with_calls w (calls w ++ [Malloc size]) in
    if malloc_ok w size then (Ret true, w')
    else (Ret false, with_error w' GRUB_ERR_OUT_OF_MEMORY "out of memory").

(** Modelled from the spec: the digits loop of grub_strtoul in base 16.
    The leading hexadecimal digits are accumulated in [num]; [found] tells
    whether there was one; [None] is a value that does not fit an unsigned
    long (64 bits). *)
Fixpoint parse_hex (s : string) (num : Z) (found : bool) : option (Z * bool) :=
  match s with
  | EmptyString => Some (num, found)
  | String c rest =>
      match hex_value c with
      | None => Some (num, found)
      | Some d =>
          if 2 ^ 64 <=? num * 16 + d then None
          else parse_hex rest (num * 16 + d) true
      end
  end.

(** Modelled from the spec: grub_strtoul (grub/misc.h, not under src/) in
    base 16, which parses "the hex string"; a "parse failure" (no digit, or
    a value out of range) is recorded with grub_error. *)
Definition grub_strtoul (s : string) : M Z :=
  match parse_hex s 0 false with
  | None => grub_error GRUB_ERR_OUT_OF_RANGE "overflow is detected" ;;; ret (2 ^ 64 - 1)
  | Some (_, false) => grub_error GRUB_ERR_BAD_NUMBER "unrecognized number" ;;; ret 0
  | Some (num, true) => ret num
  end.

(** [order[i]] for a grub_efi_uint16_t pointer into a buffer of
    [length buf] bytes: a read outside the buffer is a fault. *)
Definition read_u16 (buf : list byte) (i : Z) : M Z :=
  if (0 <=? i) && (2 * i + 2 <=? Z.of_nat (length buf)) then
    match buf !! Z.to_nat (2 * i), buf !! Z.to_nat (2 * i + 1) with
    | Some lo, Some hi => ret (u16 lo hi)
    | _, _ => raise OutOfBoundsRead
    end
  else raise OutOfBoundsRead.

(** A write of [data] into an allocation of [capacity] bytes. *)
Definition write_buffer (capacity : Z) (data : list byte) : M unit :=
  if Z.of_nat (length data) <=? capacity then ret tt
  else raise OutOfBoundsWrite.

(** ** UTF-16 to UTF-8 *)

Module Charset.

Definition is_high_surrogate (u : Z) : bool := (0xD800 <=? u) && (u <=? 0xDBFF).
Definition is_low_surrogate (u : Z) : bool := (0xDC00 <=? u) && (u <=? 0xDFFF).

Definition replacement_char : Z := 0xFFFD.

(** Modelled from the spec: the decoding half of grub_utf16_to_utf8. Code
    points of a sequence of UTF-16 code units; an unpaired surrogate decodes
    to the replacement character. *)
Fixpoint utf16_decode (src : list Z) : list Z :=
  match src with
  | [] => []
  | u :: rest =>
      if is_high_surrogate u then
        match rest with
        | lo :: rest' =>
            if is_low_surrogate lo
            then (Z.shiftl (u - 0xD800) 10 + (lo - 0xDC00) + 0x10000)
                   :: utf16_decode rest'
            else replacement_char :: utf16_decode rest
        | [] => [replacement_char]
        end
      else if is_low_surrogate u then replacement_char :: utf16_decode rest
      else u :: utf16_decode rest
  end.

(** Modelled from the spec: the encoding half of grub_utf16_to_utf8. The
    UTF-8 bytes of a code point. *)
Definition utf8_encode (code : Z) : list byte :=
  if code <=? 0x7F then [byte_of_Z code]
  else if code <=? 0x7FF then
    [byte_of_Z (Z.lor (Z.shiftr code 6) 0xC0);
     byte_of_Z (Z.lor (Z.land code 0x3F) 0x80)]
  else if code <? 0x10000 then
    [byte_of_Z (Z.lor (Z.shiftr code 12) 0xE0);
     byte_of_Z (Z.lor (Z.land (Z.shiftr code 6) 0x3F) 0x80);
     byte_of_Z (Z.lor (Z.land code 0x3F) 0x80)]
  else
    [byte_of_Z (Z.lor (Z.shiftr code 18) 0xF0);
     byte_of_Z (Z.lor (Z.land (Z.shiftr code 12) 0x3F) 0x80);
     byte_of_Z (Z.lor (Z.land (Z.shiftr code 6) 0x3F) 0x80);
     byte_of_Z (Z.lor (Z.land code 0x3F) 0x80)].

(** Modelled from the spec: grub_utf16_to_utf8 (grub/charset.h, not under
    src/): "convert using standard UTF-16 to UTF-8 semantics". The result is
    the bytes written at the destination; the returned pointer is the
    destination advanced by their number. *)
Definition grub_utf16_to_utf8 (src : list Z) : list byte :=
  flat_map utf8_encode (utf16_decode src).

End Charset.
Export Charset.

(** ** The entry validator *)

(** The loop of validate_bootorder_entries. [boot_entry_var] is the name
    buffer, which lives outside the loop and is carried from one iteration
    to the next. [entries[i]] with [i] past the end of the array is a
    fault. *)
Fixpoint validate_entries_loop (num_entries : nat) (entries : list string)
    (boot_entry_var : string) : M (option string) :=
  match num_entries with
  | O => ret None
  | S n =>
      match entries with
      | [] => raise OutOfBoundsRead
      | entry :: rest =>
          let boot_entry_var := grub_strncpy boot_entry_var 4 entry 4 in
          boot_entry <- grub_efi_get_variable boot_entry_var ;;
          match boot_entry with
          | None => ret (Some entry)
          | Some _ => validate_entries_loop n rest boot_entry_var
          end
      end
  end.

Definition validate_bootorder_entries (num_entries : nat) (entries : list string)
    : M (option string) :=
  validate_entries_loop num_entries entries "Boot0000".

(** ** bootnext *)

Definition grub_cmd_bootnext (args : list string) : M grub_err_t :=
  match args with
  | [] =>
      cur_bootnext <- grub_efi_get_variable "BootNext" ;;
      match cur_bootnext with
      | Some buf =>
          v <- read_u16 buf 0 ;;
          grub_printf ("BootNext: " +:+ fmt_04x v +:+ nl)
      | None =>
          e <- get_errno ;;
          if decide (e = GRUB_ERR_NONE)
          then grub_printf ("BootNext: not set." +:+ nl)
          else ret tt
      end ;;;
      get_errno
  | arg0 :: _ =>
      invalid <- validate_bootorder_entries 1 args ;;
      match invalid with
      | Some _ =>
          grub_error GRUB_ERR_BAD_ARGUMENT (arg0 +:+ ": boot entry inaccessible")
      | None =>
          v <- grub_strtoul arg0 ;;
          let new_bootnext := to_u16 v in
          e <- get_errno ;;
          if decide (e = GRUB_ERR_NONE)
          then grub_efi_set_variable "BootNext" (u16_bytes new_bootnext)
          else ret e
      end
  end.

(** ** The load-option decoder *)

(** The scan [for (desc_offset = opt->description; *desc_offset;
    desc_offset++)] over the bytes that follow the 6-byte header. It yields
    the code units before the zero unit, or [None] when the pointer leaves
    the buffer before a zero unit is read. *)
Fixpoint scan_description (desc : list byte) : option (list Z) :=
  match desc with
  | lo :: hi :: rest =>
      if u16 lo hi =? 0 then Some []
      else option_map (cons (u16 lo hi)) (scan_description rest)
  | _ => None
  end.

(** offsetof (efi_load_option_t, description): a 32-bit and a 16-bit field. *)
Definition description_offset : nat := 6.

Definition print_single_boot_entry (boot_entry : string) : M grub_err_t :=
  opt <- grub_efi_get_variable boot_entry ;;
  match opt with
  | None => get_errno
  | Some buf =>
      match scan_description (drop description_offset buf) with
      | None => raise OutOfBoundsRead
      | Some description =>
          let size := Z.of_nat (length description) in
          description_utf8 <- grub_malloc (4 * size + 1) ;;
          (if description_utf8 : bool then
             let utf8 := grub_utf16_to_utf8 description in
             write_buffer (4 * size + 1) (utf8 ++ [x00]) ;;;
             grub_printf (cstr boot_entry +:+ ": " +:+ string_of_bytes utf8 +:+ nl)
           else ret tt) ;;;
          get_errno
      end
  end.

(** ** bootorder *)

(** The inner loop [while ((c = *entry++) != '\0')] of
    validate_bootorder_fmt: [None] when a character is not a hexadecimal
    digit (the function returns 0), otherwise [entry - order[i]] after the
    loop, where [consumed] characters were read before [entry]. *)
Fixpoint scan_hex (entry : string) (consumed : Z) : option Z :=
  match entry with
  | EmptyString => Some (consumed + 1)
  | String c rest =>
      if Ascii.eqb c NUL then Some (consumed + 1)
      else if grub_isxdigit c then scan_hex rest (consumed + 1)
      else None
  end.

Fixpoint validate_bootorder_fmt (entries : nat) (order : list string) : bool :=
  match entries, order with
  | S n, entry :: rest =>
      match scan_hex entry 0 with
      | None => false
      | Some d => if d >? 5 then false else validate_bootorder_fmt n rest
      end
  | _, _ => true
  end.

(** The loop [for (unsigned i = 0; i < num_entries - 1; ++i)] of the query.
    [bound] is [num_entries - 1] as a grub_size_t, [i] an unsigned int. The
    loop is run with one unit of fuel per byte of the buffer, which is
    enough for it to end or to leave the buffer. *)
Fixpoint print_order_loop (fuel : nat) (order : list byte) (bound i : Z) : M unit :=
  if i <? bound then
    match fuel with
    | O => raise OutOfFuel
    | S fuel' =>
        v <- read_u16 order i ;;
        grub_printf (fmt_04x v +:+ ", ") ;;;
        print_order_loop fuel' order bound ((i + 1) mod 2 ^ 32)
    end
  else ret tt.

(** The loop [order[i] = grub_strtoul (args[i], NULL, 16)]. *)
Fixpoint fill_order (argc : nat) (args : list string) : M (list byte) :=
  match argc, args with
  | S n, arg :: rest =>
      v <- grub_strtoul arg ;;
      tl <- fill_order n rest ;;
      ret (u16_bytes (to_u16 v) ++ tl)
  | _, _ => ret []
  end.

(** [argc] is [length args]; it is a positive int, so
    [argc * sizeof (grub_efi_uint16_t)] does not wrap as a grub_size_t. *)
Definition grub_cmd_bootorder (args : list string) : M grub_err_t :=
  let argc := length args in
  match args with
  | [] =>
      order <- grub_efi_get_variable "BootOrder" ;;
      match order with
      | None => get_errno
      | Some buf =>
          let num_entries := Z.of_nat (length buf) / 2 in
          grub_printf "Boot order: " ;;;
          print_order_loop (S (length buf)) buf ((num_entries - 1) mod 2 ^ 64) 0 ;;;
          v <- read_u16 buf ((num_entries - 1) mod 2 ^ 64) ;;
          grub_printf (fmt_04x v +:+ "." +:+ nl) ;;;
          ret GRUB_ERR_NONE
      end
  | _ :: _ =>
      if negb (validate_bootorder_fmt argc args)
      then grub_error GRUB_ERR_BAD_ARGUMENT "invalid boot order format"
      else
        invalid_entry <- validate_bootorder_entries argc args ;;
        match invalid_entry with
        | Some e =>
            grub_error GRUB_ERR_BAD_ARGUMENT (e +:+ ": boot entry inaccessible")
        | None =>
            let order_size := Z.of_nat argc * 2 in
            order <- grub_malloc order_size ;;
            if order : bool then
              data <- fill_order argc args ;;
              write_buffer order_size data ;;;
              grub_efi_set_variable "BootOrder" data
            else get_errno
        end
  end.

(** ** bootentries *)

(** The test of the enumeration loop: "Boot", four hexadecimal digits, and
    the terminator at [name[8]]. *)
Definition is_boot_entry_name (name : string) : bool :=
  grub_strncmp_eq "Boot" name 4
  && forallb (fun i => grub_isxdigit (char_at name i)) [4; 5; 6; 7]%nat
  && Ascii.eqb (char_at name 8) NUL.

(** Modelled from the spec: grub_efi_get_next_variable_name (not under
    src/): get_next_variable_name(size, previous_name, guid) -> name |
    end-of-list. The calls of one enumeration hand out the pairs of
    [var_names] one after the other and then NULL. *)
Definition grub_efi_get_next_variable_names : M (list (string * Z)) :=
  fun w => (Ret (var_names w), w).

(** The loop of grub_cmd_bootentries over the enumerated names. The result
    tells whether the loop was left by [goto end]. *)
Fixpoint bootentries_loop (names : list (string * Z)) : M bool :=
  match names with
  | [] => ret false
  | (name, vendor_guid) :: rest =>
      if is_boot_entry_name name then
        e <- print_single_boot_entry name ;;
        if decide (e = GRUB_ERR_NONE) then bootentries_loop rest
        else ret true
      else bootentries_loop rest
  end.

Definition grub_cmd_bootentries : M grub_err_t :=
  grub_printf ("Boot entries:" +:+ nl) ;;;
  names <- grub_efi_get_next_variable_names ;;
  bootentries_loop names ;;;
  get_errno.

(** ** Vocabulary of the statements *)

(** The write calls of a log, in order. *)
Definition writes (cs : list call) : list (string * list byte) :=
  omap (fun c => match c with SetVariable n d => Some (n, d) | _ => None end) cs.

(** The names fetched in a log, in order. *)
Definition fetches (cs : list call) : list string :=
  omap (fun c => match c with GetVariable n => Some n | _ => None end) cs.

(** The names that the validator builds for a list of candidates, starting
    from the name buffer [buf]: each candidate is copied over the buffer
    left by the one before. *)
Fixpoint entry_names (buf : string) (entries : list string) : list string :=
  match entries with
  | [] => []
  | entry :: rest =>
      let buf' := grub_strncpy buf 4 entry 4 in
      cstr buf' :: entry_names buf' rest
  end.

(** [i] is the first position of [names] whose variable is absent from [m]. *)
Definition first_absent (m : gmap string (list byte)) (names : list string) (i : nat) : Prop :=
  (exists name, names !! i = Some name /\ m !! name = None)
  /\ forall j name, (j < i)%nat -> names !! j = Some name -> is_Some (m !! name).

(** What the name buffer of the validator always is: eight characters, none
    of them NUL, the first four being "Boot". *)
Definition name_buffer (buf : string) : Prop :=
  String.length buf = 8%nat /\ cstr buf = buf /\ substring 0 4 buf = "Boot".

(** The name that a candidate would get over the literal "Boot0000". *)
Definition zero_padded_name (entry : string) : string :=
  let k := Nat.min 4 (grub_strlen entry) in
  "Boot" +:+ substring 0 k (cstr entry) +:+ substring (4 + k) (4 - k) "Boot0000".

(** The value that [order[i] = grub_strtoul (args[i], NULL, 16)] stores. *)
Definition entry_value (s : string) : Z :=
  to_u16 match parse_hex s 0 false with
         | None => 2 ^ 64 - 1
         | Some (num, true) => num
         | Some (_, false) => 0
         end.

(** The buffer that the set operation of bootorder assembles. *)
Definition order_data (args : list string) : list byte :=
  flat_map (fun arg => u16_bytes (entry_value arg)) args.

(** A well-formed argument of bootorder: at most four characters, all of
    them hexadecimal digits. *)
Definition hex_entry (s : string) : Prop :=
  (grub_strlen s <= 4)%nat
  /\ Forall (fun c => grub_isxdigit c = true) (list_ascii_of_string (cstr s)).

(** An identifier in the form in which it is displayed: four hexadecimal
    digits, the letters in lower case. *)
Definition is_lower_hex (c : ascii) : bool :=
  let n := char_code c in
  ((48 <=? n) && (n <=? 57)) || ((97 <=? n) && (n <=? 102)).

Definition canonical_entry (s : string) : Prop :=
  exists a b c d,
    s = String a (String b (String c (String d EmptyString)))
    /\ is_lower_hex a = true /\ is_lower_hex b = true
    /\ is_lower_hex c = true /\ is_lower_hex d = true.

(** The text that the query of bootorder prints for a list of values. *)
Definition order_text (ids : list Z) : list string :=
  "Boot order: "
  :: map (fun v => fmt_04x v +:+ ", ") (removelast ids)
  ++ [fmt_04x (List.last ids 0) +:+ "." +:+ nl].

(** "Boot" followed by four hexadecimal digits and nothing else. *)
Definition boot_entry_pattern (s : string) : Prop :=
  exists a b c d,
    s = "Boot" +:+ String a (String b (String c (String d EmptyString)))
    /\ grub_isxdigit a = true /\ grub_isxdigit b = true
    /\ grub_isxdigit c = true /\ grub_isxdigit d = true.

(** The line that the decoder prints for a variable of the store, when the
    variable is there and its description ends inside its buffer. *)
Definition entry_line (m : gmap string (list byte)) (name : string) : option string :=
  match m !! name with
  | Some buf =>
      match scan_description (drop description_offset buf) with
      | Some description =>
          Some (name +:+ ": " +:+ string_of_bytes (grub_utf16_to_utf8 description) +:+ nl)
      | None => None
      end
  | None => None
  end.

(** Two worlds with the same firmware: the same store, the same answers of
    the store and of the allocator, and the same error status. The result
    of the decoder depends on the world through these alone. *)
Definition same_firmware (w1 w2 : world) : Prop :=
  vars w1 = vars w2 /\ get_status w1 = get_status w2
  /\ malloc_ok w1 = malloc_ok w2 /\ grub_errno w1 = grub_errno w2.

(** ** Sample firmware *)

(** GRUB_EFI_GLOBAL_VARIABLE_GUID, as a 128-bit number. *)
Definition efi_var_guid : Z := 0x8BE4DF6193CA11D2AA0D00E098032B8C.

(** A load option: attributes, file path list length, then the description
    and its terminator. *)
Definition load_option (description : list Z) : list byte :=
  [x01; x00; x00; x00; x00; x00] ++ flat_map u16_bytes description ++ [x00; x00].

Definition sample_vars : gmap string (list byte) :=
  <["Boot0001" := load_option [87; 105; 110]]>
    (<["Boot0002" := load_option [76; 105; 110; 117; 120]]>
       (<["Boot12AB" := load_option [85; 83; 66]]>
          (<["BootOrder" := [x01; x00]]> ∅))).

Definition sample_names : list (string * Z) :=
  [("Boot0001", efi_var_guid); ("Boot0002", efi_var_guid);
   ("BootManagerFallback", efi_var_guid); ("Boot12AB", efi_var_guid)].

(** A new order for the entries of the sample firmware. *)
Definition sample_order : list string := ["0002"; "0001"].

(** A store without failures: what it does not deliver is absent. *)
Definition absent_only : string -> grub_err_t * string :=
  fun _ => (GRUB_ERR_NONE, "").

(** Allocations and writes succeed. *)
Definition sample_world : world :=
  World sample_vars sample_names absent_only (fun _ => true)
        (fun _ _ => GRUB_ERR_NONE) GRUB_ERR_NONE "" [] [].

(** The allocator is out of memory. *)
Definition oom_world : world :=
  World sample_vars sample_names absent_only (fun _ => false)
        (fun _ _ => GRUB_ERR_NONE) GRUB_ERR_NONE "" [] [].

(** The store refuses writes. *)
Definition readonly_world : world :=
  World sample_vars sample_names absent_only (fun _ => true)
        (fun _ _ => GRUB_ERR_IO) GRUB_ERR_NONE "" [] [].

(** Boot0001 holds a description without terminator; BootOrder holds one
    byte. *)
Definition malformed_world : world :=
  World (<["Boot0001" := [x01; x00; x00; x00; x00; x00; x41; x00]]>
           (<["BootOrder" := [x01]]> ∅))
        [("Boot0001", efi_var_guid)] absent_only (fun _ => true)
        (fun _ _ => GRUB_ERR_NONE) GRUB_ERR_NONE "" [] [].

(** The store fails on Boot0002: the variable cannot be read. *)
Definition failing_store_world : world :=
  World (delete "Boot0002" sample_vars) sample_names
        (fun name => if String.eqb name "Boot0002"
                     then (GRUB_ERR_IO, "variable store failure")
                     else (GRUB_ERR_NONE, ""))
        (fun _ => true) (fun _ _ => GRUB_ERR_NONE) GRUB_ERR_NONE "" [] [].

(** ** Further vocabulary *)

(** The name under which the validator looks up a candidate of at least
    four characters: "Boot" and the first four characters. *)
Definition boot_name (entry : string) : string :=
  "Boot" +:+ substring 0 4 (cstr entry).

(** The log after one fetch. *)
Definition fetched (w : world) (name : string) : world :=
  with_calls w (calls w ++ [GetVariable name]).

(** A world with another enumeration. *)
Definition with_var_names (w : world) (names : list (string * Z)) : world :=
  World (vars w) names (get_status w) (malloc_ok w) (set_status w) (grub_errno w)
        (grub_errmsg w) (console w) (calls w).

(** A world with other answers of the store to a fetch that delivers
    nothing. *)
Definition with_get_status (w : world) (st : string -> grub_err_t * string) : world :=
  World (vars w) (var_names w) st (malloc_ok w) (set_status w) (grub_errno w)
        (grub_errmsg w) (console w) (calls w).

(** The error status after a fetch of [name] that delivered nothing: the
    failure of the store if there was one, otherwise the status as it was
    before. *)
Definition errno_after_fetch (w : world) (name : string) : grub_err_t :=
  if decide (fst (get_status w name) = GRUB_ERR_NONE)
  then grub_errno w else fst (get_status w name).

(** The characters of a description that is plain ASCII. *)
Definition ascii_units (s : string) : list Z :=
  map char_code (list_ascii_of_string s).

Definition is_ascii7 (c : ascii) : bool := (0 <? char_code c) && (char_code c <? 128).

(** BootNext holds the entry 0x0002; the error status is set. *)
Definition stale_error_world : world :=
  World (<["BootNext" := [x02; x00; xff]]> sample_vars) sample_names
        absent_only (fun _ => true) (fun _ _ => GRUB_ERR_NONE)
        GRUB_ERR_IO "earlier failure" [] [].

(** The sample firmware on a store that fails on every variable that it
    does not deliver. *)
Definition unreadable_world : world :=
  with_get_status sample_world (fun _ => (GRUB_ERR_IO, "variable store failure")).

(** The sample firmware with one more enumerated name, Boot0007, which has
    no variable. *)
Definition absent_entry_world : world :=
  with_var_names sample_world (("Boot0007", efi_var_guid) :: sample_names).

(** * Properties *)

(** ** The helpers on concrete inputs *)

Example cstr_stops_at_nul : cstr (String "a" (String NUL "b")) = "a".
Proof. reflexivity. Qed.

Example strncpy_short : grub_strncpy "Boot0000" 4 "1F" 4 = "Boot1F00".
Proof. reflexivity. Qed.

Example strncpy_long : grub_strncpy "Boot0000" 4 "12345" 4 = "Boot1234".
Proof. reflexivity. Qed.

Example fmt_04x_1f : fmt_04x 31 = "001f".
Proof. reflexivity. Qed.

Example utf8_of_Test :
  string_of_bytes (grub_utf16_to_utf8 [84; 101; 115; 116]) = "Test".
Proof. reflexivity. Qed.

Example utf8_of_pair :
  length (grub_utf16_to_utf8 [0xD83D; 0xDE00]) = 4%nat.
Proof. reflexivity. Qed.


(** ** Worlds and the log *)

Lemma bind_run {A B} (m : M A) (k : A -> M B) w a w' :
  m w = (Ret a, w') -> bind m k w = k a w'.
Proof. unfold bind. by intros ->. Qed.

Lemma bind_fault {A B} (m : M A) (k : A -> M B) w f w' :
  m w = (Fault f, w') -> bind m k w = (Fault f, w').
Proof. unfold bind. by intros ->. Qed.


Lemma with_calls_with_calls w c1 c2 :
  with_calls (with_calls w c1) c2 = with_calls w c2.
Proof. reflexivity. Qed.

Lemma with_calls_id w : with_calls w (calls w) = w.
Proof. by destruct w. Qed.

Lemma with_error_id w : with_error w (grub_errno w) (grub_errmsg w) = w.
Proof. by destruct w. Qed.

(** ** The fetch and its three outcomes *)

Lemma store_failure_cases w name :
  (fst (get_status w name) = GRUB_ERR_NONE /\ store_failure w name = w)
  \/ (fst (get_status w name) <> GRUB_ERR_NONE
      /\ store_failure w name
         = with_error w (fst (get_status w name)) (snd (get_status w name))).
Proof. unfold store_failure. cbv zeta. destruct (decide _); [by left | by right]. Qed.

Lemma store_failure_error w name :
  exists e msg, store_failure w name = with_error w e msg.
Proof.
  destruct (store_failure_cases w name) as [[_ ->] | [_ ->]]; [| by eexists _, _].
  exists (grub_errno w), (grub_errmsg w). by rewrite with_error_id.
Qed.

Lemma with_error_store_failure w name e msg :
  with_error (store_failure w name) e msg = with_error w e msg.
Proof. by destruct (store_failure_cases w name) as [[_ ->] | [_ ->]]. Qed.

Lemma store_failure_with_calls w name c :
  store_failure (with_calls w c) name = with_calls (store_failure w name) c.
Proof. unfold store_failure. cbv zeta. cbn [get_status with_calls]. by destruct (decide _). Qed.

Lemma store_failure_with_console w name c :
  store_failure (with_console w c) name = with_console (store_failure w name) c.
Proof. unfold store_failure. cbv zeta. cbn [get_status with_console]. by destruct (decide _). Qed.

Lemma store_failure_with_error w name e msg :
  fst (get_status w name) <> GRUB_ERR_NONE ->
  store_failure (with_error w e msg) name = store_failure w name.
Proof.
  intros He. unfold store_failure. cbv zeta. cbn [get_status with_error].
  by destruct (decide _).
Qed.

Lemma store_failure_keeps_error w name :
  grub_errno w <> GRUB_ERR_NONE -> grub_errno (store_failure w name) <> GRUB_ERR_NONE.
Proof. by destruct (store_failure_cases w name) as [[_ ->] | [? ->]]. Qed.

Lemma store_failure_clear w name :
  grub_errno (store_failure w name) = GRUB_ERR_NONE ->
  store_failure w name = w /\ grub_errno w = GRUB_ERR_NONE.
Proof. by destruct (store_failure_cases w name) as [[_ ->] | [? ->]]. Qed.

Lemma vars_store_failure w name : vars (store_failure w name) = vars w.
Proof. by destruct (store_failure_error w name) as (e & msg & ->). Qed.

Lemma calls_store_failure w name : calls (store_failure w name) = calls w.
Proof. by destruct (store_failure_error w name) as (e & msg & ->). Qed.

Lemma console_store_failure w name : console (store_failure w name) = console w.
Proof. by destruct (store_failure_error w name) as (e & msg & ->). Qed.

Lemma grub_efi_get_variable_present name w buf :
  vars w !! cstr name = Some buf ->
  grub_efi_get_variable name w = (Ret (Some buf), fetched w (cstr name)).
Proof. unfold grub_efi_get_variable. by intros ->. Qed.

Lemma grub_efi_get_variable_absent name w :
  vars w !! cstr name = None ->
  grub_efi_get_variable name w
  = (Ret None, store_failure (fetched w (cstr name)) (cstr name)).
Proof. unfold grub_efi_get_variable. by intros ->. Qed.



Lemma writes_app cs1 cs2 : writes (cs1 ++ cs2) = writes cs1 ++ writes cs2.
Proof. apply omap_app. Qed.

Lemma fetches_app cs1 cs2 : fetches (cs1 ++ cs2) = fetches cs1 ++ fetches cs2.
Proof. apply omap_app. Qed.

Lemma writes_gets names : writes (map GetVariable names) = [].
Proof. induction names; [done | by simpl]. Qed.

Lemma fetches_gets names : fetches (map GetVariable names) = names.
Proof. unfold fetches. induction names as [|n names IH]; simpl; [done | by f_equal]. Qed.

Lemma grub_malloc_ok w n :
  malloc_ok w n = true ->
  grub_malloc n w = (Ret true, with_calls w (calls w ++ [Malloc n])).
Proof. unfold grub_malloc. by intros ->. Qed.

Lemma grub_malloc_fail w n :
  malloc_ok w n = false ->
  grub_malloc n w
  = (Ret false,
     with_error (with_calls w (calls w ++ [Malloc n]))
       GRUB_ERR_OUT_OF_MEMORY "out of memory").
Proof. unfold grub_malloc. by intros ->. Qed.

Lemma write_buffer_ok capacity data w :
  Z.of_nat (length data) <= capacity ->
  write_buffer capacity data w = (Ret tt, w).
Proof.
  intros H. unfold write_buffer.
  by destruct (Z.leb_spec (Z.of_nat (length data)) capacity); [| lia].
Qed.

(** ** The entry validator *)


Lemma length_entry_names buf entries : length (entry_names buf entries) = length entries.
Proof. revert buf. induction entries as [|e rest IH]; intros buf; simpl; [done | by rewrite IH]. Qed.


Lemma first_absent_unique m names i j :
  first_absent m names i -> first_absent m names j -> i = j.
Proof.
  intros [[ni [Hi Hni]] Hlti] [[nj [Hj Hnj]] Hltj].
  destruct (Nat.lt_total i j) as [Hlt | [Heq | Hgt]]; [| done |].
  - destruct (Hltj i ni Hlt Hi) as [x Hx]. congruence.
  - destruct (Hlti j nj Hgt Hj) as [x Hx]. congruence.
Qed.

Lemma validate_entries_loop_spec entries : forall buf w,
  let names := entry_names buf entries in
  (Forall (fun name => is_Some (vars w !! name)) names
   /\ validate_entries_loop (length entries) entries buf w
      = (Ret None, with_calls w (calls w ++ map GetVariable names)))
  \/ (exists i e name,
        entries !! i = Some e /\ names !! i = Some name
        /\ first_absent (vars w) names i
        /\ validate_entries_loop (length entries) entries buf w
           = (Ret (Some e),
              with_calls (store_failure w name)
                (calls w ++ map GetVariable (take (S i) names)))).
Proof.
  induction entries as [|e rest IH]; intros buf w; simpl.
  - left. split; [constructor |]. unfold ret. by rewrite app_nil_r, with_calls_id.
  - set (buf' := grub_strncpy buf 4 e 4).
    destruct (vars w !! cstr buf') as [data|] eqn:Hget.
    + rewrite (bind_run _ _ _ _ _ (grub_efi_get_variable_present _ _ _ Hget)).
      set (w1 := fetched w (cstr buf')).
      destruct (IH buf' w1) as [[Hall Hrun] | (i & e' & name & He' & Hname & Hfirst & Hrun)].
      * left. split; [constructor; [by eexists | exact Hall] |].
        rewrite Hrun. unfold w1. simpl. by rewrite <- app_assoc.
      * right. exists (S i), e', name. split; [exact He' |]. split; [exact Hname |]. split.
        -- destruct Hfirst as [[name' [Hname' Habs]] Hlt]. split.
           ++ exists name'. by split.
           ++ intros [|j] name'' Hj Hname''; simpl in Hname''.
              ** inversion Hname''; subst. by eexists.
              ** apply (Hlt j); [lia | done].
        -- rewrite Hrun. unfold w1, fetched. rewrite store_failure_with_calls.
           simpl. by rewrite <- app_assoc.
    + rewrite (bind_run _ _ _ _ _ (grub_efi_get_variable_absent _ _ Hget)).
      right. exists 0%nat, e, (cstr buf'). split; [done |]. split; [done |]. split.
      * split; [exists (cstr buf'); by split | intros; lia].
      * unfold ret, fetched. by rewrite take_0, store_failure_with_calls.
Qed.

(** C4: for every list of candidates the entry validator returns the
    first candidate, in list order, whose variable the store does not
    deliver (its fetch fails), whatever the number of present candidates
    before it; the names it fetches are those up to and including that
    candidate and none after it; and it returns NULL ([None]) exactly when
    the variable of every candidate is present. The world is otherwise as
    it was, but for the error status when the failing fetch was a failure
    of the store. *)
Theorem validate_bootorder_entries_first_invalid (w : world) (entries : list string) :
  let names := entry_names "Boot0000" entries in
  exists r fetched w',
    validate_bootorder_entries (length entries) entries w
      = (Ret r, with_calls w' (calls w ++ map GetVariable fetched))
    /\ (r = None <-> Forall (fun name => is_Some (vars w !! name)) names)
    /\ (forall e, r = Some e <->
                  exists i, entries !! i = Some e /\ first_absent (vars w) names i)
    /\ (r = None -> fetched = names /\ w' = w)
    /\ (forall i, first_absent (vars w) names i ->
          fetched = take (S i) names
          /\ forall name, names !! i = Some name -> w' = store_failure w name).
Proof.
  cbv zeta. unfold validate_bootorder_entries.
  destruct (validate_entries_loop_spec entries "Boot0000" w)
    as [[Hall Hrun] | (i & e & name & He & Hname & Hfirst & Hrun)];
    revert Hrun; set (names := entry_names "Boot0000" entries) in *; intros Hrun.
  - assert (Hno : forall i, ~ first_absent (vars w) names i).
    { intros i [[name [Hname Habs]] _].
      destruct (proj1 (Forall_lookup _ _) Hall i name Hname) as [x Hx]. congruence. }
    exists None, names, w. split; [exact Hrun |].
    split; [done |]. split; [| split; [done |]].
    + intros e. split; [done |]. intros (i & _ & Hi). by destruct (Hno i).
    + intros i Hi. by destruct (Hno i).
  - exists (Some e), (take (S i) names), (store_failure w name).
    split; [exact Hrun |]. split; [| split; [| split; [done |]]].
    + split; [done |]. intros Hall. destruct Hfirst as [[name' [Hname' Habs]] _].
      destruct (proj1 (Forall_lookup _ _) Hall i name' Hname') as [x Hx]. congruence.
    + intros e0. split.
      * intros [= <-]. by exists i.
      * intros (i' & He' & Hi'). rewrite (first_absent_unique _ _ _ _ Hi' Hfirst) in He'.
        congruence.
    + intros i' Hi'. rewrite (first_absent_unique _ _ _ _ Hi' Hfirst).
      split; [done |]. intros name' Hname'. congruence.
Qed.


Lemma cstr_idemp s : cstr (cstr s) = cstr s.
Proof.
  induction s as [|c s IH]; simpl; [done |].
  destruct (Ascii.eqb c NUL) eqn:Hc; simpl; [done |]. by rewrite Hc, IH.
Qed.

Lemma cstr_cons_inv c s :
  cstr (String c s) = String c s -> Ascii.eqb c NUL = false /\ cstr s = s.
Proof.
  simpl. destruct (Ascii.eqb c NUL); [done |]. by intros [= ->].
Qed.

Lemma name_buffer_literal : name_buffer "Boot0000".
Proof. by repeat split. Qed.

Lemma grub_strncpy_name_buffer buf entry :
  name_buffer buf ->
  let k := Nat.min 4 (grub_strlen entry) in
  let buf' := grub_strncpy buf 4 entry 4 in
  name_buffer buf'
  /\ buf' = substring 0 4 buf +:+ substring 0 k (cstr entry)
            +:+ substring (4 + k) (4 - k) buf.
Proof.
  intros (Hlen & Hnul & Hboot).
  destruct buf as [|b1 [|b2 [|b3 [|b4 [|b5 [|b6 [|b7 [|b8 [|b9 buf]]]]]]]]];
    try discriminate Hlen.
  repeat (apply cstr_cons_inv in Hnul as [? Hnul]).
  unfold grub_strlen, grub_strncpy.
  pose proof (cstr_idemp entry) as Hc.
  destruct (cstr entry) as [|c1 [|c2 [|c3 [|c4 c]]]];
    repeat (apply cstr_cons_inv in Hc as [? Hc]);
    try (destruct c);
    unfold name_buffer; simpl in *;
    repeat match goal with H : Ascii.eqb _ NUL = false |- _ => rewrite H; clear H end;
    done.
Qed.

Lemma entry_names_spec entries : forall buf,
  name_buffer buf ->
  let names := entry_names buf entries in
  Forall name_buffer names
  /\ forall i prev name entry,
       (buf :: names) !! i = Some prev -> names !! i = Some name ->
       entries !! i = Some entry ->
       let k := Nat.min 4 (grub_strlen entry) in
       name = "Boot" +:+ substring 0 k (cstr entry) +:+ substring (4 + k) (4 - k) prev.
Proof.
  induction entries as [|e rest IH]; intros buf Hbuf; simpl.
  - split; [constructor | intros i ? ? ? _ Hi; by rewrite lookup_nil in Hi].
  - destruct (grub_strncpy_name_buffer buf e Hbuf) as [Hbuf' Heq].
    set (buf' := grub_strncpy buf 4 e 4) in *.
    assert (Hc : cstr buf' = buf') by apply Hbuf'. rewrite Hc.
    destruct (IH buf' Hbuf') as [Hall Hpad].
    split; [by constructor |].
    intros [|i] prev name entry Hprev Hname Hentry; simpl in *.
    + inversion Hprev; inversion Hname; inversion Hentry; subst.
      rewrite Heq at 1. by destruct Hbuf as (_ & _ & ->).
    + by apply (Hpad i).
Qed.

(** The names that the validator passes to the store: each has exactly 8
    characters and starts with "Boot"; a candidate of [k < 4] characters
    overwrites [k] characters after "Boot", and the others are those that
    the name buffer held before, which is the literal "Boot0000" for the
    first candidate and the name of the previous candidate afterwards. *)
Theorem entry_names_over_shared_buffer (w : world) (entries : list string) :
  exists fetched,
    calls (snd (validate_bootorder_entries (length entries) entries w))
      = calls w ++ map GetVariable fetched
    /\ Forall (fun name => String.length name = 8%nat /\ substring 0 4 name = "Boot")
         fetched
    /\ forall i prev name entry,
         ("Boot0000" :: fetched) !! i = Some prev -> fetched !! i = Some name ->
         entries !! i = Some entry ->
         let k := Nat.min 4 (grub_strlen entry) in
         name = "Boot" +:+ substring 0 k (cstr entry)
                +:+ substring (4 + k) (4 - k) prev.
Proof.
  destruct (entry_names_spec entries "Boot0000" name_buffer_literal) as [Hall Hpad].
  set (names := entry_names "Boot0000" entries) in *.
  assert (Hgoal : forall k,
    Forall (fun name => String.length name = 8%nat /\ substring 0 4 name = "Boot")
      (take k names)
    /\ forall i prev name entry,
         ("Boot0000" :: take k names) !! i = Some prev -> take k names !! i = Some name ->
         entries !! i = Some entry ->
         let k := Nat.min 4 (grub_strlen entry) in
         name = "Boot" +:+ substring 0 k (cstr entry)
                +:+ substring (4 + k) (4 - k) prev).
  { intros k. split.
    - apply Forall_take. eapply Forall_impl; [exact Hall |].
      intros name (? & _ & ?). by split.
    - intros i prev name entry Hprev Hname Hentry.
      apply lookup_take_Some in Hname as [Hname Hik].
      apply (Hpad i); [| done | done].
      destruct i as [|i]; [done |]. simpl in *.
      by apply lookup_take_Some in Hprev as [Hprev _]. }
  unfold validate_bootorder_entries.
  destruct (validate_entries_loop_spec entries "Boot0000" w)
    as [[_ Hrun] | (i & e & name & _ & _ & _ & Hrun)]; rewrite Hrun; simpl.
  - exists names. split; [done |]. rewrite <- (firstn_all names). apply Hgoal.
  - exists (take (S i) names). split; [done |]. apply Hgoal.
Qed.



Lemma with_error_with_error w e1 m1 e2 m2 :
  with_error (with_error w e1 m1) e2 m2 = with_error w e2 m2.
Proof. reflexivity. Qed.

Lemma grub_strtoul_spec s w :
  exists v e msg,
    grub_strtoul s w = (Ret v, with_error w e msg) /\ to_u16 v = entry_value s.
Proof.
  unfold grub_strtoul, entry_value.
  destruct (parse_hex s 0 false) as [[num [|]]|].
  - exists num, (grub_errno w), (grub_errmsg w). by rewrite with_error_id.
  - by exists 0, GRUB_ERR_BAD_NUMBER, "unrecognized number".
  - by exists (2 ^ 64 - 1), GRUB_ERR_OUT_OF_RANGE, "overflow is detected".
Qed.

Lemma fill_order_spec args : forall w,
  exists e msg,
    fill_order (length args) args w = (Ret (order_data args), with_error w e msg).
Proof.
  induction args as [|arg rest IH]; intros w; simpl.
  - exists (grub_errno w), (grub_errmsg w). by rewrite with_error_id.
  - unfold bind. destruct (grub_strtoul_spec arg w) as (v & e & msg & -> & Hv).
    destruct (IH (with_error w e msg)) as (e' & msg' & ->).
    exists e', msg'. unfold ret. by rewrite Hv.
Qed.

Lemma length_order_data args : length (order_data args) = (length args * 2)%nat.
Proof. induction args as [|a rest IH]; simpl; [done |]. rewrite IH. lia. Qed.

(** ** bootorder: the set operation *)

Lemma bootorder_set_bad_format w args :
  args <> [] ->
  validate_bootorder_fmt (length args) args = false ->
  grub_cmd_bootorder args w
  = (Ret GRUB_ERR_BAD_ARGUMENT,
     with_error w GRUB_ERR_BAD_ARGUMENT "invalid boot order format").
Proof.
  intros Hargs Hfmt. destruct args as [|arg0 rest]; [done |].
  unfold grub_cmd_bootorder. by rewrite Hfmt.
Qed.

Lemma bootorder_set_inaccessible w args e w1 :
  args <> [] ->
  validate_bootorder_fmt (length args) args = true ->
  validate_bootorder_entries (length args) args w = (Ret (Some e), w1) ->
  grub_cmd_bootorder args w
  = (Ret GRUB_ERR_BAD_ARGUMENT,
     with_error w1 GRUB_ERR_BAD_ARGUMENT (e +:+ ": boot entry inaccessible")).
Proof.
  intros Hargs Hfmt Hrun. destruct args as [|arg0 rest]; [done |].
  unfold grub_cmd_bootorder. rewrite Hfmt. cbn [negb].
  by rewrite (bind_run _ _ _ _ _ Hrun).
Qed.

Lemma bootorder_set_oom w args w1 :
  args <> [] ->
  validate_bootorder_fmt (length args) args = true ->
  validate_bootorder_entries (length args) args w = (Ret None, w1) ->
  malloc_ok w1 (Z.of_nat (length args) * 2) = false ->
  grub_cmd_bootorder args w
  = (Ret GRUB_ERR_OUT_OF_MEMORY,
     with_error (with_calls w1 (calls w1 ++ [Malloc (Z.of_nat (length args) * 2)]))
       GRUB_ERR_OUT_OF_MEMORY "out of memory").
Proof.
  intros Hargs Hfmt Hrun Hmalloc. destruct args as [|arg0 rest]; [done |].
  unfold grub_cmd_bootorder. rewrite Hfmt. cbn [negb].
  rewrite (bind_run _ _ _ _ _ Hrun).
  by rewrite (bind_run _ _ _ _ _ (grub_malloc_fail _ _ Hmalloc)).
Qed.

Lemma bootorder_set_write w args w1 :
  args <> [] ->
  validate_bootorder_fmt (length args) args = true ->
  validate_bootorder_entries (length args) args w = (Ret None, w1) ->
  malloc_ok w1 (Z.of_nat (length args) * 2) = true ->
  exists e msg,
    grub_cmd_bootorder args w
    = grub_efi_set_variable "BootOrder" (order_data args)
        (with_error (with_calls w1 (calls w1 ++ [Malloc (Z.of_nat (length args) * 2)]))
           e msg).
Proof.
  intros Hargs Hfmt Hrun Hmalloc. destruct args as [|arg0 rest]; [done |].
  set (args := arg0 :: rest) in *.
  destruct (fill_order_spec args
              (with_calls w1 (calls w1 ++ [Malloc (Z.of_nat (length args) * 2)])))
    as (e & msg & Hfill).
  exists e, msg.
  unfold grub_cmd_bootorder. subst args. cbv beta iota zeta.
  set (args := arg0 :: rest) in *. rewrite Hfmt. cbn [negb].
  rewrite (bind_run _ _ _ _ _ Hrun).
  rewrite (bind_run _ _ _ _ _ (grub_malloc_ok _ _ Hmalloc)).
  rewrite (bind_run _ _ _ _ _ Hfill).
  assert (Hcap : Z.of_nat (length (order_data args)) <= Z.of_nat (length args) * 2)
    by (rewrite length_order_data; lia).
  by rewrite (bind_run _ _ _ _ _ (write_buffer_ok _ _ _ Hcap)).
Qed.

(** C1, as amended: for one or more arguments, bootorder makes no write
    unless the format check and then the existence check pass. When either
    fails the command returns the bad-argument error, the variables are
    unchanged and no write call is made. When both pass and the allocation
    of the [argc * 2] bytes succeeds, exactly one write call is made, for
    BootOrder, with the assembled buffer of [argc * 2] bytes, and its
    status is returned. When both pass and the allocation fails, no write
    call is made and the out-of-memory error is returned. *)
Theorem bootorder_set_two_phase (w : world) (args : list string) :
  args <> [] ->
  let argc := length args in
  let run := grub_cmd_bootorder args w in
  match validate_bootorder_fmt argc args,
        fst (validate_bootorder_entries argc args w) with
  | true, Ret None =>
      if malloc_ok w (Z.of_nat argc * 2) then
        length (order_data args) = (argc * 2)%nat
        /\ writes (calls (snd run))
           = writes (calls w) ++ [("BootOrder", order_data args)]
        /\ fst run = Ret (set_status w "BootOrder" (order_data args))
      else
        writes (calls (snd run)) = writes (calls w)
        /\ vars (snd run) = vars w
        /\ fst run = Ret GRUB_ERR_OUT_OF_MEMORY
  | _, _ =>
      fst run = Ret GRUB_ERR_BAD_ARGUMENT
      /\ grub_errno (snd run) = GRUB_ERR_BAD_ARGUMENT
      /\ vars (snd run) = vars w
      /\ writes (calls (snd run)) = writes (calls w)
  end.
Proof.
  intros Hargs argc run. subst run argc.
  destruct (validate_bootorder_fmt (length args) args) eqn:Hfmt.
  2: { by rewrite (bootorder_set_bad_format _ _ Hargs Hfmt). }
  unfold validate_bootorder_entries at 1.
  destruct (validate_entries_loop_spec args "Boot0000" w)
    as [[_ Hrun] | (i & e & name & _ & _ & _ & Hrun)]; rewrite Hrun; cbn [fst].
  - set (w1 := with_calls w (calls w ++ map GetVariable (entry_names "Boot0000" args)))
      in *.
    assert (Hw1 : writes (calls w1) = writes (calls w)).
    { unfold w1. cbn [calls with_calls]. by rewrite writes_app, writes_gets, app_nil_r. }
    change (malloc_ok w) with (malloc_ok w1).
    change (set_status w) with (set_status w1).
    change (vars w) with (vars w1).
    clearbody w1.
    destruct (malloc_ok w1 (Z.of_nat (length args) * 2)) eqn:Hmalloc.
    + destruct (bootorder_set_write _ _ _ Hargs Hfmt Hrun Hmalloc) as (e & msg & ->).
      unfold grub_efi_set_variable. cbn [fst snd].
      split; [apply length_order_data |]. split; [| done].
      destruct (decide _); cbn [calls with_vars with_calls with_error];
        rewrite !writes_app, Hw1; by rewrite <- app_assoc.
    + rewrite (bootorder_set_oom _ _ _ Hargs Hfmt Hrun Hmalloc).
      cbn [fst snd calls vars with_calls with_error].
      by rewrite writes_app, Hw1, app_nil_r.
  - rewrite (bootorder_set_inaccessible _ _ _ _ Hargs Hfmt Hrun).
    rewrite <- store_failure_with_calls, with_error_store_failure.
    cbn [fst snd calls vars with_calls with_error grub_errno].
    by rewrite writes_app, writes_gets, app_nil_r.
Qed.

(** ** 16-bit values in buffers *)

Lemma Z_of_byte_of_Z z : Z_of_byte (byte_of_Z z) = z mod 256.
Proof.
  unfold Z_of_byte, byte_of_Z.
  pose proof (Z.mod_pos_bound z 256 eq_refl) as Hb.
  destruct (Byte.of_N (Z.to_N (z mod 256))) as [b|] eqn:E.
  - apply Byte.to_of_N in E. rewrite E. lia.
  - apply Byte.of_N_None_iff in E. lia.
Qed.

Lemma u16_u16_bytes v :
  0 <= v < 65536 -> u16 (byte_of_Z v) (byte_of_Z (Z.shiftr v 8)) = v.
Proof.
  intros Hv. unfold u16. rewrite !Z_of_byte_of_Z, Z.shiftr_div_pow2 by lia.
  change (2 ^ 8) with 256.
  rewrite (Z.mod_small (v / 256) 256) by (split; [apply Z.div_pos | apply Z.div_lt_upper_bound]; lia).
  pose proof (Z.div_mod v 256 ltac:(lia)). lia.
Qed.

Lemma entry_value_range s : 0 <= entry_value s < 65536.
Proof. unfold entry_value, to_u16. by apply Z.mod_pos_bound. Qed.

Lemma u16s_order_data args : u16s (order_data args) = map entry_value args.
Proof.
  induction args as [|arg rest IH]; [done |].
  cbn [order_data flat_map map]. unfold u16_bytes at 1. cbn [app u16s].
  fold (order_data rest). by rewrite IH, u16_u16_bytes by apply entry_value_range.
Qed.

Lemma u16s_lookup i : forall buf v,
  u16s buf !! i = Some v ->
  exists lo hi,
    buf !! (2 * i)%nat = Some lo /\ buf !! (2 * i + 1)%nat = Some hi /\ v = u16 lo hi.
Proof.
  induction i as [|i IH]; intros [|lo [|hi rest]] v Hv; try discriminate Hv.
  - exists lo, hi. by inversion Hv.
  - cbn [u16s] in Hv. rewrite lookup_cons in Hv.
    destruct (IH rest v Hv) as (lo' & hi' & Hlo & Hhi & ->).
    exists lo', hi'.
    replace (2 * S i)%nat with (S (S (2 * i))) by lia.
    replace (S (S (2 * i)) + 1)%nat with (S (S (2 * i + 1))) by lia.
    by repeat split.
Qed.

Lemma length_u16s buf : forall n, (length buf <= n)%nat ->
  Z.of_nat (length (u16s buf)) = Z.of_nat (length buf) / 2.
Proof.
  intros n. revert buf.
  induction n as [|n IH]; intros [|lo [|hi rest]] Hn; cbn [length] in *; try done; try lia.
  cbn [u16s length]. rewrite Nat2Z.inj_succ, (IH rest) by lia.
  replace (Z.of_nat (S (S (length rest)))) with (Z.of_nat (length rest) + 1 * 2) by lia.
  rewrite Z.div_add by lia. lia.
Qed.

Lemma read_u16_in_bounds buf i v w :
  u16s buf !! i = Some v -> read_u16 buf (Z.of_nat i) w = (Ret v, w).
Proof.
  intros Hv. destruct (u16s_lookup i buf v Hv) as (lo & hi & Hlo & Hhi & ->).
  unfold read_u16.
  pose proof (lookup_lt_Some _ _ _ Hhi) as Hlt.
  replace (Z.to_nat (2 * Z.of_nat i)) with (2 * i)%nat by lia.
  replace (Z.to_nat (2 * Z.of_nat i + 1)) with (2 * i + 1)%nat by lia.
  rewrite Hlo, Hhi.
  destruct (Z.leb_spec 0 (Z.of_nat i)); [| lia].
  by destruct (Z.leb_spec (2 * Z.of_nat i + 2) (Z.of_nat (length buf))); [| lia].
Qed.

Lemma read_u16_out_of_bounds buf i w :
  Z.of_nat (length buf) < 2 * i + 2 -> read_u16 buf i w = (Fault OutOfBoundsRead, w).
Proof.
  intros Hlt. unfold read_u16.
  destruct (Z.leb_spec (2 * i + 2) (Z.of_nat (length buf))); [lia |].
  by rewrite andb_false_r.
Qed.

(** ** bootorder: the query *)

Lemma with_console_id w : with_console w (console w) = w.
Proof. by destruct w. Qed.

Lemma print_order_loop_done fuel order bound i w :
  bound <= i -> print_order_loop fuel order bound i w = (Ret tt, w).
Proof.
  intros Hle. destruct fuel; cbn [print_order_loop];
    by destruct (Z.ltb_spec i bound); [lia |].
Qed.

Lemma print_order_loop_spec buf bound :
  Z.of_nat bound < 2 ^ 32 -> (bound <= length (u16s buf))%nat ->
  forall k i fuel w,
    (i + k = bound)%nat -> (k <= fuel)%nat ->
    print_order_loop fuel buf (Z.of_nat bound) (Z.of_nat i) w
    = (Ret tt,
       with_console w
         (console w ++ map (fun v => fmt_04x v +:+ ", ") (take k (drop i (u16s buf))))).
Proof.
  intros Hbound Hlen. induction k as [|k IH]; intros i fuel w Hik Hfuel.
  - rewrite print_order_loop_done by lia.
    by rewrite take_0, app_nil_r, with_console_id.
  - destruct fuel as [|fuel]; [lia |]. cbn [print_order_loop].
    destruct (Z.ltb_spec (Z.of_nat i) (Z.of_nat bound)); [| lia].
    destruct (lookup_lt_is_Some_2 (u16s buf) i) as [v Hv]; [lia |].
    rewrite (bind_run _ _ _ _ _ (read_u16_in_bounds _ _ _ _ Hv)).
    unfold bind at 1. unfold grub_printf at 1.
    replace ((Z.of_nat i + 1) mod 2 ^ 32) with (Z.of_nat (S i))
      by (rewrite Z.mod_small; lia).
    rewrite IH by lia. cbn [console with_console].
    rewrite (drop_S _ _ _ Hv). cbn [take map].
    by rewrite <- app_assoc.
Qed.

Lemma last_lookup_default (ids : list Z) d :
  ids <> [] -> ids !! (length ids - 1)%nat = Some (List.last ids d).
Proof.
  induction ids as [|a [|b rest] IH]; intros Hne; [done | done |].
  change (List.last (a :: b :: rest) d) with (List.last (b :: rest) d).
  rewrite <- IH by done. cbn [length]. by replace (S (S (length rest)) - 1)%nat
    with (S (S (length rest) - 1)) by lia.
Qed.

Lemma bootorder_query_run w buf :
  vars w !! "BootOrder" = Some buf ->
  u16s buf <> [] -> Z.of_nat (length (u16s buf)) <= 2 ^ 32 ->
  grub_cmd_bootorder [] w
  = (Ret GRUB_ERR_NONE,
     with_console (with_calls w (calls w ++ [GetVariable "BootOrder"]))
       (console w ++ order_text (u16s buf))).
Proof.
  intros Hvar Hne Hlen.
  set (ids := u16s buf) in *.
  assert (Hpos : (0 < length ids)%nat) by (destruct ids; [done | cbn; lia]).
  unfold grub_cmd_bootorder.
  assert (Hget : grub_efi_get_variable "BootOrder" w
                 = (Ret (Some buf), with_calls w (calls w ++ [GetVariable "BootOrder"])))
    by exact (grub_efi_get_variable_present "BootOrder" w buf Hvar).
  rewrite (bind_run _ _ _ _ _ Hget). clear Hget.
  set (w1 := with_calls w (calls w ++ [GetVariable "BootOrder"])).
  change (console w) with (console w1). clearbody w1.
  rewrite <- (length_u16s buf (length buf)) by lia. fold ids.
  replace ((Z.of_nat (length ids) - 1) mod 2 ^ 64)
    with (Z.of_nat (length ids - 1)) by (rewrite Z.mod_small; lia).
  unfold bind at 1. unfold grub_printf at 1.
  assert (Hloop := print_order_loop_spec buf (length ids - 1) ltac:(lia) ltac:(fold ids; lia)
                     (length ids - 1)%nat 0%nat (S (length buf))
                     (with_console w1 (console w1 ++ ["Boot order: "]))
                     ltac:(lia)).
  fold ids in Hloop.
  assert (Hfuel : (length ids - 1 <= S (length buf))%nat).
  { pose proof (length_u16s buf (length buf) ltac:(lia)) as Hl. fold ids in Hl.
    pose proof (Z.div_le_upper_bound (Z.of_nat (length buf)) 2 (Z.of_nat (length buf))).
    lia. }
  specialize (Hloop Hfuel).
  rewrite (bind_run _ _ _ _ _ Hloop). clear Hloop.
  rewrite (bind_run _ _ _ _ _ (read_u16_in_bounds _ _ _ _ (last_lookup_default ids 0 Hne))).
  unfold bind, grub_printf, ret. cbn [console with_console].
  f_equal. f_equal. unfold order_text.
  rewrite drop_0, removelast_firstn_len.
  replace (Init.Nat.pred (length ids)) with (length ids - 1)%nat by lia.
  rewrite <- !app_assoc. reflexivity.
Qed.

(** C8: for a BootOrder buffer of fewer than two bytes (length 0 or 1) the
    query does not print [floor (n / 2) = 0] entries and stop: the entry
    count is 0, [num_entries - 1] wraps around to the largest grub_size_t,
    and the first iteration reads [order[0]] outside the buffer, after
    "Boot order: " was printed. *)
Theorem bootorder_query_short_buffer (w : world) (buf : list byte) :
  vars w !! "BootOrder" = Some buf ->
  (length buf < 2)%nat ->
  grub_cmd_bootorder [] w
  = (Fault OutOfBoundsRead,
     with_console (with_calls w (calls w ++ [GetVariable "BootOrder"]))
       (console w ++ ["Boot order: "])).
Proof.
  intros Hvar Hlen. unfold grub_cmd_bootorder.
  assert (Hget : grub_efi_get_variable "BootOrder" w
                 = (Ret (Some buf), with_calls w (calls w ++ [GetVariable "BootOrder"])))
    by exact (grub_efi_get_variable_present "BootOrder" w buf Hvar).
  rewrite (bind_run _ _ _ _ _ Hget). clear Hget.
  unfold bind at 1. unfold grub_printf at 1.
  replace (Z.of_nat (length buf) / 2) with 0
    by (destruct buf as [|b [|b' rest]]; [done | done | cbn [length] in Hlen; lia]).
  change ((0 - 1) mod 2 ^ 64) with 18446744073709551615.
  cbn [print_order_loop]. change (0 <? 18446744073709551615) with true. cbv iota.
  rewrite (bind_fault _ _ _ _ _ (bind_fault _ _ _ _ _
             (read_u16_out_of_bounds buf 0 _ ltac:(lia)))).
  reflexivity.
Qed.

Lemma bootorder_query_short_buffer_witness :
  vars malformed_world !! "BootOrder" = Some [x01]
  /\ (length [x01] < 2)%nat
  /\ grub_cmd_bootorder [] malformed_world
     = (Fault OutOfBoundsRead,
        with_console
          (with_calls malformed_world
             (calls malformed_world ++ [GetVariable "BootOrder"]))
          (console malformed_world ++ ["Boot order: "])).
Proof.
  assert (H1 : vars malformed_world !! "BootOrder" = Some [x01]) by reflexivity.
  assert (H2 : (length [x01] < 2)%nat) by (simpl; lia).
  exact (conj H1 (conj H2 (bootorder_query_short_buffer malformed_world [x01] H1 H2))).
Defined.

(** ** The format check *)

Lemma scan_hex_spec entry : forall consumed,
  match scan_hex entry consumed with
  | Some d =>
      d = consumed + Z.of_nat (grub_strlen entry) + 1
      /\ Forall (fun c => grub_isxdigit c = true) (list_ascii_of_string (cstr entry))
  | None =>
      ~ Forall (fun c => grub_isxdigit c = true) (list_ascii_of_string (cstr entry))
  end.
Proof.
  unfold grub_strlen.
  induction entry as [|c rest IH]; intros consumed; cbn [scan_hex cstr].
  - split; [cbn; lia | constructor].
  - destruct (Ascii.eqb c NUL); [split; [cbn; lia | constructor] |].
    cbn [list_ascii_of_string String.length].
    destruct (grub_isxdigit c) eqn:Hc.
    + specialize (IH (consumed + 1)). destruct (scan_hex rest (consumed + 1)).
      * destruct IH as [-> Hall]. split; [lia | by constructor].
      * intros Hall. apply IH. by inversion Hall.
    + intros Hall. inversion Hall; congruence.
Qed.

Lemma validate_bootorder_fmt_spec (order : list string) :
  validate_bootorder_fmt (length order) order = true <-> Forall hex_entry order.
Proof.
  induction order as [|entry rest IH]; cbn [length validate_bootorder_fmt].
  - split; [constructor | done].
  - pose proof (scan_hex_spec entry 0) as Hscan.
    destruct (scan_hex entry 0) as [d|].
    + destruct Hscan as [-> Hall].
      destruct (Z.gtb_spec (0 + Z.of_nat (grub_strlen entry) + 1) 5).
      * split; [done |]. intros Hall'. inversion Hall' as [|? ? [Hlen _]]; subst. lia.
      * rewrite IH. split.
        -- intros Hrest. constructor; [split; [lia | done] | done].
        -- intros Hall'. by inversion Hall'.
    + split; [done |]. intros Hall'. inversion Hall' as [|? ? [_ Hall]]; subst. done.
Qed.

(** ** Identifiers as they are displayed *)

Lemma lower_hex_digit c :
  is_lower_hex c = true ->
  exists d, 0 <= d < 16 /\ hex_value c = Some d /\ hex_digit d = c.
Proof.
  intros H. exists (default 0 (hex_value c)).
  destruct c as [[] [] [] [] [] [] [] []]; try discriminate H;
    (split; [cbv; split; congruence | split; reflexivity]).
Qed.

Lemma nibbles a b c d :
  0 <= a < 16 -> 0 <= b < 16 -> 0 <= c < 16 -> 0 <= d < 16 ->
  let v := ((a * 16 + b) * 16 + c) * 16 + d in
  Z.land (Z.shiftr v 12) 15 = a /\ Z.land (Z.shiftr v 8) 15 = b
  /\ Z.land (Z.shiftr v 4) 15 = c /\ Z.land v 15 = d.
Proof.
  intros Ha Hb Hc Hd v.
  change 15 with (Z.ones 4). rewrite !Z.land_ones, !Z.shiftr_div_pow2 by lia.
  change (2 ^ 12) with 4096. change (2 ^ 8) with 256. change (2 ^ 4) with 16.
  subst v. repeat split; Z.div_mod_to_equations; lia.
Qed.

Lemma fmt_04x_entry_value s : canonical_entry s -> fmt_04x (entry_value s) = s.
Proof.
  intros (a & b & c & d & -> & Ha & Hb & Hc & Hd).
  destruct (lower_hex_digit a Ha) as (da & Hda & Hva & Hxa).
  destruct (lower_hex_digit b Hb) as (db & Hdb & Hvb & Hxb).
  destruct (lower_hex_digit c Hc) as (dc & Hdc & Hvc & Hxc).
  destruct (lower_hex_digit d Hd) as (dd & Hdd & Hvd & Hxd).
  unfold entry_value. cbn [parse_hex]. rewrite Hva, Hvb, Hvc, Hvd.
  repeat match goal with
         | |- context [2 ^ 64 <=? ?x] =>
             destruct (Z.leb_spec (2 ^ 64) x); [lia |]
         end.
  unfold to_u16. rewrite Z.mod_small by lia.
  replace (0 * 16 + da) with da by lia.
  destruct (nibbles da db dc dd Hda Hdb Hdc Hdd) as (N1 & N2 & N3 & N4).
  unfold fmt_04x. by rewrite N1, N2, N3, N4, Hxa, Hxb, Hxc, Hxd.
Qed.

(** ** bootorder: set, then query *)

(** C6, as amended: for every non-empty list [L] of fewer than 2^31
    arguments (argc is an int), each of them well formed and with its
    variable present, if the set operation of bootorder on [L] returns
    success (the allocation and the write of the store succeeded), then the
    query that follows returns success and prints exactly the identifiers of
    [L], in order, as 4-digit hexadecimal numbers, separated by commas and
    ended by a period; for identifiers written as four lowercase digits the
    printed numbers are the arguments themselves. *)
Theorem bootorder_set_then_query (w : world) (L : list string) :
  L <> [] ->
  Z.of_nat (length L) < 2 ^ 31 ->
  Forall hex_entry L ->
  Forall (fun name => is_Some (vars w !! name)) (entry_names "Boot0000" L) ->
  fst (grub_cmd_bootorder L w) = Ret GRUB_ERR_NONE ->
  let w1 := snd (grub_cmd_bootorder L w) in
  let w2 := snd (grub_cmd_bootorder [] w1) in
  fst (grub_cmd_bootorder [] w1) = Ret GRUB_ERR_NONE
  /\ console w2 = console w1 ++ order_text (map entry_value L)
  /\ (Forall canonical_entry L -> map fmt_04x (map entry_value L) = L).
Proof.
  intros Hne Hargc Hfmt Hexist Hok w1 w2. subst w2 w1.
  apply validate_bootorder_fmt_spec in Hfmt.
  assert (Hcanon : Forall canonical_entry L -> map fmt_04x (map entry_value L) = L).
  { clear. induction L as [|s L IH]; intros Hall; [done |].
    inversion Hall; subst. cbn [map]. by rewrite fmt_04x_entry_value, IH. }
  destruct (validate_entries_loop_spec L "Boot0000" w)
    as [[_ Hrun] | (i & e & _ & _ & _ & [[name [Hname Habs]] _] & _)].
  2: { destruct (proj1 (Forall_lookup _ _) Hexist i name Hname) as [x Hx]. congruence. }
  set (w1 := with_calls w (calls w ++ map GetVariable (entry_names "Boot0000" L))) in *.
  destruct (malloc_ok w1 (Z.of_nat (length L) * 2)) eqn:Hmalloc.
  2: { by rewrite (bootorder_set_oom _ _ _ Hne Hfmt Hrun Hmalloc) in Hok. }
  destruct (bootorder_set_write _ _ _ Hne Hfmt Hrun Hmalloc) as (e & msg & Hset).
  rewrite Hset in *. clear Hset. clearbody w1.
  unfold grub_efi_set_variable in *. cbn [fst snd] in *.
  change (cstr "BootOrder") with "BootOrder" in *.
  injection Hok as Hok. destruct (decide _) as [_|]; [| done].
  set (w3 := with_vars _ _).
  assert (Hvar : vars w3 !! "BootOrder" = Some (order_data L))
    by (unfold w3; cbn [vars with_vars]; apply lookup_insert_eq).
  clearbody w3.
  assert (Hids : u16s (order_data L) = map entry_value L) by apply u16s_order_data.
  rewrite (bootorder_query_run w3 (order_data L) Hvar).
  - rewrite Hids. by repeat split.
  - rewrite Hids. by destruct L.
  - rewrite Hids, length_map. lia.
Qed.

Lemma bootorder_set_then_query_witness :
  sample_order <> []
  /\ Z.of_nat (length sample_order) < 2 ^ 31
  /\ Forall hex_entry sample_order
  /\ Forall (fun name => is_Some (vars sample_world !! name))
       (entry_names "Boot0000" sample_order)
  /\ fst (grub_cmd_bootorder sample_order sample_world) = Ret GRUB_ERR_NONE
  /\ fst (grub_cmd_bootorder [] (snd (grub_cmd_bootorder sample_order sample_world)))
     = Ret GRUB_ERR_NONE
  /\ console (snd (grub_cmd_bootorder []
                     (snd (grub_cmd_bootorder sample_order sample_world))))
     = console (snd (grub_cmd_bootorder sample_order sample_world))
       ++ order_text (map entry_value sample_order)
  /\ (Forall canonical_entry sample_order ->
      map fmt_04x (map entry_value sample_order) = sample_order).
Proof.
  assert (H1 : sample_order <> []) by discriminate.
  assert (H2 : Z.of_nat (length sample_order) < 2 ^ 31) by (cbn; lia).
  assert (H3 : Forall hex_entry sample_order)
    by (apply validate_bootorder_fmt_spec; reflexivity).
  assert (H4 : Forall (fun name => is_Some (vars sample_world !! name))
                 (entry_names "Boot0000" sample_order))
    by (repeat constructor; by eexists).
  assert (H5 : fst (grub_cmd_bootorder sample_order sample_world) = Ret GRUB_ERR_NONE)
    by reflexivity.
  pose proof (bootorder_set_then_query sample_world sample_order H1 H2 H3 H4 H5) as H.
  exact (conj H1 (conj H2 (conj H3 (conj H4 (conj H5 H))))).
Defined.

(** C6 as stated fails when the store refuses the write: the query still
    shows the old order. *)
Lemma bootorder_roundtrip_write_refused :
  Forall hex_entry sample_order
  /\ Forall (fun name => is_Some (vars readonly_world !! name))
       (entry_names "Boot0000" sample_order)
  /\ fst (grub_cmd_bootorder sample_order readonly_world) = Ret GRUB_ERR_IO
  /\ console (snd (grub_cmd_bootorder []
                     (snd (grub_cmd_bootorder sample_order readonly_world))))
     = ["Boot order: "; "0001." +:+ nl]
  /\ order_text (map entry_value sample_order)
     = ["Boot order: "; "0002, "; "0001." +:+ nl].
Proof.
  split; [apply validate_bootorder_fmt_spec; reflexivity |].
  split; [repeat constructor; by eexists |].
  repeat split; reflexivity.
Qed.

(** ** bootorder: the set operation on the sample firmware *)

Lemma bootorder_set_two_phase_witness :
  sample_order <> []
  /\ length (order_data sample_order) = (length sample_order * 2)%nat
  /\ writes (calls (snd (grub_cmd_bootorder sample_order sample_world)))
     = writes (calls sample_world) ++ [("BootOrder", order_data sample_order)]
  /\ fst (grub_cmd_bootorder sample_order sample_world)
     = Ret (set_status sample_world "BootOrder" (order_data sample_order)).
Proof.
  assert (H1 : sample_order <> []) by discriminate.
  exact (conj H1 (bootorder_set_two_phase sample_world sample_order H1)).
Defined.

(** C1 as stated fails when the allocation of the buffer fails: both phases
    pass and no write is made. *)
Lemma bootorder_set_out_of_memory :
  validate_bootorder_fmt (length sample_order) sample_order = true
  /\ fst (validate_bootorder_entries (length sample_order) sample_order oom_world)
     = Ret None
  /\ writes (calls (snd (grub_cmd_bootorder sample_order oom_world))) = []
  /\ fst (grub_cmd_bootorder sample_order oom_world) = Ret GRUB_ERR_OUT_OF_MEMORY.
Proof. repeat split; reflexivity. Qed.

(** ** bootnext *)

(** C9, as amended: bootnext with more than one argument signals no usage
    error; the arguments after the first are ignored and the command does
    exactly what it does for the first argument alone (existence check,
    parse, write of BootNext). *)
Theorem bootnext_ignores_extra_arguments (w : world) (arg0 : string) (rest : list string) :
  grub_cmd_bootnext (arg0 :: rest) w = grub_cmd_bootnext [arg0] w.
Proof. reflexivity. Qed.

(** C9 as stated fails: two arguments are no usage error, the first one is
    validated and written. *)
Lemma bootnext_two_arguments_accepted :
  fst (grub_cmd_bootnext ["0001"; "0002"] sample_world) = Ret GRUB_ERR_NONE
  /\ calls (snd (grub_cmd_bootnext ["0001"; "0002"] sample_world))
     = [GetVariable "Boot0001"; SetVariable "BootNext" [x01; x00]]
  /\ vars (snd (grub_cmd_bootnext ["0001"; "0002"] sample_world)) !! "BootNext"
     = Some [x01; x00].
Proof. repeat split; reflexivity. Qed.

(** C3: bootnext has no format check. The argument "00012" is longer than
    4 characters; on a store that holds Boot0001 and no BootNext, bootnext
    fetches the name made of its first four characters, parses all five,
    and writes BootNext = 0x0012 with success, instead of rejecting the
    request and leaving the store unchanged. *)
Theorem bootnext_accepts_overlong_entry :
  ~ hex_entry "00012"
  /\ vars sample_world !! "BootNext" = None
  /\ fst (grub_cmd_bootnext ["00012"] sample_world) = Ret GRUB_ERR_NONE
  /\ calls (snd (grub_cmd_bootnext ["00012"] sample_world))
     = [GetVariable "Boot0001"; SetVariable "BootNext" [x12; x00]]
  /\ vars (snd (grub_cmd_bootnext ["00012"] sample_world)) !! "BootNext"
     = Some [x12; x00].
Proof.
  split; [intros [Hlen _]; cbn in Hlen; lia |].
  repeat split; reflexivity.
Qed.

(** The same for a character that is not a hexadecimal digit, after the
    fourth place. *)
Example bootnext_accepts_trailing_garbage :
  writes (calls (snd (grub_cmd_bootnext ["0001zz"] sample_world)))
  = [("BootNext", [x01; x00])].
Proof. reflexivity. Qed.

(** bootorder does reject both. *)
Example bootorder_rejects_malformed :
  grub_cmd_bootorder ["0001"; "00012"] sample_world
  = (Ret GRUB_ERR_BAD_ARGUMENT,
     with_error sample_world GRUB_ERR_BAD_ARGUMENT "invalid boot order format")
  /\ grub_cmd_bootorder ["0001"; "00g2"] sample_world
     = (Ret GRUB_ERR_BAD_ARGUMENT,
        with_error sample_world GRUB_ERR_BAD_ARGUMENT "invalid boot order format").
Proof. split; reflexivity. Qed.

(** ** The load-option decoder *)

Lemma scan_description_unterminated n : forall desc,
  (length desc <= n)%nat ->
  Forall (fun u => u <> 0) (u16s desc) -> scan_description desc = None.
Proof.
  induction n as [|n IH]; intros [|lo [|hi rest]] Hlen Hall; try done.
  - cbn [length] in Hlen. lia.
  - cbn [u16s] in Hall. inversion Hall as [|? ? Hu Hrest]; subst.
    cbn [scan_description]. destruct (Z.eqb_spec (u16 lo hi) 0); [done |].
    rewrite (IH rest); [done | cbn [length] in Hlen; lia | done].
Qed.

(** C2: for a fetched load option whose description has no zero code unit
    inside the buffer (every complete 16-bit unit after the 6-byte header is
    non-zero), the scan of the decoder for the terminator does not stop at
    the end of the buffer: it reads past the retrieved bytes. *)
Theorem unterminated_description_read_past_buffer
    (w : world) (boot_entry : string) (buf : list byte) :
  vars w !! cstr boot_entry = Some buf ->
  Forall (fun u => u <> 0) (u16s (drop description_offset buf)) ->
  print_single_boot_entry boot_entry w
  = (Fault OutOfBoundsRead,
     with_calls w (calls w ++ [GetVariable (cstr boot_entry)])).
Proof.
  intros Hvar Hall. unfold print_single_boot_entry.
  rewrite (bind_run _ _ _ _ _ (grub_efi_get_variable_present _ _ _ Hvar)).
  by rewrite (scan_description_unterminated _ _ (Nat.le_refl _) Hall).
Qed.

Lemma unterminated_description_read_past_buffer_witness :
  vars malformed_world !! cstr "Boot0001"
  = Some [x01; x00; x00; x00; x00; x00; x41; x00]
  /\ Forall (fun u => u <> 0)
       (u16s (drop description_offset [x01; x00; x00; x00; x00; x00; x41; x00]))
  /\ print_single_boot_entry "Boot0001" malformed_world
     = (Fault OutOfBoundsRead,
        with_calls malformed_world
          (calls malformed_world ++ [GetVariable (cstr "Boot0001")])).
Proof.
  assert (H1 : vars malformed_world !! cstr "Boot0001"
               = Some [x01; x00; x00; x00; x00; x00; x41; x00]) by reflexivity.
  assert (H2 : Forall (fun u => u <> 0)
                 (u16s (drop description_offset
                          [x01; x00; x00; x00; x00; x00; x41; x00])))
    by (repeat constructor; discriminate).
  exact (conj H1 (conj H2
           (unterminated_description_read_past_buffer malformed_world "Boot0001" _ H1 H2))).
Defined.

(** *** Worst-case expansion of the conversion *)

Lemma length_utf8_encode code : (length (utf8_encode code) <= 4)%nat.
Proof.
  unfold utf8_encode.
  destruct (code <=? 127), (code <=? 2047), (code <? 65536); cbn; lia.
Qed.

Lemma length_utf8_replacement : length (utf8_encode replacement_char) = 3%nat.
Proof. reflexivity. Qed.

Lemma length_utf16_to_utf8 n : forall src,
  (length src <= n)%nat ->
  (length (grub_utf16_to_utf8 src) <= 4 * length src)%nat.
Proof.
  unfold grub_utf16_to_utf8.
  induction n as [|n IH]; intros [|u rest] Hn; cbn [length] in *;
    try lia; try (cbn [utf16_decode flat_map length]; lia).
  cbn [utf16_decode].
  assert (Hrest : (length (flat_map utf8_encode (utf16_decode rest)) <= 4 * length rest)%nat)
    by (apply IH; lia).
  destruct (is_high_surrogate u).
  - destruct rest as [|lo rest']; [cbn; lia |].
    destruct (is_low_surrogate lo).
    + cbn [flat_map]. rewrite length_app.
      pose proof (length_utf8_encode (Z.shiftl (u - 55296) 10 + (lo - 56320) + 65536)).
      assert ((length (flat_map utf8_encode (utf16_decode rest')) <= 4 * length rest')%nat)
        by (apply IH; cbn [length] in Hn; lia).
      cbn [length]. lia.
    + cbn [flat_map]. rewrite length_app, length_utf8_replacement. lia.
  - destruct (is_low_surrogate u); cbn [flat_map]; rewrite length_app.
    + rewrite length_utf8_replacement. lia.
    + pose proof (length_utf8_encode u). lia.
Qed.

(** *** The scan on a terminated description *)

Lemma scan_description_terminated description rest :
  Forall (fun u => 0 < u < 65536) description ->
  scan_description (flat_map u16_bytes description ++ [x00; x00] ++ rest)
  = Some description.
Proof.
  change ([x00; x00] ++ rest) with (x00 :: x00 :: rest).
  induction description as [|u description IH]; intros Hall.
  - reflexivity.
  - inversion Hall as [|? ? Hu Hrest]; subst.
    cbn [flat_map]. unfold u16_bytes at 1. cbn [app scan_description].
    rewrite u16_u16_bytes by lia.
    destruct (Z.eqb_spec u 0); [lia |]. by rewrite IH.
Qed.

(** *** One call of the decoder *)

Lemma print_single_boot_entry_absent boot_entry w :
  vars w !! cstr boot_entry = None ->
  let w1 := store_failure (fetched w (cstr boot_entry)) (cstr boot_entry) in
  print_single_boot_entry boot_entry w = (Ret (grub_errno w1), w1).
Proof.
  intros Hvar w1. unfold print_single_boot_entry.
  by rewrite (bind_run _ _ _ _ _ (grub_efi_get_variable_absent _ _ Hvar)).
Qed.

Lemma print_single_boot_entry_present boot_entry w buf description :
  vars w !! cstr boot_entry = Some buf ->
  scan_description (drop description_offset buf) = Some description ->
  let size := Z.of_nat (length description) in
  let w1 := with_calls w (calls w ++ [GetVariable (cstr boot_entry);
                                      Malloc (4 * size + 1)]) in
  print_single_boot_entry boot_entry w
  = if malloc_ok w (4 * size + 1)
    then (Ret (grub_errno w),
          with_console w1
            (console w ++ [cstr boot_entry +:+ ": "
                           +:+ string_of_bytes (grub_utf16_to_utf8 description)
                           +:+ nl]))
    else (Ret GRUB_ERR_OUT_OF_MEMORY,
          with_error w1 GRUB_ERR_OUT_OF_MEMORY "out of memory").
Proof.
  intros Hvar Hscan size w1. unfold print_single_boot_entry.
  rewrite (bind_run _ _ _ _ _ (grub_efi_get_variable_present _ _ _ Hvar)), Hscan.
  fold size. unfold fetched.
  set (w0 := with_calls w (calls w ++ [GetVariable (cstr boot_entry)])).
  change (malloc_ok w) with (malloc_ok w0).
  assert (Hw1 : w1 = with_calls w0 (calls w0 ++ [Malloc (4 * size + 1)]))
    by (unfold w1, w0; cbn [calls with_calls]; by rewrite <- app_assoc).
  destruct (malloc_ok w0 (4 * size + 1)) eqn:Hmalloc.
  - rewrite (bind_run _ _ _ _ _ (grub_malloc_ok _ _ Hmalloc)). unfold bind at 1.
    assert (Hcap : Z.of_nat (length (grub_utf16_to_utf8 description ++ [x00]))
                   <= 4 * size + 1).
    { rewrite length_app. cbn [length].
      pose proof (length_utf16_to_utf8 _ description (Nat.le_refl _)).
      unfold size. lia. }
    rewrite (bind_run _ _ _ _ _ (write_buffer_ok _ _ _ Hcap)).
    unfold grub_printf, get_errno. by rewrite Hw1.
  - rewrite (bind_run _ _ _ _ _ (grub_malloc_fail _ _ Hmalloc)).
    unfold bind, ret, get_errno. by rewrite Hw1.
Qed.

Lemma print_single_boot_entry_run boot_entry w :
  print_single_boot_entry boot_entry w
  = match vars w !! cstr boot_entry with
    | None =>
        let w1 := store_failure (fetched w (cstr boot_entry)) (cstr boot_entry) in
        (Ret (grub_errno w1), w1)
    | Some buf =>
        match scan_description (drop description_offset buf) with
        | None => (Fault OutOfBoundsRead, fetched w (cstr boot_entry))
        | Some description =>
            let size := Z.of_nat (length description) in
            let w1 := with_calls w (calls w ++ [GetVariable (cstr boot_entry);
                                                Malloc (4 * size + 1)]) in
            if malloc_ok w (4 * size + 1)
            then (Ret (grub_errno w),
                  with_console w1
                    (console w ++ [cstr boot_entry +:+ ": "
                                   +:+ string_of_bytes (grub_utf16_to_utf8 description)
                                   +:+ nl]))
            else (Ret GRUB_ERR_OUT_OF_MEMORY,
                  with_error w1 GRUB_ERR_OUT_OF_MEMORY "out of memory")
        end
    end.
Proof.
  destruct (vars w !! cstr boot_entry) as [buf|] eqn:Hvar.
  - destruct (scan_description (drop description_offset buf)) as [d|] eqn:Hscan.
    + by rewrite (print_single_boot_entry_present _ _ _ _ Hvar Hscan).
    + unfold print_single_boot_entry.
      by rewrite (bind_run _ _ _ _ _ (grub_efi_get_variable_present _ _ _ Hvar)), Hscan.
  - by apply print_single_boot_entry_absent.
Qed.

(** C10: for a load option whose description has [n] code units (non-zero,
    then the zero terminator), the decoder asks the allocator for
    [4 * n + 1] bytes: 4 bytes for each code unit and 1 for the null
    terminator. The converted UTF-8 text with its terminator is at most
    that long, so the decoder ends without a write outside the allocation
    (it returns the error status, and prints the line when the allocation
    succeeded). *)
Theorem description_utf8_fits_allocation
    (w : world) (boot_entry : string) (header rest : list byte) (description : list Z) :
  length header = description_offset ->
  Forall (fun u => 0 < u < 65536) description ->
  vars w !! cstr boot_entry
  = Some (header ++ flat_map u16_bytes description ++ [x00; x00] ++ rest) ->
  let n := Z.of_nat (length description) in
  let utf8 := grub_utf16_to_utf8 description in
  let run := print_single_boot_entry boot_entry w in
  calls (snd run) = calls w ++ [GetVariable (cstr boot_entry); Malloc (4 * n + 1)]
  /\ Z.of_nat (length (utf8 ++ [x00])) <= 4 * n + 1
  /\ fst run = Ret (grub_errno (snd run))
  /\ (malloc_ok w (4 * n + 1) = true ->
      console (snd run)
      = console w ++ [cstr boot_entry +:+ ": " +:+ string_of_bytes utf8 +:+ nl]).
Proof.
  intros Hheader Hall Hvar n utf8 run. subst run.
  assert (Hscan : scan_description
                    (drop description_offset
                       (header ++ flat_map u16_bytes description ++ [x00; x00] ++ rest))
                  = Some description).
  { rewrite <- Hheader, drop_app_length. by apply scan_description_terminated. }
  rewrite (print_single_boot_entry_present _ _ _ _ Hvar Hscan). fold n.
  assert (Hfit : Z.of_nat (length (utf8 ++ [x00])) <= 4 * n + 1).
  { rewrite length_app. cbn [length].
    pose proof (length_utf16_to_utf8 _ description (Nat.le_refl _)).
    unfold utf8, n. lia. }
  destruct (malloc_ok w (4 * n + 1)); cbn [fst snd]; repeat split; try done.
Qed.

Lemma description_utf8_fits_allocation_witness :
  length [x01; x00; x00; x00; x00; x00] = description_offset
  /\ Forall (fun u => 0 < u < 65536) [87; 105; 110]
  /\ vars sample_world !! cstr "Boot0001"
     = Some ([x01; x00; x00; x00; x00; x00]
             ++ flat_map u16_bytes [87; 105; 110] ++ [x00; x00] ++ [])
  /\ calls (snd (print_single_boot_entry "Boot0001" sample_world))
     = calls sample_world ++ [GetVariable (cstr "Boot0001"); Malloc (4 * 3 + 1)]
  /\ Z.of_nat (length (grub_utf16_to_utf8 [87; 105; 110] ++ [x00])) <= 4 * 3 + 1
  /\ fst (print_single_boot_entry "Boot0001" sample_world)
     = Ret (grub_errno (snd (print_single_boot_entry "Boot0001" sample_world)))
  /\ (malloc_ok sample_world (4 * 3 + 1) = true ->
      console (snd (print_single_boot_entry "Boot0001" sample_world))
      = console sample_world
        ++ [cstr "Boot0001" +:+ ": "
            +:+ string_of_bytes (grub_utf16_to_utf8 [87; 105; 110]) +:+ nl]).
Proof.
  assert (H1 : length [x01; x00; x00; x00; x00; x00] = description_offset)
    by reflexivity.
  assert (H2 : Forall (fun u => 0 < u < 65536) [87; 105; 110])
    by (repeat constructor; lia).
  assert (H3 : vars sample_world !! cstr "Boot0001"
               = Some ([x01; x00; x00; x00; x00; x00]
                       ++ flat_map u16_bytes [87; 105; 110] ++ [x00; x00] ++ []))
    by reflexivity.
  exact (conj H1 (conj H2 (conj H3
           (description_utf8_fits_allocation sample_world "Boot0001" _ [] _ H1 H2 H3)))).
Defined.

(** ** bootentries *)

Lemma is_boot_entry_name_spec name :
  is_boot_entry_name name = true <-> boot_entry_pattern (cstr name).
Proof.
  unfold is_boot_entry_name, grub_strncmp_eq, char_at, boot_entry_pattern.
  change (cstr "Boot") with "Boot".
  pose proof (cstr_idemp name) as Hc. revert Hc.
  generalize (cstr name) as s. intros s Hc. split.
  - intros H. apply andb_prop in H as [H Hend]. apply andb_prop in H as [Hboot Hhex].
    apply String.eqb_eq in Hboot.
    destruct s as [|c1 [|c2 [|c3 [|c4 [|a [|b [|c [|d s]]]]]]]];
      try discriminate Hboot; try discriminate Hhex.
    + cbn in Hhex. by rewrite andb_false_r in Hhex.
    + cbn in Hhex. by rewrite !andb_false_r in Hhex.
    + cbn in Hhex. by rewrite !andb_false_r in Hhex.
    + cbn [forallb String.get] in Hhex. cbn in Hboot.
      injection Hboot as <- <- <- <-.
      repeat (apply andb_prop in Hhex as [? Hhex]).
      destruct s as [|e s].
      * exists a, b, c, d. by repeat split.
      * cbn in Hend. repeat (apply cstr_cons_inv in Hc as [? Hc]). congruence.
  - intros (a & b & c & d & -> & Ha & Hb & Hc' & Hd).
    cbv [String.append String.substring String.get forallb].
    rewrite Ha, Hb, Hc', Hd. reflexivity.
Qed.

Lemma decoder_frame boot_entry w :
  exists r w',
    print_single_boot_entry boot_entry w = (r, w')
    /\ vars w' = vars w
    /\ writes (calls w') = writes (calls w)
    /\ fetches (calls w') = fetches (calls w) ++ [cstr boot_entry]
    /\ match r with
       | Ret e =>
           e = grub_errno w'
           /\ (e = GRUB_ERR_NONE ->
               console w'
               = console w ++ option_list (entry_line (vars w) (cstr boot_entry)))
       | Fault _ => True
       end.
Proof.
  rewrite print_single_boot_entry_run. unfold entry_line.
  destruct (vars w !! cstr boot_entry) as [buf|] eqn:Hvar.
  - destruct (scan_description (drop description_offset buf)) as [description|] eqn:Hscan.
    + cbv zeta. destruct (malloc_ok w _); eexists _, _; (split; [reflexivity |]);
        cbn [vars calls console grub_errno with_calls with_console with_error
             option_list];
        rewrite writes_app, fetches_app; cbn; by rewrite app_nil_r.
    + eexists _, _. split; [reflexivity |].
      cbn [vars calls fetched with_calls]. rewrite writes_app, fetches_app. cbn.
      by rewrite app_nil_r.
  - cbv zeta.
    destruct (store_failure_error (fetched w (cstr boot_entry)) (cstr boot_entry))
      as (e & msg & ->).
    eexists _, _. split; [reflexivity |].
    cbn [vars calls console grub_errno fetched with_calls with_error option_list].
    rewrite writes_app, fetches_app. cbn. by rewrite !app_nil_r.
Qed.

(** *** What the decoder depends on *)

Lemma decoder_cstr boot_entry w :
  print_single_boot_entry (cstr boot_entry) w = print_single_boot_entry boot_entry w.
Proof. by rewrite !print_single_boot_entry_run, !cstr_idemp. Qed.

Lemma same_firmware_refl w : same_firmware w w.
Proof. by repeat split. Qed.

Lemma same_firmware_trans w1 w2 w3 :
  same_firmware w1 w2 -> same_firmware w2 w3 -> same_firmware w1 w3.
Proof.
  intros (? & ? & ? & ?) (? & ? & ? & ?). repeat split; congruence.
Qed.

Lemma errno_store_failure w name :
  grub_errno (store_failure w name)
  = if decide (fst (get_status w name) = GRUB_ERR_NONE)
    then grub_errno w else fst (get_status w name).
Proof. unfold store_failure. cbv zeta. by destruct (decide _). Qed.

Lemma decoder_same_firmware boot_entry w1 w2 :
  same_firmware w1 w2 ->
  fst (print_single_boot_entry boot_entry w1) = fst (print_single_boot_entry boot_entry w2).
Proof.
  intros (Hv & Hg & Hm & He). rewrite !print_single_boot_entry_run, Hv.
  destruct (vars w2 !! cstr boot_entry) as [buf|].
  - destruct (scan_description (drop description_offset buf)) as [d|]; [| done].
    cbv zeta. rewrite Hm, He. by destruct (malloc_ok w2 _).
  - cbv zeta. cbn [fst]. rewrite !errno_store_failure.
    cbn [get_status grub_errno fetched with_calls]. by rewrite Hg, He.
Qed.

(** A call of the decoder that returns success found the error status
    clear, left the firmware as it was, and printed the line of the entry,
    if it has one. *)
Lemma decoder_success boot_entry w w' :
  print_single_boot_entry boot_entry w = (Ret GRUB_ERR_NONE, w') ->
  same_firmware w' w
  /\ grub_errno w = GRUB_ERR_NONE
  /\ fetches (calls w') = fetches (calls w) ++ [cstr boot_entry]
  /\ console w' = console w ++ option_list (entry_line (vars w) (cstr boot_entry)).
Proof.
  rewrite print_single_boot_entry_run. unfold entry_line, same_firmware.
  destruct (vars w !! cstr boot_entry) as [buf|].
  - destruct (scan_description (drop description_offset buf)) as [d|]; [| done].
    cbv zeta. destruct (malloc_ok w _); [| done].
    intros [= He <-].
    cbn [vars get_status malloc_ok grub_errno calls console with_calls with_console].
    rewrite fetches_app. cbn. by rewrite ?app_nil_r.
  - cbv zeta. intros [= He <-].
    destruct (store_failure_clear _ _ He) as [-> He'].
    cbn [vars get_status malloc_ok grub_errno calls console fetched with_calls].
    rewrite fetches_app. cbn. by rewrite ?app_nil_r.
Qed.

(** A call of the decoder that does not return success prints nothing,
    unless the error status was already set when it was made: then it may
    have printed the line of the entry. *)
Lemma decoder_failure boot_entry w r w' :
  print_single_boot_entry boot_entry w = (r, w') ->
  r <> Ret GRUB_ERR_NONE ->
  fetches (calls w') = fetches (calls w) ++ [cstr boot_entry]
  /\ (console w' = console w
      \/ (grub_errno w <> GRUB_ERR_NONE
          /\ console w'
             = console w ++ option_list (entry_line (vars w) (cstr boot_entry))))
  /\ match r with Ret e => e = grub_errno w' | Fault _ => True end.
Proof.
  rewrite print_single_boot_entry_run. unfold entry_line.
  destruct (vars w !! cstr boot_entry) as [buf|].
  - destruct (scan_description (drop description_offset buf)) as [d|].
    + cbv zeta. destruct (malloc_ok w _); intros [= <- <-] Hr;
        cbn [calls console grub_errno with_calls with_console with_error option_list];
        rewrite fetches_app; cbn; rewrite ?app_nil_r; (split; [done |]);
        (split; [| done]); [| by left].
      right. split; [| done]. intros He. rewrite He in Hr. done.
    + intros [= <- <-] _. cbn [calls console fetched with_calls].
      rewrite fetches_app. cbn. rewrite ?app_nil_r. split; [done |]. by split; [left |].
  - cbv zeta. intros [= <- <-] _.
    destruct (store_failure_error (fetched w (cstr boot_entry)) (cstr boot_entry))
      as (e & msg & ->).
    cbn [calls console grub_errno fetched with_calls with_error].
    rewrite fetches_app. cbn. rewrite ?app_nil_r. split; [done |]. by split; [left |].
Qed.

(** The names of an enumeration that pass the test of the loop, as the
    decoder and the store see them. *)
Lemma bootentries_loop_spec names : forall w,
  let matching := map cstr (List.filter is_boot_entry_name (map fst names)) in
  exists r w' decoded,
    bootentries_loop names w = (r, w')
    /\ vars w' = vars w
    /\ writes (calls w') = writes (calls w)
    /\ fetches (calls w') = fetches (calls w) ++ decoded
    /\ decoded `prefix_of` matching
    /\ match r with
       | Ret false =>
           decoded = matching
           /\ console w' = console w ++ omap (entry_line (vars w)) matching
           /\ (matching = [] -> w' = w)
       | Ret true => grub_errno w' <> GRUB_ERR_NONE
       | Fault _ => True
       end.
Proof.
  induction names as [|[name guid] names IH]; intros w; cbn zeta.
  - exists (Ret false), w, []. cbn. by rewrite !app_nil_r.
  - cbn [bootentries_loop map List.filter fst].
    destruct (is_boot_entry_name name) eqn:Hname.
    + cbn [map].
      destruct (decoder_frame name w) as (r & w1 & Hrun & Hvars & Hwr & Hfe & Hr).
      destruct r as [e|f].
      * rewrite (bind_run _ _ _ _ _ Hrun). destruct Hr as [He Hcon].
        destruct (decide (e = GRUB_ERR_NONE)) as [Hnone|Herr].
        -- destruct (IH w1) as (r & w2 & decoded & Hloop & Hv2 & Hw2 & Hf2 & Hpre & Hr2).
           exists r, w2, (cstr name :: decoded). rewrite Hloop.
           split; [done |]. split; [congruence |]. split; [congruence |].
           split; [rewrite Hf2, Hfe; by rewrite <- app_assoc |].
           split; [by apply prefix_cons |].
           destruct r as [[|]|]; [done | | done].
           destruct Hr2 as (-> & Hc2 & _). split; [done |]. split; [| done].
           rewrite Hc2, (Hcon Hnone), Hvars. cbn [omap list_omap].
           destruct (entry_line (vars w) (cstr name)); cbn [option_list];
             by rewrite <- ?app_assoc, ?app_nil_r.
        -- exists (Ret true), w1, [cstr name].
           split; [done |]. split; [done |]. split; [done |]. split; [done |].
           split; [apply prefix_cons, prefix_nil | congruence].
      * rewrite (bind_fault _ _ _ _ _ Hrun).
        exists (Fault f), w1, [cstr name].
        split; [done |]. split; [done |]. split; [done |]. split; [done |].
        split; [apply prefix_cons, prefix_nil | done].
    + apply IH.
Qed.

(** The loop up to the first matching name whose decoding does not return
    success. [w] is a world with the firmware of the state [w0] in which the
    loop starts. *)
Lemma bootentries_loop_stops names : forall w0 w k name,
  same_firmware w0 w ->
  let matching := map cstr (List.filter is_boot_entry_name (map fst names)) in
  matching !! k = Some name ->
  fst (print_single_boot_entry name w) <> Ret GRUB_ERR_NONE ->
  (forall j n, (j < k)%nat -> matching !! j = Some n ->
               fst (print_single_boot_entry n w) = Ret GRUB_ERR_NONE) ->
  exists r w' last,
    bootentries_loop names w0 = (r, w')
    /\ fetches (calls w') = fetches (calls w0) ++ take (S k) matching
    /\ console w' = console w0 ++ omap (entry_line (vars w)) (take k matching) ++ last
    /\ (last = []
        \/ (grub_errno w <> GRUB_ERR_NONE
            /\ last = option_list (entry_line (vars w) name)))
    /\ match r with
       | Ret _ => fst (print_single_boot_entry name w) = Ret (grub_errno w')
       | Fault f => fst (print_single_boot_entry name w) = Fault f
       end.
Proof.
  induction names as [|[name0 guid] names IH]; intros w0 w k name Hsame; cbv zeta.
  - cbn [map List.filter]. intros Hk. by rewrite lookup_nil in Hk.
  - cbn [bootentries_loop map List.filter fst].
    destruct (is_boot_entry_name name0); [| by apply IH].
    cbn [map]. intros Hk Hfail Hbefore.
    destruct (print_single_boot_entry name0 w0) as [r1 w1] eqn:Hrun.
    assert (Hr1 : r1 = fst (print_single_boot_entry (cstr name0) w)).
    { rewrite decoder_cstr, <- (decoder_same_firmware name0 w0 w Hsame).
      by rewrite Hrun. }
    assert (Hvars : vars w0 = vars w) by apply Hsame.
    destruct k as [|k].
    + injection Hk as <-. rewrite <- Hr1 in Hfail.
      destruct (decoder_failure _ _ _ _ Hrun Hfail) as (Hfe & Hcon & Hres).
      assert (Herr : grub_errno w0 = grub_errno w) by apply Hsame.
      rewrite Herr, Hvars in Hcon.
      rewrite <- Hr1. cbn [take omap list_omap app].
      assert (Hlast : exists last,
                console w1 = console w0 ++ last
                /\ (last = []
                    \/ (grub_errno w <> GRUB_ERR_NONE
                        /\ last = option_list (entry_line (vars w) (cstr name0))))).
      { destruct Hcon as [Hcon | [He Hcon]].
        - exists []. rewrite app_nil_r. by split; [| left].
        - eexists. split; [exact Hcon | by right]. }
      destruct Hlast as (last & Hcon1 & Hlast).
      destruct r1 as [e|f].
      * rewrite (bind_run _ _ _ _ _ Hrun).
        destruct (decide (e = GRUB_ERR_NONE)) as [->|_]; [done |].
        exists (Ret true), w1, last. by rewrite Hres.
      * rewrite (bind_fault _ _ _ _ _ Hrun).
        by exists (Fault f), w1, last.
    + cbn [lookup list_lookup] in Hk.
      assert (Hok : r1 = Ret GRUB_ERR_NONE).
      { rewrite Hr1. apply (Hbefore 0%nat); [lia | done]. }
      subst r1. rewrite Hok in Hrun.
      destruct (decoder_success _ _ _ Hrun) as (Hsame1 & Hclear & Hfe & Hcon).
      rewrite (bind_run _ _ _ _ _ Hrun).
      destruct (decide (GRUB_ERR_NONE = GRUB_ERR_NONE)); [| done].
      destruct (IH w1 w k name (same_firmware_trans _ _ _ Hsame1 Hsame) Hk Hfail)
        as (r & w' & last & Hloop & Hfe' & Hcon' & Hlast & Hres).
      { intros j n Hj Hn. apply (Hbefore (S j)); [lia | done]. }
      exists r, w', last. split; [done |]. split; [| split; [| done]].
      * rewrite Hfe', Hfe. cbn [take]. by rewrite <- app_assoc.
      * rewrite Hcon', Hcon, Hvars. cbn [take omap list_omap].
        destruct (entry_line (vars w) (cstr name0)); cbn [option_list app];
          by rewrite <- ?app_assoc, ?app_nil_r.
Qed.

(** C7, as amended: the test of the enumeration loop holds exactly for the
    names made of "Boot" followed by 4 hexadecimal digits and nothing else.
    bootentries passes to the decoder only such names, in enumeration
    order, without skipping one: the decoded names are a prefix of the
    matching names. When the command returns success they are all of them,
    and the console shows the heading and one line for each matching name
    whose variable is readable. The enumeration stops at the first matching
    name for which the decoder reports an error: when the decoder does not
    return success for the matching name at place [k] and does for those
    before it, the decoded names are the matching names up to and including
    that one and no more, the command ends with the result of that call,
    and the lines printed are those of the matching names before it (and,
    only when the error status was already set on entry, possibly the line
    of that name itself), so that nothing is printed for the names after
    it. The result of the decoder for a name is told in the world [w] in
    which the command starts: it depends on the world only through the
    store, the allocator and the error status, which are those of [w] as
    long as the decoder returns success. Names that do not match are
    skipped without an error: with no matching name only the heading is
    printed and the error status is returned as it was. The store is not
    written. *)
Theorem bootentries_decodes_matching_names (w : world) :
  let matching := map cstr (List.filter is_boot_entry_name (map fst (var_names w))) in
  let run := grub_cmd_bootentries w in
  (forall name, is_boot_entry_name name = true <-> boot_entry_pattern (cstr name))
  /\ (exists decoded,
        fetches (calls (snd run)) = fetches (calls w) ++ decoded
        /\ decoded `prefix_of` matching)
  /\ (fst run = Ret GRUB_ERR_NONE ->
      fetches (calls (snd run)) = fetches (calls w) ++ matching
      /\ console (snd run)
         = console w ++ ("Boot entries:" +:+ nl) :: omap (entry_line (vars w)) matching)
  /\ (forall k name,
        matching !! k = Some name ->
        fst (print_single_boot_entry name w) <> Ret GRUB_ERR_NONE ->
        (forall j n, (j < k)%nat -> matching !! j = Some n ->
                     fst (print_single_boot_entry n w) = Ret GRUB_ERR_NONE) ->
        fetches (calls (snd run)) = fetches (calls w) ++ take (S k) matching
        /\ fst run = fst (print_single_boot_entry name w)
        /\ exists last,
             console (snd run)
             = console w ++ ("Boot entries:" +:+ nl)
                            :: omap (entry_line (vars w)) (take k matching) ++ last
             /\ (last = []
                 \/ (grub_errno w <> GRUB_ERR_NONE
                     /\ last = option_list (entry_line (vars w) name))))
  /\ (matching = [] ->
      run = (Ret (grub_errno w), with_console w (console w ++ ["Boot entries:" +:+ nl])))
  /\ vars (snd run) = vars w
  /\ writes (calls (snd run)) = writes (calls w).
Proof.
  intros matching run. split; [apply is_boot_entry_name_spec |].
  set (w0 := with_console w (console w ++ ["Boot entries:" +:+ nl])).
  assert (Hcmd : run = match bootentries_loop (var_names w) w0 with
                       | (Ret _, w1) => (Ret (grub_errno w1), w1)
                       | (Fault f, w1) => (Fault f, w1)
                       end) by reflexivity.
  assert (Hskip : forall names w' r w1,
            List.filter is_boot_entry_name (map fst names) = [] ->
            bootentries_loop names w' = (r, w1) -> r = Ret false /\ w1 = w').
  { clear. induction names as [|[name guid] names IH]; intros w' r w1 Hnil Hloop.
    - by inversion Hloop.
    - cbn [bootentries_loop] in Hloop. cbn [map List.filter fst] in Hnil.
      destruct (is_boot_entry_name name); [done | by apply IH]. }
  assert (Hstop : forall k name,
            matching !! k = Some name ->
            fst (print_single_boot_entry name w) <> Ret GRUB_ERR_NONE ->
            (forall j n, (j < k)%nat -> matching !! j = Some n ->
                         fst (print_single_boot_entry n w) = Ret GRUB_ERR_NONE) ->
            fetches (calls (snd run)) = fetches (calls w) ++ take (S k) matching
            /\ fst run = fst (print_single_boot_entry name w)
            /\ exists last,
                 console (snd run)
                 = console w ++ ("Boot entries:" +:+ nl)
                                :: omap (entry_line (vars w)) (take k matching) ++ last
                 /\ (last = []
                     \/ (grub_errno w <> GRUB_ERR_NONE
                         /\ last = option_list (entry_line (vars w) name)))).
  { intros k name Hk Hfail Hbefore. rewrite Hcmd.
    destruct (bootentries_loop_stops (var_names w) w0 w k name
                (same_firmware_refl w) Hk Hfail Hbefore)
      as (r & w1 & last & -> & Hfe & Hcon & Hlast & Hres).
    fold matching in Hfe, Hcon.
    destruct r as [b|f]; cbn [fst snd]; (split; [exact Hfe |]);
      (split; [by rewrite Hres |]); exists last; (split; [| exact Hlast]);
      rewrite Hcon; unfold w0; cbn [console with_console]; by rewrite <- app_assoc. }
  rewrite Hcmd in *. clear Hcmd. clearbody run.
  destruct (bootentries_loop_spec (var_names w) w0)
    as (r & w1 & decoded & Hloop & Hvars & Hwr & Hfe & Hpre & Hr).
  fold matching in Hpre, Hr.
  change (vars w0) with (vars w) in Hvars, Hr.
  change (calls w0) with (calls w) in Hwr, Hfe.
  rewrite Hloop in *.
  assert (Hnil : matching = [] -> r = Ret false /\ w1 = w0).
  { intros Hnil. apply (Hskip (var_names w)); [| done].
    unfold matching in Hnil. by apply map_eq_nil in Hnil. }
  destruct r as [aborted|f]; cbn [fst snd] in *.
  - split; [by exists decoded |].
    split; [| split; [exact Hstop | split; [| exact (conj Hvars Hwr)]]].
    + intros [= Herrno]. destruct aborted; [done |].
      destruct Hr as (-> & Hcon & _). split; [done |].
      rewrite Hcon. unfold w0. cbn [console with_console].
      by rewrite <- app_assoc.
    + intros Hm. by destruct (Hnil Hm) as [_ ->].
  - split; [by exists decoded |]. split; [done |].
    split; [exact Hstop | split; [| exact (conj Hvars Hwr)]].
    intros Hm. by destruct (Hnil Hm).
Qed.

Lemma bootentries_decodes_matching_names_witness :
  (fst (grub_cmd_bootentries sample_world) = Ret GRUB_ERR_NONE
   /\ fetches (calls (snd (grub_cmd_bootentries sample_world)))
      = fetches (calls sample_world) ++ ["Boot0001"; "Boot0002"; "Boot12AB"]
   /\ console (snd (grub_cmd_bootentries sample_world))
      = console sample_world
        ++ ["Boot entries:" +:+ nl; "Boot0001: Win" +:+ nl; "Boot0002: Linux" +:+ nl;
            "Boot12AB: USB" +:+ nl])
  /\ (["Boot0001"; "Boot0002"; "Boot12AB"] !! 1%nat = Some "Boot0002"
      /\ fst (print_single_boot_entry "Boot0002" failing_store_world)
         <> Ret GRUB_ERR_NONE
      /\ fetches (calls (snd (grub_cmd_bootentries failing_store_world)))
         = fetches (calls failing_store_world) ++ ["Boot0001"; "Boot0002"]
      /\ fst (grub_cmd_bootentries failing_store_world) = Ret GRUB_ERR_IO
      /\ exists last,
           console (snd (grub_cmd_bootentries failing_store_world))
           = console failing_store_world
             ++ ("Boot entries:" +:+ nl) :: ["Boot0001: Win" +:+ nl] ++ last
           /\ (last = []
               \/ (grub_errno failing_store_world <> GRUB_ERR_NONE
                   /\ last = option_list (entry_line (vars failing_store_world)
                                            "Boot0002")))).
Proof.
  assert (H1 : fst (grub_cmd_bootentries sample_world) = Ret GRUB_ERR_NONE)
    by reflexivity.
  assert (H2 : ["Boot0001"; "Boot0002"; "Boot12AB"] !! 1%nat = Some "Boot0002")
    by reflexivity.
  assert (H3 : fst (print_single_boot_entry "Boot0002" failing_store_world)
               <> Ret GRUB_ERR_NONE) by discriminate.
  assert (H4 : forall j n, (j < 1)%nat ->
                 ["Boot0001"; "Boot0002"; "Boot12AB"] !! j = Some n ->
                 fst (print_single_boot_entry n failing_store_world)
                 = Ret GRUB_ERR_NONE).
  { intros [|j] n Hj Hn; [| lia]. by injection Hn as <-. }
  exact (conj
           (conj H1
              (proj1 (proj2 (proj2 (bootentries_decodes_matching_names sample_world)))
                 H1))
           (conj H2 (conj H3
              (proj1 (proj2 (proj2 (proj2
                 (bootentries_decodes_matching_names failing_store_world))))
                 1%nat "Boot0002" H2 H3 H4)))).
Defined.

(** C7 as stated fails when the decoder reports an error: the enumeration
    stops, and the matching names that follow are not printed. *)
Lemma bootentries_stops_at_decoder_error :
  map cstr (List.filter is_boot_entry_name (map fst (var_names oom_world)))
  = ["Boot0001"; "Boot0002"; "Boot12AB"]
  /\ fetches (calls (snd (grub_cmd_bootentries oom_world))) = ["Boot0001"]
  /\ console (snd (grub_cmd_bootentries oom_world)) = ["Boot entries:" +:+ nl]
  /\ fst (grub_cmd_bootentries oom_world) = Ret GRUB_ERR_OUT_OF_MEMORY.
Proof. repeat split; reflexivity. Qed.

Example bootentries_sample :
  grub_cmd_bootentries sample_world
  = (Ret GRUB_ERR_NONE,
     with_console
       (with_calls sample_world
          [GetVariable "Boot0001"; Malloc 13; GetVariable "Boot0002"; Malloc 21;
           GetVariable "Boot12AB"; Malloc 13])
       ["Boot entries:" +:+ nl; "Boot0001: Win" +:+ nl; "Boot0002: Linux" +:+ nl;
        "Boot12AB: USB" +:+ nl]).
Proof. reflexivity. Qed.

(** ** The stale name buffer *)

(** C5: the name buffer is shared by the iterations of the validator. For
    the candidates "12AB" then "F" the second name passed to the store is
    "BootF2AB": the trailing characters are left over from the candidate
    before and are not the '0's of the literal "Boot0000", with which the
    name would be "BootF000". *)
Theorem stale_name_buffer :
  fetches (calls (snd (validate_bootorder_entries 2 ["12AB"; "F"] sample_world)))
  = ["Boot12AB"; "BootF2AB"]
  /\ zero_padded_name "F" = "BootF000"
  /\ "BootF2AB" <> zero_padded_name "F".
Proof. repeat split; try reflexivity. discriminate. Qed.

Example first_name_is_zero_padded :
  fetches (calls (snd (validate_bootorder_entries 1 ["F"] sample_world)))
  = [zero_padded_name "F"].
Proof. reflexivity. Qed.

(** ** The commands on the sample firmware *)

Example bootnext_unset :
  grub_cmd_bootnext [] sample_world
  = (Ret GRUB_ERR_NONE,
     with_console (with_calls sample_world [GetVariable "BootNext"])
       ["BootNext: not set." +:+ nl]).
Proof. reflexivity. Qed.

Example bootnext_inaccessible_entry :
  grub_cmd_bootnext ["0007"] sample_world
  = (Ret GRUB_ERR_BAD_ARGUMENT,
     with_error (with_calls sample_world [GetVariable "Boot0007"])
       GRUB_ERR_BAD_ARGUMENT "0007: boot entry inaccessible").
Proof. reflexivity. Qed.

Example bootnext_set_then_query :
  console (snd (grub_cmd_bootnext [] (snd (grub_cmd_bootnext ["0002"] sample_world))))
  = ["BootNext: 0002" +:+ nl].
Proof. reflexivity. Qed.

Example bootorder_sample_query :
  console (snd (grub_cmd_bootorder [] sample_world)) = ["Boot order: "; "0001." +:+ nl].
Proof. reflexivity. Qed.

Example bootorder_inaccessible_entry :
  grub_cmd_bootorder ["0001"; "0007"; "0002"] sample_world
  = (Ret GRUB_ERR_BAD_ARGUMENT,
     with_error
       (with_calls sample_world [GetVariable "Boot0001"; GetVariable "Boot0007"])
       GRUB_ERR_BAD_ARGUMENT "0007: boot entry inaccessible").
Proof. reflexivity. Qed.

(** The format check lets the empty string through. *)
Example fmt_accepts_empty_string : validate_bootorder_fmt 1 [""] = true.
Proof. reflexivity. Qed.

Example decoder_empty_description :
  console (snd (print_single_boot_entry "Boot0009"
                  (with_vars sample_world (<["Boot0009" := load_option []]> sample_vars))))
  = ["Boot0009: " +:+ nl].
Proof. reflexivity. Qed.

(** * Further properties of the commands *)

(** ** The names of long candidates *)

Lemma substring_none n : forall s, substring n 0 s = "".
Proof. induction n as [|n IH]; intros [|c s]; cbn [substring]; auto. Qed.

Lemma append_empty_r s : s +:+ "" = s.
Proof.
  induction s as [|c s IH]; [done |].
  change (String c s +:+ "") with (String c (s +:+ "")). by rewrite IH.
Qed.

Lemma entry_names_long entries : forall buf,
  name_buffer buf ->
  Forall (fun entry => (4 <= grub_strlen entry)%nat) entries ->
  entry_names buf entries = map boot_name entries.
Proof.
  induction entries as [|e rest IH]; intros buf Hbuf Hall; [done |].
  inversion Hall as [|? ? He Hrest]; subst.
  destruct (grub_strncpy_name_buffer buf e Hbuf) as [Hbuf' Heq].
  cbn [entry_names map]. rewrite (IH _ Hbuf' Hrest). f_equal.
  destruct Hbuf' as (_ & -> & _). rewrite Heq.
  replace (Nat.min 4 (grub_strlen e)) with 4%nat by lia.
  destruct Hbuf as (_ & _ & ->).
  change (4 - 4)%nat with 0%nat. by rewrite substring_none, append_empty_r.
Qed.

Lemma first_name_long arg0 :
  (4 <= grub_strlen arg0)%nat ->
  cstr (grub_strncpy "Boot0000" 4 arg0 4) = boot_name arg0.
Proof.
  intros Hlen.
  pose proof (entry_names_long [arg0] "Boot0000" name_buffer_literal) as Hnames.
  cbn [entry_names map] in Hnames.
  assert (Hall : Forall (fun entry => (4 <= grub_strlen entry)%nat) [arg0])
    by (apply Forall_cons_2; [done | apply Forall_nil_2]).
  specialize (Hnames Hall). congruence.
Qed.

(** ** bootnext *)

Lemma errno_store_failure_fetched w name :
  grub_errno (store_failure (fetched w name) name) = errno_after_fetch w name.
Proof. by rewrite errno_store_failure. Qed.

Lemma grub_strtoul_cases s w :
  (exists v, grub_strtoul s w = (Ret v, w) /\ to_u16 v = entry_value s)
  \/ (exists v e msg,
        grub_strtoul s w = (Ret v, with_error w e msg) /\ e <> GRUB_ERR_NONE).
Proof.
  unfold grub_strtoul, entry_value.
  destruct (parse_hex s 0 false) as [[num [|]]|].
  - left. by exists num.
  - right. by exists 0, GRUB_ERR_BAD_NUMBER, "unrecognized number".
  - right. by exists (2 ^ 64 - 1), GRUB_ERR_OUT_OF_RANGE, "overflow is detected".
Qed.

Lemma get_errno_run w : get_errno w = (Ret (grub_errno w), w).
Proof. reflexivity. Qed.

Lemma validate_first_entry arg0 rest w :
  let name := cstr (grub_strncpy "Boot0000" 4 arg0 4) in
  validate_bootorder_entries 1 (arg0 :: rest) w
  = match vars w !! name with
    | Some _ => (Ret None, fetched w name)
    | None => (Ret (Some arg0), store_failure (fetched w name) name)
    end.
Proof.
  cbv zeta. unfold validate_bootorder_entries. cbn [validate_entries_loop].
  destruct (vars w !! cstr (grub_strncpy "Boot0000" 4 arg0 4)) as [data|] eqn:Hvar.
  - by rewrite (bind_run _ _ _ _ _ (grub_efi_get_variable_present _ _ _ Hvar)).
  - by rewrite (bind_run _ _ _ _ _ (grub_efi_get_variable_absent _ _ Hvar)).
Qed.

Lemma bootnext_set_inaccessible_run arg0 rest w :
  let name := cstr (grub_strncpy "Boot0000" 4 arg0 4) in
  vars w !! name = None ->
  grub_cmd_bootnext (arg0 :: rest) w
  = (Ret GRUB_ERR_BAD_ARGUMENT,
     with_error (fetched w name) GRUB_ERR_BAD_ARGUMENT
       (arg0 +:+ ": boot entry inaccessible")).
Proof.
  intros name Habs. unfold grub_cmd_bootnext.
  pose proof (validate_first_entry arg0 rest w) as Hrun. cbv zeta in Hrun.
  fold name in Hrun. rewrite Habs in Hrun.
  rewrite (bind_run _ _ _ _ _ Hrun). unfold grub_error.
  by rewrite with_error_store_failure.
Qed.

Lemma bootnext_set_accessible_run arg0 rest w data :
  let name := cstr (grub_strncpy "Boot0000" 4 arg0 4) in
  vars w !! name = Some data ->
  (exists v,
     to_u16 v = entry_value arg0
     /\ grub_cmd_bootnext (arg0 :: rest) w
        = if decide (grub_errno w = GRUB_ERR_NONE)
          then grub_efi_set_variable "BootNext" (u16_bytes (entry_value arg0))
                 (fetched w name)
          else (Ret (grub_errno w), fetched w name))
  \/ (exists e msg,
        e <> GRUB_ERR_NONE
        /\ grub_cmd_bootnext (arg0 :: rest) w
           = (Ret e, with_error (fetched w name) e msg)).
Proof.
  intros name Hvar. unfold grub_cmd_bootnext.
  pose proof (validate_first_entry arg0 rest w) as Hrun0. cbv zeta in Hrun0.
  fold name in Hrun0. rewrite Hvar in Hrun0.
  rewrite (bind_run _ _ _ _ _ Hrun0). clear Hrun0.
  destruct (grub_strtoul_cases arg0 (fetched w name))
    as [(v & Hrun & Hv) | (v & e & msg & Hrun & He)];
    rewrite (bind_run _ _ _ _ _ Hrun), (bind_run _ _ _ _ _ (get_errno_run _)).
  - left. exists v. split; [done |]. rewrite Hv.
    change (grub_errno (fetched w name)) with (grub_errno w).
    by destruct (decide (grub_errno w = GRUB_ERR_NONE)).
  - right. exists e, msg. split; [done |].
    cbn [grub_errno with_error]. destruct (decide (e = GRUB_ERR_NONE)); [done | reflexivity].
Qed.

Lemma read_u16_frame buf i w r w' :
  read_u16 buf i w = (r, w') -> w' = w.
Proof.
  unfold read_u16. destruct (_ && _); [| by intros [= _ <-]].
  destruct (buf !! Z.to_nat (2 * i)), (buf !! Z.to_nat (2 * i + 1));
    by intros [= _ <-].
Qed.

Lemma bootnext_query_run w :
  grub_cmd_bootnext [] w
  = match vars w !! "BootNext" with
    | Some buf =>
        match read_u16 buf 0 (fetched w "BootNext") with
        | (Ret v, w1) =>
            (Ret (grub_errno w),
             with_console w1 (console w1 ++ ["BootNext: " +:+ fmt_04x v +:+ nl]))
        | (Fault f, w1) => (Fault f, w1)
        end
    | None =>
        let w1 := store_failure (fetched w "BootNext") "BootNext" in
        (Ret (grub_errno w1),
         if decide (grub_errno w1 = GRUB_ERR_NONE)
         then with_console w1 (console w ++ ["BootNext: not set." +:+ nl])
         else w1)
    end.
Proof.
  unfold grub_cmd_bootnext.
  destruct (vars w !! "BootNext") as [buf|] eqn:Hvar.
  - rewrite (bind_run _ _ _ _ _ (grub_efi_get_variable_present "BootNext" _ _ Hvar)).
    change (cstr "BootNext") with "BootNext".
    unfold bind at 1. unfold bind at 1.
    destruct (read_u16 buf 0 (fetched w "BootNext")) as [[v|f] w1] eqn:Hread; [| done].
    by rewrite (read_u16_frame _ _ _ _ _ Hread).
  - rewrite (bind_run _ _ _ _ _ (grub_efi_get_variable_absent "BootNext" _ Hvar)).
    change (cstr "BootNext") with "BootNext". cbv zeta.
    set (w1 := store_failure (fetched w "BootNext") "BootNext").
    assert (Hcon : console w1 = console w)
      by exact (console_store_failure (fetched w "BootNext") "BootNext").
    clearbody w1.
    unfold bind at 1. rewrite (bind_run _ _ _ _ _ (get_errno_run _)).
    destruct (decide (grub_errno w1 = GRUB_ERR_NONE)); [| done].
    unfold grub_printf, get_errno. by rewrite Hcon.
Qed.

(** X5: when the store delivers no BootNext, the query of bootnext writes
    nothing and returns the error status that the fetch left: the failure of
    the store if there was one, otherwise the status as the command found
    it. It prints "BootNext: not set." exactly when that status is clear,
    and nothing otherwise. *)
Theorem bootnext_query_unset (w : world) :
  vars w !! "BootNext" = None ->
  let w1 := store_failure (fetched w "BootNext") "BootNext" in
  grub_errno w1 = errno_after_fetch w "BootNext"
  /\ grub_cmd_bootnext [] w
     = (Ret (grub_errno w1),
        if decide (grub_errno w1 = GRUB_ERR_NONE)
        then with_console w1 (console w ++ ["BootNext: not set." +:+ nl])
        else w1).
Proof.
  intros Hvar w1. split; [exact (errno_store_failure_fetched w "BootNext") |].
  by rewrite bootnext_query_run, Hvar.
Qed.

Lemma bootnext_query_unset_witness :
  vars unreadable_world !! "BootNext" = None
  /\ grub_errno (store_failure (fetched unreadable_world "BootNext") "BootNext")
     = errno_after_fetch unreadable_world "BootNext"
  /\ grub_cmd_bootnext [] unreadable_world
     = (Ret (grub_errno (store_failure (fetched unreadable_world "BootNext") "BootNext")),
        if decide (grub_errno (store_failure (fetched unreadable_world "BootNext")
                                 "BootNext") = GRUB_ERR_NONE)
        then with_console (store_failure (fetched unreadable_world "BootNext") "BootNext")
               (console unreadable_world ++ ["BootNext: not set." +:+ nl])
        else store_failure (fetched unreadable_world "BootNext") "BootNext").
Proof.
  assert (H1 : vars unreadable_world !! "BootNext" = None) by reflexivity.
  exact (conj H1 (bootnext_query_unset unreadable_world H1)).
Defined.

Lemma bootnext_query_value_run w lo hi rest :
  vars w !! "BootNext" = Some (lo :: hi :: rest) ->
  grub_cmd_bootnext [] w
  = (Ret (grub_errno w),
     with_console (fetched w "BootNext")
       (console w ++ ["BootNext: " +:+ fmt_04x (u16 lo hi) +:+ nl])).
Proof.
  intros Hvar. rewrite bootnext_query_run, Hvar.
  pose proof (read_u16_in_bounds (lo :: hi :: rest) 0 (u16 lo hi)
                (fetched w "BootNext") eq_refl) as Hread.
  change (Z.of_nat 0) with 0 in Hread. by rewrite Hread.
Qed.

(** X6: when BootNext holds at least two bytes, the query prints the first
    two as one little-endian 16-bit value in four hexadecimal digits,
    whatever follows them, and returns the error status as it found it. *)
Theorem bootnext_query_value (w : world) (lo hi : byte) (rest : list byte) :
  vars w !! "BootNext" = Some (lo :: hi :: rest) ->
  grub_cmd_bootnext [] w
  = (Ret (grub_errno w),
     with_console (fetched w "BootNext")
       (console w ++ ["BootNext: " +:+ fmt_04x (u16 lo hi) +:+ nl])).
Proof.
  intros Hvar. rewrite bootnext_query_run, Hvar.
  pose proof (read_u16_in_bounds (lo :: hi :: rest) 0 (u16 lo hi)
                (fetched w "BootNext") eq_refl) as Hread.
  change (Z.of_nat 0) with 0 in Hread. by rewrite Hread.
Qed.

Lemma bootnext_query_value_witness :
  vars stale_error_world !! "BootNext" = Some (x02 :: x00 :: [xff])
  /\ grub_cmd_bootnext [] stale_error_world
     = (Ret (grub_errno stale_error_world),
        with_console (fetched stale_error_world "BootNext")
          (console stale_error_world
           ++ ["BootNext: " +:+ fmt_04x (u16 x02 x00) +:+ nl])).
Proof.
  assert (H1 : vars stale_error_world !! "BootNext" = Some (x02 :: x00 :: [xff]))
    by reflexivity.
  exact (conj H1 (bootnext_query_value stale_error_world x02 x00 [xff] H1)).
Defined.

(** X7: the query of bootnext does not look at the size of the fetched
    value: when BootNext holds fewer than two bytes, reading [*cur_bootnext]
    reads outside the buffer. *)
Theorem bootnext_query_short_buffer (w : world) (buf : list byte) :
  vars w !! "BootNext" = Some buf ->
  (length buf < 2)%nat ->
  fst (grub_cmd_bootnext [] w) = Fault OutOfBoundsRead.
Proof.
  intros Hvar Hlen. rewrite bootnext_query_run, Hvar.
  by rewrite read_u16_out_of_bounds by lia.
Qed.

Lemma bootnext_query_short_buffer_witness :
  vars (with_vars sample_world (<["BootNext" := [x02]]> sample_vars)) !! "BootNext"
  = Some [x02]
  /\ (length [x02] < 2)%nat
  /\ fst (grub_cmd_bootnext []
            (with_vars sample_world (<["BootNext" := [x02]]> sample_vars)))
     = Fault OutOfBoundsRead.
Proof.
  assert (H1 : vars (with_vars sample_world (<["BootNext" := [x02]]> sample_vars))
               !! "BootNext" = Some [x02]) by reflexivity.
  assert (H2 : (length [x02] < 2)%nat) by (simpl; lia).
  exact (conj H1 (conj H2 (bootnext_query_short_buffer _ _ H1 H2))).
Defined.

(** X8: for an argument of at least four characters, when the store delivers
    no variable under the name made of "Boot" and the first four characters
    of the argument (the variable is absent, or the store fails), bootnext
    fetches that one name, writes nothing, and returns the bad-argument
    error with a message that names the argument as it was given; that
    error replaces what the failed fetch left in the error status. *)
Theorem bootnext_set_inaccessible (w : world) (arg0 : string) (rest : list string) :
  (4 <= grub_strlen arg0)%nat ->
  vars w !! boot_name arg0 = None ->
  grub_cmd_bootnext (arg0 :: rest) w
  = (Ret GRUB_ERR_BAD_ARGUMENT,
     with_error (fetched w (boot_name arg0))
       GRUB_ERR_BAD_ARGUMENT (arg0 +:+ ": boot entry inaccessible")).
Proof.
  intros Hlen Habs. rewrite <- (first_name_long arg0 Hlen) in *.
  unfold grub_cmd_bootnext.
  pose proof (validate_first_entry arg0 rest w) as Hrun. cbv zeta in Hrun.
  rewrite Habs in Hrun. rewrite (bind_run _ _ _ _ _ Hrun). unfold grub_error.
  by rewrite with_error_store_failure.
Qed.

Lemma bootnext_set_inaccessible_witness :
  (4 <= grub_strlen "00071")%nat
  /\ vars unreadable_world !! boot_name "00071" = None
  /\ grub_cmd_bootnext ["00071"] unreadable_world
     = (Ret GRUB_ERR_BAD_ARGUMENT,
        with_error (fetched unreadable_world (boot_name "00071"))
          GRUB_ERR_BAD_ARGUMENT ("00071" +:+ ": boot entry inaccessible")).
Proof.
  assert (H1 : (4 <= grub_strlen "00071")%nat) by (cbn; lia).
  assert (H2 : vars unreadable_world !! boot_name "00071" = None) by reflexivity.
  exact (conj H1 (conj H2 (bootnext_set_inaccessible unreadable_world "00071" [] H1 H2))).
Defined.

(** X9: whatever its arguments and the state of the firmware, bootnext makes
    at most one write call, for BootNext and with two bytes, and leaves
    every other variable of the store as it was. *)
Theorem bootnext_writes_only_bootnext (w : world) (args : list string) :
  let w' := snd (grub_cmd_bootnext args w) in
  (writes (calls w') = writes (calls w)
   \/ exists data, length data = 2%nat
                   /\ writes (calls w') = writes (calls w) ++ [("BootNext", data)])
  /\ forall name, name <> "BootNext" -> vars w' !! name = vars w !! name.
Proof.
  cbv zeta. destruct args as [|arg0 rest].
  - rewrite bootnext_query_run.
    assert (Hw : writes (calls (fetched w "BootNext")) = writes (calls w))
      by (cbn [calls fetched with_calls]; by rewrite writes_app, app_nil_r).
    destruct (vars w !! "BootNext") as [buf|].
    + destruct (read_u16 buf 0 (fetched w "BootNext")) as [[v|f] w1] eqn:Hread.
      all: rewrite (read_u16_frame _ _ _ _ _ Hread).
      all: by split; [left |].
    + cbv zeta.
      destruct (store_failure_error (fetched w "BootNext") "BootNext") as (e & msg & ->).
      destruct (decide _); by split; [left |].
  - set (name := cstr (grub_strncpy "Boot0000" 4 arg0 4)).
    assert (Hw : writes (calls (fetched w name)) = writes (calls w))
      by (cbn [calls fetched with_calls]; by rewrite writes_app, app_nil_r).
    destruct (vars w !! name) as [data|] eqn:Hvar.
    + destruct (bootnext_set_accessible_run arg0 rest w data Hvar)
        as [(v & _ & ->) | (e & msg & _ & ->)]; [| by split; [left |]].
      fold name. destruct (decide (grub_errno w = GRUB_ERR_NONE)); [| by split; [left |]].
      unfold grub_efi_set_variable. change (cstr "BootNext") with "BootNext".
      cbn [snd]. split.
      * right. exists (u16_bytes (entry_value arg0)). split; [done |].
        destruct (decide _); cbn [calls with_vars with_calls];
          by rewrite writes_app, Hw.
      * intros n Hn. destruct (decide _); [| done].
        cbn [vars with_vars with_calls fetched]. by rewrite lookup_insert_ne.
    + rewrite (bootnext_set_inaccessible_run arg0 rest w Hvar). by split; [left |].
Qed.

(** X10: bootnext does not clear the error status before it parses its
    argument: called with arguments while the status is already set, it
    writes nothing, changes no variable and returns an error. *)
Theorem bootnext_set_blocked_by_error_status
    (w : world) (arg0 : string) (rest : list string) :
  grub_errno w <> GRUB_ERR_NONE ->
  let run := grub_cmd_bootnext (arg0 :: rest) w in
  (exists e, fst run = Ret e /\ e <> GRUB_ERR_NONE)
  /\ writes (calls (snd run)) = writes (calls w)
  /\ vars (snd run) = vars w.
Proof.
  intros Herr run. subst run.
  set (name := cstr (grub_strncpy "Boot0000" 4 arg0 4)).
  assert (Hw : writes (calls (fetched w name)) = writes (calls w))
    by (cbn [calls fetched with_calls]; by rewrite writes_app, app_nil_r).
  destruct (vars w !! name) as [data|] eqn:Hvar.
  - destruct (bootnext_set_accessible_run arg0 rest w data Hvar)
      as [(v & _ & ->) | (e & msg & He & ->)]; fold name.
    + destruct (decide (grub_errno w = GRUB_ERR_NONE)); [done |].
      split; [by exists (grub_errno w) | done].
    + split; [by exists e | done].
  - rewrite (bootnext_set_inaccessible_run arg0 rest w Hvar).
    split; [by exists GRUB_ERR_BAD_ARGUMENT | done].
Qed.

Lemma bootnext_set_blocked_by_error_status_witness :
  grub_errno stale_error_world <> GRUB_ERR_NONE
  /\ (exists e, fst (grub_cmd_bootnext ["0001"] stale_error_world) = Ret e
                /\ e <> GRUB_ERR_NONE)
  /\ writes (calls (snd (grub_cmd_bootnext ["0001"] stale_error_world)))
     = writes (calls stale_error_world)
  /\ vars (snd (grub_cmd_bootnext ["0001"] stale_error_world))
     = vars stale_error_world.
Proof.
  assert (H1 : grub_errno stale_error_world <> GRUB_ERR_NONE) by discriminate.
  exact (conj H1 (bootnext_set_blocked_by_error_status stale_error_world "0001" [] H1)).
Defined.

(** X11: when bootnext with an argument returns success, BootNext holds the
    two bytes of the parsed value truncated to 16 bits, and the query that
    follows prints that value in four hexadecimal digits and returns
    success. *)
Theorem bootnext_set_query_roundtrip (w : world) (arg0 : string) (rest : list string) :
  fst (grub_cmd_bootnext (arg0 :: rest) w) = Ret GRUB_ERR_NONE ->
  let w1 := snd (grub_cmd_bootnext (arg0 :: rest) w) in
  vars w1 !! "BootNext" = Some (u16_bytes (entry_value arg0))
  /\ fst (grub_cmd_bootnext [] w1) = Ret GRUB_ERR_NONE
  /\ console (snd (grub_cmd_bootnext [] w1))
     = console w1 ++ ["BootNext: " +:+ fmt_04x (entry_value arg0) +:+ nl].
Proof.
  intros Hok w1. subst w1.
  set (name := cstr (grub_strncpy "Boot0000" 4 arg0 4)) in *.
  destruct (vars w !! name) as [data|] eqn:Hvar.
  2: { by rewrite (bootnext_set_inaccessible_run arg0 rest w Hvar) in Hok. }
  destruct (bootnext_set_accessible_run arg0 rest w data Hvar)
    as [(v & _ & Hrun) | (e & msg & He & Hrun)]; rewrite Hrun in *; clear Hrun.
  2: { injection Hok as ->. done. }
  fold name in Hok |- *.
  destruct (decide (grub_errno w = GRUB_ERR_NONE)) as [Hclean|]; [| by injection Hok].
  unfold grub_efi_set_variable in *. change (cstr "BootNext") with "BootNext" in *.
  cbn [fst snd] in *. injection Hok as Hok.
  destruct (decide _) as [_|]; [| done].
  set (w1 := with_vars _ _).
  assert (Hvar1 : vars w1 !! "BootNext" = Some (u16_bytes (entry_value arg0)))
    by (unfold w1; cbn [vars with_vars]; apply lookup_insert_eq).
  assert (Herr1 : grub_errno w1 = GRUB_ERR_NONE) by exact Hclean.
  clearbody w1. split; [done |].
  unfold u16_bytes in Hvar1. rewrite (bootnext_query_value_run _ _ _ _ Hvar1).
  rewrite u16_u16_bytes by apply entry_value_range.
  by rewrite Herr1.
Qed.

Lemma bootnext_set_query_roundtrip_witness :
  fst (grub_cmd_bootnext ["0002"] sample_world) = Ret GRUB_ERR_NONE
  /\ vars (snd (grub_cmd_bootnext ["0002"] sample_world)) !! "BootNext"
     = Some (u16_bytes (entry_value "0002"))
  /\ fst (grub_cmd_bootnext [] (snd (grub_cmd_bootnext ["0002"] sample_world)))
     = Ret GRUB_ERR_NONE
  /\ console (snd (grub_cmd_bootnext [] (snd (grub_cmd_bootnext ["0002"] sample_world))))
     = console (snd (grub_cmd_bootnext ["0002"] sample_world))
       ++ ["BootNext: " +:+ fmt_04x (entry_value "0002") +:+ nl].
Proof.
  assert (H1 : fst (grub_cmd_bootnext ["0002"] sample_world) = Ret GRUB_ERR_NONE)
    by reflexivity.
  exact (conj H1 (bootnext_set_query_roundtrip sample_world "0002" [] H1)).
Defined.

(** ** The format check and the parser *)

(** X1: the format check on the first [n] entries of a list returns 1
    exactly when each of them has at most four characters, all of them
    hexadecimal digits; an empty entry passes. *)
Theorem validate_bootorder_fmt_accepts (order : list string) (n : nat) :
  (n <= length order)%nat ->
  validate_bootorder_fmt n order = true <-> Forall hex_entry (take n order).
Proof.
  revert n.
  induction order as [|entry rest IH]; intros [|n] Hn; cbn [length] in Hn;
    cbn [validate_bootorder_fmt firstn].
  1-3: first [lia | split; [intros _; by apply Forall_nil | done]].
  pose proof (scan_hex_spec entry 0) as Hscan.
  destruct (scan_hex entry 0) as [d|].
  - destruct Hscan as [-> Hall].
    destruct (Z.gtb_spec (0 + Z.of_nat (grub_strlen entry) + 1) 5).
    + split; [done |]. intros Hall'. inversion Hall' as [|? ? [Hlen _]]; subst. lia.
    + rewrite IH by lia. split.
      * intros Hrest. constructor; [split; [lia | done] | done].
      * intros Hall'. by inversion Hall'.
  - split; [done |]. intros Hall'. inversion Hall' as [|? ? [_ Hall]]; subst. done.
Qed.

Lemma validate_bootorder_fmt_accepts_witness :
  (2 <= length ["1f"; ""; "00g0"])%nat
  /\ (validate_bootorder_fmt 2 ["1f"; ""; "00g0"] = true
      <-> Forall hex_entry (take 2 ["1f"; ""; "00g0"])).
Proof.
  assert (H1 : (2 <= length ["1f"; ""; "00g0"])%nat) by (simpl; lia).
  exact (conj H1 (validate_bootorder_fmt_accepts ["1f"; ""; "00g0"] 2 H1)).
Defined.

Lemma isxdigit_hex_value c :
  grub_isxdigit c = true -> exists d, hex_value c = Some d /\ 0 <= d < 16.
Proof.
  unfold grub_isxdigit, hex_value. cbv zeta. generalize (char_code c). intros n.
  destruct (Z.leb_spec 48 n), (Z.leb_spec n 57), (Z.leb_spec 97 n),
    (Z.leb_spec n 102), (Z.leb_spec 65 n), (Z.leb_spec n 70);
    cbn [andb orb]; intros Hx; try discriminate Hx;
    (eexists; split; [reflexivity | lia]).
Qed.

Lemma parse_hex_accepted s : forall num found,
  Forall (fun c => grub_isxdigit c = true) (list_ascii_of_string (cstr s)) ->
  0 <= num ->
  (num + 1) * 16 ^ Z.of_nat (grub_strlen s) <= 2 ^ 64 ->
  exists v,
    parse_hex s num found = Some (v, found || (0 <? grub_strlen s)%nat)
    /\ num * 16 ^ Z.of_nat (grub_strlen s) <= v
       < (num + 1) * 16 ^ Z.of_nat (grub_strlen s).
Proof.
  unfold grub_strlen.
  induction s as [|c rest IH]; intros num found Hall Hnum Hfit.
  - exists num. cbn. rewrite orb_false_r. split; [done | lia].
  - cbn [cstr] in *. destruct (Ascii.eqb c NUL) eqn:Hc.
    + apply Ascii.eqb_eq in Hc. subst c.
      exists num. cbn. rewrite orb_false_r. split; [done | lia].
    + cbn [list_ascii_of_string String.length] in *.
      inversion Hall as [|? ? Hx Hrest]; subst.
      destruct (isxdigit_hex_value c Hx) as (d & Hd & Hrange).
      cbn [parse_hex]. rewrite Hd.
      rewrite Nat2Z.inj_succ, Z.pow_succ_r in * by lia.
      set (p := 16 ^ Z.of_nat (String.length (cstr rest))) in *.
      assert (Hp : 1 <= p) by (unfold p; pose proof (Z.pow_pos_nonneg 16
                 (Z.of_nat (String.length (cstr rest))) ltac:(lia) ltac:(lia)); lia).
      destruct (Z.leb_spec (2 ^ 64) (num * 16 + d)); [nia |].
      destruct (IH (num * 16 + d) true Hrest ltac:(lia) ltac:(fold p; nia))
        as (v & -> & Hv).
      fold p in Hv. exists v. rewrite orb_true_r. split; [done | nia].
Qed.

(** X2: an argument that the format check accepts and that is not empty is
    parsed without an error and without a change of the world, and its
    value is below 2^16, so the conversion to grub_efi_uint16_t of the
    filling loop of bootorder loses nothing. *)
Theorem accepted_entry_fits_16_bits (s : string) (w : world) :
  hex_entry s -> (0 < grub_strlen s)%nat ->
  exists v, 0 <= v < 65536 /\ grub_strtoul s w = (Ret v, w) /\ entry_value s = v.
Proof.
  intros [Hlen Hall] Hpos.
  assert (Hpow : 16 ^ Z.of_nat (grub_strlen s) <= 65536).
  { change 65536 with (16 ^ 4). apply Z.pow_le_mono_r; lia. }
  destruct (parse_hex_accepted s 0 false Hall ltac:(lia) ltac:(lia)) as (v & Hparse & Hv).
  assert (Hfound : (0 <? grub_strlen s)%nat = true) by (apply Nat.ltb_lt; lia).
  rewrite Hfound in Hparse. cbn [orb] in Hparse.
  exists v. split; [lia |].
  unfold grub_strtoul, entry_value. rewrite Hparse.
  split; [done |]. unfold to_u16. apply Z.mod_small. lia.
Qed.

Lemma accepted_entry_fits_16_bits_witness :
  hex_entry "12AB" /\ (0 < grub_strlen "12AB")%nat
  /\ exists v, 0 <= v < 65536
               /\ grub_strtoul "12AB" sample_world = (Ret v, sample_world)
               /\ entry_value "12AB" = v.
Proof.
  assert (H1 : hex_entry "12AB")
    by (split; [cbn; lia | repeat constructor]).
  assert (H2 : (0 < grub_strlen "12AB")%nat) by (cbn; lia).
  exact (conj H1 (conj H2 (accepted_entry_fits_16_bits "12AB" sample_world H1 H2))).
Defined.

(** ** The entry validator, again *)

(** X4: for candidates of at least four characters each, the validator
    looks up, for each candidate in turn, the name made of "Boot" and the
    candidate's first four characters, whatever the candidates before it
    were: it returns NULL after fetching all those names when all are
    present, and otherwise the first candidate whose name the store does
    not deliver, after fetching the names up to that one; the error status
    then holds the failure of the store, if that fetch was one. *)
Theorem validator_names_of_long_candidates (w : world) (entries : list string) :
  Forall (fun entry => (4 <= grub_strlen entry)%nat) entries ->
  let names := map boot_name entries in
  (Forall (fun name => is_Some (vars w !! name)) names
   /\ validate_bootorder_entries (length entries) entries w
      = (Ret None, with_calls w (calls w ++ map GetVariable names)))
  \/ (exists i e, entries !! i = Some e /\ first_absent (vars w) names i
      /\ validate_bootorder_entries (length entries) entries w
         = (Ret (Some e),
            with_calls (store_failure w (boot_name e))
              (calls w ++ map GetVariable (take (S i) names)))).
Proof.
  intros Hall names. subst names.
  rewrite <- (entry_names_long entries "Boot0000" name_buffer_literal Hall).
  unfold validate_bootorder_entries.
  destruct (validate_entries_loop_spec entries "Boot0000" w)
    as [Hok | (i & e & name & He & Hname & Hfirst & Hrun)]; [by left |].
  right. exists i, e. split; [done |]. split; [done |].
  rewrite (entry_names_long entries "Boot0000" name_buffer_literal Hall) in Hname.
  rewrite list_lookup_fmap, He in Hname. injection Hname as <-. exact Hrun.
Qed.

Lemma validator_names_of_long_candidates_witness :
  Forall (fun entry => (4 <= grub_strlen entry)%nat) ["0002"; "00071"; "0001"]
  /\ ((Forall (fun name => is_Some (vars unreadable_world !! name))
         (map boot_name ["0002"; "00071"; "0001"])
       /\ validate_bootorder_entries (length ["0002"; "00071"; "0001"])
            ["0002"; "00071"; "0001"] unreadable_world
          = (Ret None,
             with_calls unreadable_world
               (calls unreadable_world
                ++ map GetVariable (map boot_name ["0002"; "00071"; "0001"]))))
      \/ (exists i e,
            ["0002"; "00071"; "0001"] !! i = Some e
            /\ first_absent (vars unreadable_world)
                 (map boot_name ["0002"; "00071"; "0001"]) i
            /\ validate_bootorder_entries (length ["0002"; "00071"; "0001"])
                 ["0002"; "00071"; "0001"] unreadable_world
               = (Ret (Some e),
                  with_calls (store_failure unreadable_world (boot_name e))
                    (calls unreadable_world
                     ++ map GetVariable
                          (take (S i) (map boot_name ["0002"; "00071"; "0001"])))))).
Proof.
  assert (H1 : Forall (fun entry => (4 <= grub_strlen entry)%nat)
                 ["0002"; "00071"; "0001"])
    by (repeat constructor; cbn; lia).
  exact (conj H1 (validator_names_of_long_candidates unreadable_world _ H1)).
Defined.

Lemma entry_names_same_prefix es : forall es' buf,
  Forall2 (fun e e' => substring 0 4 (cstr e) = substring 0 4 (cstr e')) es es' ->
  entry_names buf es = entry_names buf es'.
Proof.
  induction es as [|e es IH]; intros es' buf Hsame; inversion Hsame as [|? e' ? es'' He Hrest];
    subst; [done |].
  cbn [entry_names].
  assert (Hcopy : grub_strncpy buf 4 e 4 = grub_strncpy buf 4 e' 4)
    by (unfold grub_strncpy; by rewrite He).
  rewrite Hcopy. f_equal. by apply IH.
Qed.

(** X3: the validator reads at most the first four characters of a
    candidate. Two lists of candidates that agree, place by place, on
    their first four characters make it fetch the same names, leave the
    same world, and pass or fail together. *)
Theorem validator_reads_four_characters (w : world) (es es' : list string) :
  Forall2 (fun e e' => substring 0 4 (cstr e) = substring 0 4 (cstr e')) es es' ->
  snd (validate_bootorder_entries (length es) es w)
  = snd (validate_bootorder_entries (length es') es' w)
  /\ (fst (validate_bootorder_entries (length es) es w) = Ret None
      <-> fst (validate_bootorder_entries (length es') es' w) = Ret None).
Proof.
  intros Hsame. pose proof (entry_names_same_prefix es es' "Boot0000" Hsame) as Hnames.
  unfold validate_bootorder_entries.
  destruct (validate_entries_loop_spec es "Boot0000" w)
    as [[Hall ->] | (i & e & n & He & Hn & Hfirst & ->)];
    destruct (validate_entries_loop_spec es' "Boot0000" w)
      as [[Hall' ->] | (i' & e' & n' & He' & Hn' & Hfirst' & ->)];
    rewrite <- ?Hnames in *; cbn [fst snd].
  - done.
  - destruct Hfirst' as [[name [Hname Habs]] _].
    destruct (proj1 (Forall_lookup _ _) Hall i' name Hname) as [x Hx]. congruence.
  - destruct Hfirst as [[name [Hname Habs]] _].
    destruct (proj1 (Forall_lookup _ _) Hall' i name Hname) as [x Hx]. congruence.
  - rewrite (first_absent_unique _ _ _ _ Hfirst Hfirst') in *.
    replace n' with n by congruence. by split.
Qed.

Lemma validator_reads_four_characters_witness :
  Forall2 (fun e e' => substring 0 4 (cstr e) = substring 0 4 (cstr e'))
    ["0001"; "0007"] ["0001zz"; "00071"]
  /\ snd (validate_bootorder_entries (length ["0001"; "0007"]) ["0001"; "0007"]
            sample_world)
     = snd (validate_bootorder_entries (length ["0001zz"; "00071"])
              ["0001zz"; "00071"] sample_world)
  /\ (fst (validate_bootorder_entries (length ["0001"; "0007"]) ["0001"; "0007"]
             sample_world) = Ret None
      <-> fst (validate_bootorder_entries (length ["0001zz"; "00071"])
                 ["0001zz"; "00071"] sample_world) = Ret None).
Proof.
  assert (H1 : Forall2 (fun e e' => substring 0 4 (cstr e) = substring 0 4 (cstr e'))
                 ["0001"; "0007"] ["0001zz"; "00071"])
    by (repeat constructor).
  exact (conj H1 (validator_reads_four_characters sample_world _ _ H1)).
Defined.

(** ** bootorder, again *)

Lemma print_order_loop_frame buf bound fuel : forall i w,
  exists r c, print_order_loop fuel buf bound i w = (r, with_console w c).
Proof.
  induction fuel as [|fuel IH]; intros i w; cbn [print_order_loop];
    destruct (i <? bound).
  - exists (Fault OutOfFuel), (console w). by rewrite with_console_id.
  - exists (Ret tt), (console w). by rewrite with_console_id.
  - destruct (read_u16 buf i w) as [[v|f] w1] eqn:Hread;
      rewrite (read_u16_frame _ _ _ _ _ Hread) in Hread.
    + rewrite (bind_run _ _ _ _ _ Hread). unfold bind at 1, grub_printf at 1.
      destruct (IH ((i + 1) mod 2 ^ 32) (with_console w (console w ++ [fmt_04x v +:+ ", "])))
        as (r & c & ->).
      by exists r, c.
    + rewrite (bind_fault _ _ _ _ _ Hread).
      exists (Fault f), (console w). by rewrite with_console_id.
  - exists (Ret tt), (console w). by rewrite with_console_id.
Qed.

Lemma bootorder_query_frame w :
  exists r c,
    grub_cmd_bootorder [] w
    = (r, with_console
            match vars w !! "BootOrder" with
            | Some _ => fetched w "BootOrder"
            | None => store_failure (fetched w "BootOrder") "BootOrder"
            end c).
Proof.
  unfold grub_cmd_bootorder.
  destruct (vars w !! "BootOrder") as [buf|] eqn:Hvar.
  - rewrite (bind_run _ _ _ _ _ (grub_efi_get_variable_present "BootOrder" _ _ Hvar)).
    change (cstr "BootOrder") with "BootOrder".
    unfold bind at 1, grub_printf at 1.
    set (w1 := with_console (fetched w "BootOrder") _).
    destruct (print_order_loop_frame buf
                ((Z.of_nat (length buf) / 2 - 1) mod 2 ^ 64) (S (length buf)) 0 w1)
      as ([[]|f] & c & Hloop).
    + rewrite (bind_run _ _ _ _ _ Hloop).
      destruct (read_u16 buf ((Z.of_nat (length buf) / 2 - 1) mod 2 ^ 64)
                  (with_console w1 c)) as [[v|f] w2] eqn:Hread;
        rewrite (read_u16_frame _ _ _ _ _ Hread) in Hread.
      * rewrite (bind_run _ _ _ _ _ Hread). unfold bind, grub_printf, ret.
        by eexists _, _.
      * rewrite (bind_fault _ _ _ _ _ Hread). by eexists _, _.
    + rewrite (bind_fault _ _ _ _ _ Hloop). by eexists _, _.
  - rewrite (bind_run _ _ _ _ _ (grub_efi_get_variable_absent "BootOrder" _ Hvar)).
    change (cstr "BootOrder") with "BootOrder".
    eexists _, _. unfold get_errno. by rewrite with_console_id.
Qed.

(** X14: the query of bootorder only reads: whatever BootOrder holds, and
    also when the query leaves the buffer, the store is as before, no
    write call is made, and the one call to the store is the fetch of
    BootOrder. The error status is untouched when the store delivers
    BootOrder; when it does not, the status is the one that the fetch left:
    the failure of the store if there was one, otherwise the status as it
    was. *)
Theorem bootorder_query_reads_only (w : world) :
  let w' := snd (grub_cmd_bootorder [] w) in
  vars w' = vars w
  /\ calls w' = calls w ++ [GetVariable "BootOrder"]
  /\ writes (calls w') = writes (calls w)
  /\ grub_errno w' = match vars w !! "BootOrder" with
                     | Some _ => grub_errno w
                     | None => errno_after_fetch w "BootOrder"
                     end.
Proof.
  cbv zeta. destruct (bootorder_query_frame w) as (r & c & ->). cbn [snd].
  destruct (vars w !! "BootOrder") as [buf|].
  - repeat split. cbn [calls with_console fetched with_calls].
    by rewrite writes_app, app_nil_r.
  - cbn [vars calls grub_errno with_console].
    rewrite vars_store_failure, calls_store_failure, errno_store_failure_fetched.
    repeat split. cbn [calls fetched with_calls].
    by rewrite writes_app, app_nil_r.
Qed.

(** X12: when the store delivers no BootOrder, the query of bootorder
    prints nothing, not even the heading, and returns the error status that
    the fetch left: the failure of the store if there was one, otherwise
    the status as the command found it (success when it was clear). *)
Theorem bootorder_query_absent (w : world) :
  vars w !! "BootOrder" = None ->
  let w1 := store_failure (fetched w "BootOrder") "BootOrder" in
  grub_errno w1 = errno_after_fetch w "BootOrder"
  /\ console w1 = console w
  /\ grub_cmd_bootorder [] w = (Ret (grub_errno w1), w1).
Proof.
  intros Hvar w1.
  split; [exact (errno_store_failure_fetched w "BootOrder") |].
  split; [exact (console_store_failure (fetched w "BootOrder") "BootOrder") |].
  unfold grub_cmd_bootorder.
  by rewrite (bind_run _ _ _ _ _ (grub_efi_get_variable_absent "BootOrder" _ Hvar)).
Qed.

Lemma bootorder_query_absent_witness :
  vars (with_vars unreadable_world ∅) !! "BootOrder" = None
  /\ grub_errno (store_failure (fetched (with_vars unreadable_world ∅) "BootOrder")
                   "BootOrder")
     = errno_after_fetch (with_vars unreadable_world ∅) "BootOrder"
  /\ console (store_failure (fetched (with_vars unreadable_world ∅) "BootOrder")
                "BootOrder")
     = console (with_vars unreadable_world ∅)
  /\ grub_cmd_bootorder [] (with_vars unreadable_world ∅)
     = (Ret (grub_errno (store_failure (fetched (with_vars unreadable_world ∅)
                                          "BootOrder") "BootOrder")),
        store_failure (fetched (with_vars unreadable_world ∅) "BootOrder") "BootOrder").
Proof.
  assert (H1 : vars (with_vars unreadable_world ∅) !! "BootOrder" = None) by reflexivity.
  exact (conj H1 (bootorder_query_absent _ H1)).
Defined.

(** X13: when BootOrder holds [n >= 2] bytes (fewer than 2^33), the query
    prints the heading and then the [floor (n / 2)] complete 16-bit values
    of the buffer, in order, each in four hexadecimal digits, separated by
    ", " and ended by "."; an odd last byte is ignored. It returns success
    whatever the error status is. *)
Theorem bootorder_query_prints_order (w : world) (buf : list byte) :
  vars w !! "BootOrder" = Some buf ->
  (2 <= length buf)%nat -> Z.of_nat (length buf) < 2 ^ 33 ->
  Z.of_nat (length (u16s buf)) = Z.of_nat (length buf) / 2
  /\ grub_cmd_bootorder [] w
     = (Ret GRUB_ERR_NONE,
        with_console (fetched w "BootOrder") (console w ++ order_text (u16s buf))).
Proof.
  intros Hvar Hmin Hmax.
  pose proof (length_u16s buf (length buf) (Nat.le_refl _)) as Hlen.
  split; [exact Hlen |].
  apply bootorder_query_run; [done | |].
  - destruct buf as [|lo [|hi rest]]; cbn [length] in Hmin; [lia | lia | done].
  - rewrite Hlen. apply Z.div_le_upper_bound; lia.
Qed.

Lemma bootorder_query_prints_order_witness :
  vars stale_error_world !! "BootOrder" = Some [x01; x00]
  /\ (2 <= length [x01; x00])%nat
  /\ Z.of_nat (length [x01; x00]) < 2 ^ 33
  /\ Z.of_nat (length (u16s [x01; x00])) = Z.of_nat (length [x01; x00]) / 2
  /\ grub_cmd_bootorder [] stale_error_world
     = (Ret GRUB_ERR_NONE,
        with_console (fetched stale_error_world "BootOrder")
          (console stale_error_world ++ order_text (u16s [x01; x00]))).
Proof.
  assert (H1 : vars stale_error_world !! "BootOrder" = Some [x01; x00]) by reflexivity.
  assert (H2 : (2 <= length [x01; x00])%nat) by (simpl; lia).
  assert (H3 : Z.of_nat (length [x01; x00]) < 2 ^ 33) by (cbn; lia).
  exact (conj H1 (conj H2 (conj H3
           (bootorder_query_prints_order stale_error_world _ H1 H2 H3)))).
Defined.

(** *** The set operation and the store *)

(** X15: for one or more arguments, bootorder changes the store only by
    its one successful write: when it returns success BootOrder holds the
    assembled buffer and every other variable is as before; when it returns
    anything else (a rejected argument, a failed allocation, a write that
    the store refused) the store is exactly as before. *)
Theorem bootorder_set_store_effect (w : world) (args : list string) :
  args <> [] ->
  let run := grub_cmd_bootorder args w in
  (fst run = Ret GRUB_ERR_NONE ->
   vars (snd run) = <["BootOrder" := order_data args]> (vars w))
  /\ (fst run <> Ret GRUB_ERR_NONE -> vars (snd run) = vars w).
Proof.
  intros Hargs run. subst run.
  destruct (validate_bootorder_fmt (length args) args) eqn:Hfmt.
  2: { rewrite (bootorder_set_bad_format _ _ Hargs Hfmt). by split. }
  destruct (validate_entries_loop_spec args "Boot0000" w)
    as [[_ Hrun] | (i & e & name & _ & _ & _ & Hrun)].
  2: { rewrite (bootorder_set_inaccessible _ _ _ _ Hargs Hfmt Hrun).
       cbn [fst snd vars with_error with_calls]. rewrite vars_store_failure.
       by split. }
  set (w1 := with_calls w (calls w ++ map GetVariable (entry_names "Boot0000" args))) in *.
  change (vars w) with (vars w1). clearbody w1.
  destruct (malloc_ok w1 (Z.of_nat (length args) * 2)) eqn:Hmalloc.
  2: { rewrite (bootorder_set_oom _ _ _ Hargs Hfmt Hrun Hmalloc). by split. }
  destruct (bootorder_set_write _ _ _ Hargs Hfmt Hrun Hmalloc) as (e & msg & ->).
  unfold grub_efi_set_variable. change (cstr "BootOrder") with "BootOrder".
  cbn [fst snd]. destruct (decide _) as [Hst|Hst].
  - split; [done |]. rewrite Hst. by intros [].
  - split; [| done]. intros [= Hst']. by destruct Hst.
Qed.

Lemma bootorder_set_store_effect_witness :
  sample_order <> []
  /\ (fst (grub_cmd_bootorder sample_order sample_world) = Ret GRUB_ERR_NONE ->
      vars (snd (grub_cmd_bootorder sample_order sample_world))
      = <["BootOrder" := order_data sample_order]> (vars sample_world))
  /\ (fst (grub_cmd_bootorder sample_order sample_world) <> Ret GRUB_ERR_NONE ->
      vars (snd (grub_cmd_bootorder sample_order sample_world)) = vars sample_world).
Proof.
  assert (H1 : sample_order <> []) by discriminate.
  exact (conj H1 (bootorder_set_store_effect sample_world sample_order H1)).
Defined.

(** X16: when some argument of bootorder has a character that is no
    hexadecimal digit, or more than four characters, the command fails
    before it touches the store: no variable is fetched, nothing is
    allocated or printed, and the bad-argument error carries the message
    "invalid boot order format". *)
Theorem bootorder_set_malformed_no_store_access (w : world) (args : list string) :
  ~ Forall hex_entry args ->
  grub_cmd_bootorder args w
  = (Ret GRUB_ERR_BAD_ARGUMENT,
     with_error w GRUB_ERR_BAD_ARGUMENT "invalid boot order format").
Proof.
  intros Hbad.
  assert (Hargs : args <> []) by (intros ->; by apply Hbad, Forall_nil).
  apply bootorder_set_bad_format; [done |].
  destruct (validate_bootorder_fmt (length args) args) eqn:Hfmt; [| done].
  by apply validate_bootorder_fmt_spec in Hfmt.
Qed.

Lemma bootorder_set_malformed_no_store_access_witness :
  ~ Forall hex_entry ["0001"; "00g2"]
  /\ grub_cmd_bootorder ["0001"; "00g2"] sample_world
     = (Ret GRUB_ERR_BAD_ARGUMENT,
        with_error sample_world GRUB_ERR_BAD_ARGUMENT "invalid boot order format").
Proof.
  assert (H1 : ~ Forall hex_entry ["0001"; "00g2"]).
  { intros Hall. apply validate_bootorder_fmt_spec in Hall. discriminate Hall. }
  exact (conj H1 (bootorder_set_malformed_no_store_access sample_world _ H1)).
Defined.

(** X17: when the arguments of bootorder are well formed and the name
    built for the argument at place [i] is the first one that the store
    does not deliver, the command fetches the names up to that one and no
    more, writes nothing, and returns the bad-argument error with a message
    that names that argument; that error replaces what the failed fetch
    left in the error status. *)
Theorem bootorder_set_names_inaccessible_entry
    (w : world) (args : list string) (i : nat) (e : string) :
  Forall hex_entry args ->
  args !! i = Some e ->
  first_absent (vars w) (entry_names "Boot0000" args) i ->
  grub_cmd_bootorder args w
  = (Ret GRUB_ERR_BAD_ARGUMENT,
     with_error
       (with_calls w
          (calls w ++ map GetVariable (take (S i) (entry_names "Boot0000" args))))
       GRUB_ERR_BAD_ARGUMENT (e +:+ ": boot entry inaccessible")).
Proof.
  intros Hfmt He Hfirst.
  assert (Hargs : args <> []) by (intros ->; by rewrite lookup_nil in He).
  apply validate_bootorder_fmt_spec in Hfmt.
  destruct (validate_entries_loop_spec args "Boot0000" w)
    as [[Hall _] | (i' & e' & name' & He' & _ & Hfirst' & Hrun)].
  - destruct Hfirst as [[name [Hname Habs]] _].
    destruct (proj1 (Forall_lookup _ _) Hall i name Hname) as [x Hx]. congruence.
  - rewrite (first_absent_unique _ _ _ _ Hfirst' Hfirst) in *.
    replace e' with e in * by congruence.
    rewrite (bootorder_set_inaccessible _ _ _ _ Hargs Hfmt Hrun).
    by rewrite <- store_failure_with_calls, with_error_store_failure.
Qed.

Lemma bootorder_set_names_inaccessible_entry_witness :
  Forall hex_entry ["0001"; "0007"; "0002"]
  /\ ["0001"; "0007"; "0002"] !! 1%nat = Some "0007"
  /\ first_absent (vars unreadable_world)
       (entry_names "Boot0000" ["0001"; "0007"; "0002"]) 1
  /\ grub_cmd_bootorder ["0001"; "0007"; "0002"] unreadable_world
     = (Ret GRUB_ERR_BAD_ARGUMENT,
        with_error
          (with_calls unreadable_world
             (calls unreadable_world
              ++ map GetVariable
                   (take 2 (entry_names "Boot0000" ["0001"; "0007"; "0002"]))))
          GRUB_ERR_BAD_ARGUMENT ("0007" +:+ ": boot entry inaccessible")).
Proof.
  assert (H1 : Forall hex_entry ["0001"; "0007"; "0002"])
    by (apply validate_bootorder_fmt_spec; reflexivity).
  assert (H2 : ["0001"; "0007"; "0002"] !! 1%nat = Some "0007") by reflexivity.
  assert (H3 : first_absent (vars unreadable_world)
                 (entry_names "Boot0000" ["0001"; "0007"; "0002"]) 1).
  { split; [by exists "Boot0007" |].
    intros [|j] name Hj Hname; [| lia]. inversion Hname; subst. by eexists. }
  exact (conj H1 (conj H2 (conj H3
           (bootorder_set_names_inaccessible_entry unreadable_world _ 1 "0007" H1 H2 H3)))).
Defined.

(** X25: with arguments, bootorder never reads the error status it is
    entered with. Whatever that status is, the command returns the same
    result, makes the same calls and leaves the same store; in particular
    it writes BootOrder even when an error is already recorded. *)
Theorem bootorder_set_ignores_error_status
    (w : world) (args : list string) (e : grub_err_t) (msg : string) :
  args <> [] ->
  let run := grub_cmd_bootorder args w in
  let run' := grub_cmd_bootorder args (with_error w e msg) in
  fst run' = fst run
  /\ vars (snd run') = vars (snd run)
  /\ calls (snd run') = calls (snd run).
Proof.
  intros Hargs run run'. subst run run'.
  destruct (validate_bootorder_fmt (length args) args) eqn:Hfmt.
  2: { by rewrite !(bootorder_set_bad_format _ _ Hargs Hfmt). }
  set (w' := with_error w e msg).
  destruct (validate_entries_loop_spec args "Boot0000" w)
    as [[Hall Hrun] | (i & a & n & Ha & Hn & Hfirst & Hrun)];
    destruct (validate_entries_loop_spec args "Boot0000" w')
      as [[Hall' Hrun'] | (i' & a' & n' & Ha' & Hn' & Hfirst' & Hrun')].
  - set (w1 := with_calls w _) in Hrun. set (w1' := with_calls w' _) in Hrun'.
    assert (Hcalls : calls w1' = calls w1) by reflexivity.
    assert (Hvars : vars w1' = vars w1) by reflexivity.
    assert (Hst : set_status w1' = set_status w1) by reflexivity.
    assert (Hm : malloc_ok w1' = malloc_ok w1) by reflexivity.
    clearbody w1 w1'.
    destruct (malloc_ok w1 (Z.of_nat (length args) * 2)) eqn:Hmalloc.
    + assert (Hmalloc' : malloc_ok w1' (Z.of_nat (length args) * 2) = true)
        by (by rewrite Hm).
      destruct (bootorder_set_write _ _ _ Hargs Hfmt Hrun Hmalloc) as (e1 & m1 & ->).
      destruct (bootorder_set_write _ _ _ Hargs Hfmt Hrun' Hmalloc') as (e2 & m2 & ->).
      unfold grub_efi_set_variable. cbn [fst snd set_status with_error with_calls].
      rewrite Hst.
      destruct (decide _); cbn [vars calls with_vars with_calls with_error];
        by rewrite Hcalls, Hvars.
    + assert (Hmalloc' : malloc_ok w1' (Z.of_nat (length args) * 2) = false)
        by (by rewrite Hm).
      rewrite (bootorder_set_oom _ _ _ Hargs Hfmt Hrun Hmalloc).
      rewrite (bootorder_set_oom _ _ _ Hargs Hfmt Hrun' Hmalloc').
      cbn [fst snd vars calls with_calls with_error]. by rewrite Hcalls, Hvars.
  - destruct Hfirst' as [[name [Hname Habs]] _].
    destruct (proj1 (Forall_lookup _ _) Hall i' name Hname) as [x Hx].
    change (vars w') with (vars w) in Habs. congruence.
  - destruct Hfirst as [[name [Hname Habs]] _].
    destruct (proj1 (Forall_lookup _ _) Hall' i name Hname) as [x Hx].
    change (vars w') with (vars w) in Hx. congruence.
  - change (vars w') with (vars w) in Hfirst'.
    rewrite (first_absent_unique _ _ _ _ Hfirst' Hfirst) in *.
    replace a' with a in * by congruence.
    rewrite (bootorder_set_inaccessible _ _ _ _ Hargs Hfmt Hrun).
    rewrite (bootorder_set_inaccessible _ _ _ _ Hargs Hfmt Hrun').
    by rewrite <- !store_failure_with_calls, !with_error_store_failure.
Qed.

Lemma bootorder_set_ignores_error_status_witness :
  sample_order <> []
  /\ fst (grub_cmd_bootorder sample_order
            (with_error sample_world GRUB_ERR_IO "earlier failure"))
     = fst (grub_cmd_bootorder sample_order sample_world)
  /\ vars (snd (grub_cmd_bootorder sample_order
                  (with_error sample_world GRUB_ERR_IO "earlier failure")))
     = vars (snd (grub_cmd_bootorder sample_order sample_world))
  /\ calls (snd (grub_cmd_bootorder sample_order
                   (with_error sample_world GRUB_ERR_IO "earlier failure")))
     = calls (snd (grub_cmd_bootorder sample_order sample_world)).
Proof.
  assert (H1 : sample_order <> []) by discriminate.
  exact (conj H1 (bootorder_set_ignores_error_status sample_world sample_order
                    GRUB_ERR_IO "earlier failure" H1)).
Defined.

(** ** The load-option decoder, again *)

(** X18: the decoder only reads the store. For every name and every state
    of the firmware it fetches that one name, makes no write call and
    changes no variable; it leaves the error status as it was, or sets it
    to out-of-memory, or, when the store delivers nothing for the name, to
    the failure of the store; it never clears it; when it returns, it
    returns that status; and it prints at most one line. *)
Theorem decoder_reads_only (w : world) (boot_entry : string) :
  let run := print_single_boot_entry boot_entry w in
  vars (snd run) = vars w
  /\ writes (calls (snd run)) = writes (calls w)
  /\ fetches (calls (snd run)) = fetches (calls w) ++ [cstr boot_entry]
  /\ (grub_errno (snd run) = grub_errno w
      \/ grub_errno (snd run) = GRUB_ERR_OUT_OF_MEMORY
      \/ (vars w !! cstr boot_entry = None
          /\ grub_errno (snd run) = fst (get_status w (cstr boot_entry))))
  /\ (grub_errno w <> GRUB_ERR_NONE -> grub_errno (snd run) <> GRUB_ERR_NONE)
  /\ (forall e, fst run = Ret e -> e = grub_errno (snd run))
  /\ (console (snd run) = console w
      \/ exists line, console (snd run) = console w ++ [line]).
Proof.
  cbv zeta. rewrite print_single_boot_entry_run.
  destruct (vars w !! cstr boot_entry) as [buf|].
  - destruct (scan_description (drop description_offset buf)) as [d|].
    + cbv zeta. destruct (malloc_ok w _);
        cbn [fst snd vars calls console grub_errno with_calls with_console with_error];
        rewrite writes_app, fetches_app; cbn [writes fetches omap list_omap app].
      * rewrite app_nil_r.
        split; [done |]. split; [done |]. split; [done |]. split; [by left |].
        split; [done |]. split; [by intros e [= ->] |]. right. by eexists.
      * rewrite app_nil_r.
        split; [done |]. split; [done |]. split; [done |]. split; [by right; left |].
        split; [done |]. split; [by intros e [= ->] |]. by left.
    + cbn [fst snd vars calls console grub_errno fetched with_calls].
      rewrite writes_app, fetches_app. cbn [writes fetches omap list_omap app].
      rewrite app_nil_r.
      split; [done |]. split; [done |]. split; [done |]. split; [by left |].
      split; [done |]. split; [done |]. by left.
  - cbv zeta. cbn [fst snd].
    rewrite vars_store_failure, calls_store_failure, console_store_failure.
    cbn [vars calls console fetched with_calls].
    rewrite writes_app, fetches_app. cbn [writes fetches omap list_omap app].
    rewrite app_nil_r.
    split; [done |]. split; [done |]. split; [done |]. split; [| split].
    + rewrite errno_store_failure. cbn [get_status grub_errno fetched with_calls].
      destruct (decide _); [by left | by right; right].
    + intros Herr. by apply store_failure_keeps_error.
    + split; [by intros e [= ->] | by left].
Qed.

(** X19: when the variable holds a description that ends inside the buffer
    and the allocation of the output buffer fails, the decoder prints
    nothing and returns the out-of-memory error, which stays in the error
    status. *)
Theorem decoder_out_of_memory
    (w : world) (boot_entry : string) (header rest : list byte) (description : list Z) :
  length header = description_offset ->
  Forall (fun u => 0 < u < 65536) description ->
  vars w !! cstr boot_entry
  = Some (header ++ flat_map u16_bytes description ++ [x00; x00] ++ rest) ->
  malloc_ok w (4 * Z.of_nat (length description) + 1) = false ->
  print_single_boot_entry boot_entry w
  = (Ret GRUB_ERR_OUT_OF_MEMORY,
     with_error
       (with_calls w
          (calls w ++ [GetVariable (cstr boot_entry);
                       Malloc (4 * Z.of_nat (length description) + 1)]))
       GRUB_ERR_OUT_OF_MEMORY "out of memory").
Proof.
  intros Hheader Hall Hvar Hmalloc.
  rewrite print_single_boot_entry_run, Hvar.
  rewrite <- Hheader, drop_app_length, scan_description_terminated by done.
  cbv zeta. by rewrite Hmalloc.
Qed.

Lemma decoder_out_of_memory_witness :
  length [x01; x00; x00; x00; x00; x00] = description_offset
  /\ Forall (fun u => 0 < u < 65536) [87; 105; 110]
  /\ vars oom_world !! cstr "Boot0001"
     = Some ([x01; x00; x00; x00; x00; x00]
             ++ flat_map u16_bytes [87; 105; 110] ++ [x00; x00] ++ [])
  /\ malloc_ok oom_world (4 * Z.of_nat (length [87; 105; 110]) + 1) = false
  /\ print_single_boot_entry "Boot0001" oom_world
     = (Ret GRUB_ERR_OUT_OF_MEMORY,
        with_error
          (with_calls oom_world
             (calls oom_world ++ [GetVariable (cstr "Boot0001");
                                  Malloc (4 * Z.of_nat (length [87; 105; 110]) + 1)]))
          GRUB_ERR_OUT_OF_MEMORY "out of memory").
Proof.
  assert (H1 : length [x01; x00; x00; x00; x00; x00] = description_offset)
    by reflexivity.
  assert (H2 : Forall (fun u => 0 < u < 65536) [87; 105; 110])
    by (repeat constructor; lia).
  assert (H3 : vars oom_world !! cstr "Boot0001"
               = Some ([x01; x00; x00; x00; x00; x00]
                       ++ flat_map u16_bytes [87; 105; 110] ++ [x00; x00] ++ []))
    by reflexivity.
  assert (H4 : malloc_ok oom_world (4 * Z.of_nat (length [87; 105; 110]) + 1) = false)
    by reflexivity.
  exact (conj H1 (conj H2 (conj H3 (conj H4
           (decoder_out_of_memory oom_world "Boot0001" _ [] _ H1 H2 H3 H4))))).
Defined.

(** *** Plain ASCII descriptions *)

Lemma ascii_of_byte_of_code c : ascii_of_byte (byte_of_Z (char_code c)) = c.
Proof. destruct c as [[] [] [] [] [] [] [] []]; reflexivity. Qed.

Lemma utf8_of_ascii_units s :
  Forall (fun c => is_ascii7 c = true) (list_ascii_of_string s) ->
  string_of_bytes (grub_utf16_to_utf8 (ascii_units s)) = s
  /\ Forall (fun u => 0 < u < 65536) (ascii_units s).
Proof.
  unfold string_of_bytes, grub_utf16_to_utf8, ascii_units.
  induction s as [|c s IH]; intros Hall; [by split; [| constructor] |].
  cbn [list_ascii_of_string map] in *.
  inversion Hall as [|? ? Hc Hrest]; subst.
  destruct (IH Hrest) as [IHs IHr].
  unfold is_ascii7 in Hc. apply andb_prop in Hc as [Hlo Hhi].
  apply Z.ltb_lt in Hlo, Hhi.
  split; [| constructor; [lia | done]].
  cbn [utf16_decode]. unfold is_high_surrogate, is_low_surrogate.
  destruct (Z.leb_spec 55296 (char_code c)); [lia |].
  destruct (Z.leb_spec 56320 (char_code c)); [lia |].
  cbn [andb flat_map]. unfold utf8_encode at 1.
  destruct (Z.leb_spec (char_code c) 127); [| lia].
  cbn [app map string_of_list_ascii]. by rewrite ascii_of_byte_of_code, IHs.
Qed.

(** X20: a description of plain ASCII characters (codes 1 to 127, one code
    unit each, then the terminator) is printed as it is: the decoder's
    line is the name, ": ", the characters of the description, and a
    newline. *)
Theorem decoder_prints_ascii_description
    (w : world) (boot_entry : string) (header rest : list byte) (s : string) :
  length header = description_offset ->
  Forall (fun c => is_ascii7 c = true) (list_ascii_of_string s) ->
  vars w !! cstr boot_entry
  = Some (header ++ flat_map u16_bytes (ascii_units s) ++ [x00; x00] ++ rest) ->
  malloc_ok w (4 * Z.of_nat (length (ascii_units s)) + 1) = true ->
  fst (print_single_boot_entry boot_entry w) = Ret (grub_errno w)
  /\ console (snd (print_single_boot_entry boot_entry w))
     = console w ++ [cstr boot_entry +:+ ": " +:+ s +:+ nl].
Proof.
  intros Hheader Hall Hvar Hmalloc.
  destruct (utf8_of_ascii_units s Hall) as [Htext Hrange].
  rewrite print_single_boot_entry_run, Hvar.
  rewrite <- Hheader, drop_app_length, scan_description_terminated by done.
  cbv zeta. by rewrite Hmalloc, Htext.
Qed.

Lemma decoder_prints_ascii_description_witness :
  length [x01; x00; x00; x00; x00; x00] = description_offset
  /\ Forall (fun c => is_ascii7 c = true) (list_ascii_of_string "Linux")
  /\ vars sample_world !! cstr "Boot0002"
     = Some ([x01; x00; x00; x00; x00; x00]
             ++ flat_map u16_bytes (ascii_units "Linux") ++ [x00; x00] ++ [])
  /\ malloc_ok sample_world (4 * Z.of_nat (length (ascii_units "Linux")) + 1) = true
  /\ fst (print_single_boot_entry "Boot0002" sample_world)
     = Ret (grub_errno sample_world)
  /\ console (snd (print_single_boot_entry "Boot0002" sample_world))
     = console sample_world ++ [cstr "Boot0002" +:+ ": " +:+ "Linux" +:+ nl].
Proof.
  assert (H1 : length [x01; x00; x00; x00; x00; x00] = description_offset)
    by reflexivity.
  assert (H2 : Forall (fun c => is_ascii7 c = true) (list_ascii_of_string "Linux"))
    by (repeat constructor).
  assert (H3 : vars sample_world !! cstr "Boot0002"
               = Some ([x01; x00; x00; x00; x00; x00]
                       ++ flat_map u16_bytes (ascii_units "Linux") ++ [x00; x00] ++ []))
    by reflexivity.
  assert (H4 : malloc_ok sample_world
                 (4 * Z.of_nat (length (ascii_units "Linux")) + 1) = true)
    by reflexivity.
  exact (conj H1 (conj H2 (conj H3 (conj H4
           (decoder_prints_ascii_description sample_world "Boot0002" _ [] "Linux"
              H1 H2 H3 H4))))).
Defined.

(** *** The scan for the terminator *)

Lemma Z_of_byte_range b : 0 <= Z_of_byte b < 256.
Proof. unfold Z_of_byte. pose proof (Byte.to_N_bounded b). lia. Qed.

Lemma byte_of_Z_of_byte b : byte_of_Z (Z_of_byte b) = b.
Proof.
  unfold byte_of_Z. rewrite Z.mod_small by apply Z_of_byte_range.
  unfold Z_of_byte. by rewrite N2Z.id, Byte.of_to_N.
Qed.

Lemma u16_bytes_u16 lo hi : u16_bytes (u16 lo hi) = [lo; hi].
Proof.
  pose proof (Z_of_byte_range lo). pose proof (Z_of_byte_range hi).
  unfold u16_bytes, u16. rewrite Z.shiftr_div_pow2 by lia. change (2 ^ 8) with 256.
  replace ((Z_of_byte lo + 256 * Z_of_byte hi) / 256) with (Z_of_byte hi)
    by (apply Z.div_unique with (r := Z_of_byte lo); lia).
  rewrite byte_of_Z_of_byte. f_equal.
  rewrite <- (byte_of_Z_of_byte lo) at 2. unfold byte_of_Z.
  replace ((Z_of_byte lo + 256 * Z_of_byte hi) mod 256) with (Z_of_byte lo mod 256);
    [done |].
  symmetry. rewrite (Z.mul_comm 256), Z.mod_add by lia. done.
Qed.

Lemma u16_zero lo hi : u16 lo hi = 0 -> lo = x00 /\ hi = x00.
Proof.
  intros Hz. pose proof (u16_bytes_u16 lo hi) as Hb. rewrite Hz in Hb.
  by inversion Hb.
Qed.

Lemma scan_description_units n : forall desc description,
  (length desc <= n)%nat ->
  scan_description desc = Some description ->
  exists rest,
    desc = flat_map u16_bytes description ++ x00 :: x00 :: rest
    /\ Forall (fun u => 0 < u < 65536) description.
Proof.
  induction n as [|n IH]; intros [|lo [|hi desc]] description Hlen Hscan;
    try discriminate Hscan; cbn [length] in Hlen; [lia |].
  cbn [scan_description] in Hscan.
  destruct (Z.eqb_spec (u16 lo hi) 0) as [Hz|Hnz].
  - injection Hscan as <-. destruct (u16_zero lo hi Hz) as [-> ->].
    exists desc. split; [done | constructor].
  - destruct (scan_description desc) as [d|] eqn:Hd; [| discriminate Hscan].
    injection Hscan as <-.
    destruct (IH desc d ltac:(lia) Hd) as (rest & -> & Hall).
    exists rest. split.
    + cbn [flat_map]. by rewrite u16_bytes_u16.
    + constructor; [| done].
      pose proof (Z_of_byte_range lo). pose proof (Z_of_byte_range hi).
      unfold u16 in *. lia.
Qed.

(** X21: the scan of the decoder yields a description exactly when the
    bytes after the header are the little-endian encoding of non-zero code
    units followed by a zero code unit: it yields those units, and whatever
    follows the terminator plays no part. *)
Theorem scan_description_first_zero (desc : list byte) (description : list Z) :
  scan_description desc = Some description
  <-> exists rest,
        desc = flat_map u16_bytes description ++ x00 :: x00 :: rest
        /\ Forall (fun u => 0 < u < 65536) description.
Proof.
  split.
  - apply (scan_description_units (length desc)). lia.
  - intros (rest & -> & Hall).
    by apply (scan_description_terminated description rest).
Qed.

(** ** bootentries, again *)

Lemma bootentries_run w :
  grub_cmd_bootentries w
  = match bootentries_loop (var_names w)
            (with_console w (console w ++ ["Boot entries:" +:+ nl])) with
    | (Ret _, w1) => (Ret (grub_errno w1), w1)
    | (Fault f, w1) => (Fault f, w1)
    end.
Proof. reflexivity. Qed.

Lemma bootentries_loop_with_error names : forall w,
  grub_errno w <> GRUB_ERR_NONE ->
  let matching := map cstr (List.filter is_boot_entry_name (map fst names)) in
  exists r w',
    bootentries_loop names w = (r, w')
    /\ fetches (calls w') = fetches (calls w) ++ take 1 matching
    /\ grub_errno w' <> GRUB_ERR_NONE.
Proof.
  induction names as [|[name guid] names IH]; intros w Herr; cbv zeta.
  - exists (Ret false), w. cbn. by rewrite app_nil_r.
  - cbn [bootentries_loop map List.filter fst].
    destruct (is_boot_entry_name name); [| by apply IH].
    destruct (decoder_frame name w) as (r & w1 & Hrun & _ & _ & Hfe & Hr).
    assert (Herr1 : grub_errno w1 <> GRUB_ERR_NONE).
    { pose proof (print_single_boot_entry_run name w) as Hcases.
      rewrite Hrun in Hcases.
      destruct (vars w !! cstr name) as [buf|];
        [destruct (scan_description (drop description_offset buf)) as [d|];
         [cbv zeta in Hcases; destruct (malloc_ok w _) |] |];
        injection Hcases as _ ->; try done.
      by apply store_failure_keeps_error. }
    cbn [map take]. destruct r as [e|f].
    + rewrite (bind_run _ _ _ _ _ Hrun). destruct Hr as [-> _].
      destruct (decide (grub_errno w1 = GRUB_ERR_NONE)); [done |].
      by exists (Ret true), w1.
    + rewrite (bind_fault _ _ _ _ _ Hrun). by exists (Fault f), w1.
Qed.

(** X22: bootentries does not clear the error status, and the decoder
    returns that status: when the status is already set on entry, the
    enumeration stops after the first matching name, so at most one entry
    is decoded, and the command does not return success. *)
Theorem bootentries_stops_on_stale_error (w : world) :
  grub_errno w <> GRUB_ERR_NONE ->
  let matching := map cstr (List.filter is_boot_entry_name (map fst (var_names w))) in
  let run := grub_cmd_bootentries w in
  fetches (calls (snd run)) = fetches (calls w) ++ take 1 matching
  /\ fst run <> Ret GRUB_ERR_NONE.
Proof.
  intros Herr matching run. subst run. rewrite bootentries_run.
  destruct (bootentries_loop_with_error (var_names w)
              (with_console w (console w ++ ["Boot entries:" +:+ nl])) Herr)
    as (r & w1 & -> & Hfe & Herr1).
  destruct r as [b|f]; cbn [fst snd]; (split; [exact Hfe |]); [| done].
  intros [= Hnone]. by destruct Herr1.
Qed.

Lemma bootentries_stops_on_stale_error_witness :
  grub_errno stale_error_world <> GRUB_ERR_NONE
  /\ fetches (calls (snd (grub_cmd_bootentries stale_error_world)))
     = fetches (calls stale_error_world)
       ++ take 1 (map cstr (List.filter is_boot_entry_name
                              (map fst (var_names stale_error_world))))
  /\ fst (grub_cmd_bootentries stale_error_world) <> Ret GRUB_ERR_NONE.
Proof.
  assert (H1 : grub_errno stale_error_world <> GRUB_ERR_NONE) by discriminate.
  exact (conj H1 (bootentries_stops_on_stale_error stale_error_world H1)).
Defined.

Lemma bootentries_loop_all_good names : forall w,
  grub_errno w = GRUB_ERR_NONE ->
  (forall size, malloc_ok w size = true) ->
  let matching := map cstr (List.filter is_boot_entry_name (map fst names)) in
  Forall (fun name => (vars w !! name = None
                       /\ fst (get_status w name) = GRUB_ERR_NONE)
                      \/ is_Some (entry_line (vars w) name))
    matching ->
  exists w',
    bootentries_loop names w = (Ret false, w')
    /\ grub_errno w' = GRUB_ERR_NONE
    /\ fetches (calls w') = fetches (calls w) ++ matching
    /\ console w' = console w ++ omap (entry_line (vars w)) matching.
Proof.
  induction names as [|[name guid] names IH]; intros w Herr Hmalloc; cbv zeta.
  - intros _. exists w. cbn. by rewrite !app_nil_r.
  - cbn [bootentries_loop map List.filter fst].
    destruct (is_boot_entry_name name); [| by apply IH].
    cbn [map]. intros Hall. inversion Hall as [|? ? Hname Hrest]; subst.
    pose proof (print_single_boot_entry_run name w) as Hrun.
    cbn [omap list_omap].
    destruct (vars w !! cstr name) as [buf|] eqn:Hvar.
    + destruct Hname as [[Hname _] | Hname]; [done |].
      unfold entry_line in Hname. rewrite Hvar in Hname.
      destruct (scan_description (drop description_offset buf)) as [d|] eqn:Hscan;
        [| by destruct Hname].
      assert (Hline : entry_line (vars w) (cstr name)
                      = Some (cstr name +:+ ": "
                              +:+ string_of_bytes (grub_utf16_to_utf8 d) +:+ nl))
        by (unfold entry_line; by rewrite Hvar, Hscan).
      rewrite Hline.
      cbv zeta in Hrun. rewrite Hmalloc, Herr in Hrun.
      rewrite (bind_run _ _ _ _ _ Hrun). clear Hrun.
      destruct (decide (GRUB_ERR_NONE = GRUB_ERR_NONE)); [| done].
      set (w1 := with_console _ _).
      destruct (IH w1 Herr Hmalloc Hrest) as (w' & -> & Herr' & Hfe & Hcon).
      exists w'. split; [done |]. split; [done |]. split.
      * rewrite Hfe. unfold w1. cbn [calls with_console with_calls].
        rewrite fetches_app. cbn. by rewrite <- app_assoc.
      * rewrite Hcon. unfold w1. cbn [console vars with_console with_calls].
        by rewrite <- app_assoc.
    + assert (Hline : entry_line (vars w) (cstr name) = None)
        by (unfold entry_line; by rewrite Hvar).
      rewrite Hline.
      assert (Habsent : store_failure (fetched w (cstr name)) (cstr name)
                        = fetched w (cstr name)).
      { destruct Hname as [[_ Hst] | Hname]; [| rewrite Hline in Hname; by destruct Hname].
        destruct (store_failure_cases (fetched w (cstr name)) (cstr name))
          as [[_ Heq] | [Hst' _]]; [done | by destruct Hst']. }
      cbv zeta in Hrun. rewrite Habsent in Hrun.
      change (grub_errno (fetched w (cstr name))) with (grub_errno w) in Hrun.
      rewrite Herr in Hrun. rewrite (bind_run _ _ _ _ _ Hrun). clear Hrun.
      destruct (decide (GRUB_ERR_NONE = GRUB_ERR_NONE)); [| done].
      destruct (IH (fetched w (cstr name)) Herr Hmalloc Hrest)
        as (w' & -> & Herr' & Hfe & Hcon).
      exists w'. split; [done |]. split; [done |]. split.
      * rewrite Hfe. cbn [calls fetched with_calls].
        rewrite fetches_app. cbn. by rewrite <- app_assoc.
      * by rewrite Hcon.
Qed.

(** X23: when the error status is clear on entry, allocations succeed, and
    every enumerated name of the form "Boot" plus four hexadecimal digits
    either has no variable in the store (it is absent, the store does not
    fail) or has one whose description ends inside its buffer, bootentries
    returns success, passes every such name to the decoder in enumeration
    order, and prints the heading followed by one line for each of them
    that has a variable. *)
Theorem bootentries_succeeds_on_terminated_entries (w : world) :
  grub_errno w = GRUB_ERR_NONE ->
  (forall size, malloc_ok w size = true) ->
  let matching := map cstr (List.filter is_boot_entry_name (map fst (var_names w))) in
  Forall (fun name => (vars w !! name = None
                       /\ fst (get_status w name) = GRUB_ERR_NONE)
                      \/ is_Some (entry_line (vars w) name))
    matching ->
  let run := grub_cmd_bootentries w in
  fst run = Ret GRUB_ERR_NONE
  /\ fetches (calls (snd run)) = fetches (calls w) ++ matching
  /\ console (snd run)
     = console w ++ ("Boot entries:" +:+ nl) :: omap (entry_line (vars w)) matching.
Proof.
  intros Herr Hmalloc matching Hall run. subst run. rewrite bootentries_run.
  destruct (bootentries_loop_all_good (var_names w)
              (with_console w (console w ++ ["Boot entries:" +:+ nl]))
              Herr Hmalloc Hall)
    as (w' & -> & Herr' & Hfe & Hcon).
  cbn [fst snd]. rewrite Herr'. split; [done |]. split; [exact Hfe |].
  rewrite Hcon. cbn [console vars with_console]. by rewrite <- app_assoc.
Qed.

Lemma bootentries_succeeds_on_terminated_entries_witness :
  grub_errno absent_entry_world = GRUB_ERR_NONE
  /\ (forall size, malloc_ok absent_entry_world size = true)
  /\ Forall (fun name => (vars absent_entry_world !! name = None
                          /\ fst (get_status absent_entry_world name) = GRUB_ERR_NONE)
                         \/ is_Some (entry_line (vars absent_entry_world) name))
       (map cstr (List.filter is_boot_entry_name
                    (map fst (var_names absent_entry_world))))
  /\ fst (grub_cmd_bootentries absent_entry_world) = Ret GRUB_ERR_NONE
  /\ fetches (calls (snd (grub_cmd_bootentries absent_entry_world)))
     = fetches (calls absent_entry_world)
       ++ map cstr (List.filter is_boot_entry_name
                      (map fst (var_names absent_entry_world)))
  /\ console (snd (grub_cmd_bootentries absent_entry_world))
     = console absent_entry_world
       ++ ("Boot entries:" +:+ nl)
          :: omap (entry_line (vars absent_entry_world))
               (map cstr (List.filter is_boot_entry_name
                            (map fst (var_names absent_entry_world)))).
Proof.
  assert (H1 : grub_errno absent_entry_world = GRUB_ERR_NONE) by reflexivity.
  assert (H2 : forall size, malloc_ok absent_entry_world size = true) by reflexivity.
  assert (H3 : Forall (fun name => (vars absent_entry_world !! name = None
                                    /\ fst (get_status absent_entry_world name)
                                       = GRUB_ERR_NONE)
                                   \/ is_Some (entry_line (vars absent_entry_world) name))
                 (map cstr (List.filter is_boot_entry_name
                              (map fst (var_names absent_entry_world))))).
  { apply Forall_cons_2; [left; split; reflexivity |].
    repeat (apply Forall_cons_2; [right; by eexists |]). apply Forall_nil_2. }
  exact (conj H1 (conj H2 (conj H3
           (bootentries_succeeds_on_terminated_entries absent_entry_world H1 H2 H3)))).
Defined.

Lemma decoder_with_var_names boot_entry w names :
  print_single_boot_entry boot_entry (with_var_names w names)
  = (fst (print_single_boot_entry boot_entry w),
     with_var_names (snd (print_single_boot_entry boot_entry w)) names).
Proof.
  rewrite !print_single_boot_entry_run.
  change (vars (with_var_names w names)) with (vars w).
  change (malloc_ok (with_var_names w names)) with (malloc_ok w).
  destruct (vars w !! cstr boot_entry) as [buf|].
  - destruct (scan_description (drop description_offset buf)) as [d|]; [| done].
    cbv zeta. by destruct (malloc_ok w _).
  - unfold store_failure. cbv zeta.
    cbn [get_status fetched with_calls with_var_names].
    by destruct (decide _).
Qed.

Lemma bootentries_loop_with_var_names names : forall w names',
  bootentries_loop names (with_var_names w names')
  = (fst (bootentries_loop names w),
     with_var_names (snd (bootentries_loop names w)) names').
Proof.
  induction names as [|[name guid] names IH]; intros w names'; [done |].
  cbn [bootentries_loop]. destruct (is_boot_entry_name name); [| apply IH].
  unfold bind. rewrite decoder_with_var_names.
  destruct (print_single_boot_entry name w) as [[e|f] w1]; cbn [fst snd]; [| done].
  destruct (decide (e = GRUB_ERR_NONE)); [apply IH | done].
Qed.

Lemma bootentries_loop_same_names names : forall names' w,
  map fst names = map fst names' ->
  bootentries_loop names w = bootentries_loop names' w.
Proof.
  induction names as [|[name guid] names IH]; intros [|[name' guid'] names'] w Hsame;
    try discriminate Hsame; [done |].
  cbn [map fst] in Hsame. injection Hsame as <- Hsame.
  cbn [bootentries_loop]. destruct (is_boot_entry_name name); [| by apply IH].
  unfold bind. destruct (print_single_boot_entry name w) as [[e|f] w1]; [| done].
  destruct (decide (e = GRUB_ERR_NONE)); [by apply IH | done].
Qed.

(** X24: bootentries never looks at the vendor GUID that the enumeration
    returns with a name. An enumeration with the same names in the same
    order and other GUIDs gives the same result, the same output and the
    same calls: a name of the form "Boot" plus four hexadecimal digits is
    decoded from the global-variable namespace whatever its own GUID is. *)
Theorem bootentries_ignores_vendor_guid (w : world) (names' : list (string * Z)) :
  map fst names' = map fst (var_names w) ->
  grub_cmd_bootentries (with_var_names w names')
  = (fst (grub_cmd_bootentries w), with_var_names (snd (grub_cmd_bootentries w)) names').
Proof.
  intros Hsame. rewrite !bootentries_run.
  change (var_names (with_var_names w names')) with names'.
  rewrite (bootentries_loop_same_names names' (var_names w) _ Hsame).
  change (with_console (with_var_names w names')
            (console (with_var_names w names') ++ ["Boot entries:" +:+ nl]))
    with (with_var_names (with_console w (console w ++ ["Boot entries:" +:+ nl])) names').
  rewrite bootentries_loop_with_var_names.
  by destruct (bootentries_loop (var_names w) _) as [[b|f] w1].
Qed.

Lemma bootentries_ignores_vendor_guid_witness :
  map fst [("Boot0001", 7); ("Boot0002", 0); ("BootManagerFallback", 1); ("Boot12AB", 2)]
  = map fst (var_names sample_world)
  /\ grub_cmd_bootentries
       (with_var_names sample_world
          [("Boot0001", 7); ("Boot0002", 0); ("BootManagerFallback", 1); ("Boot12AB", 2)])
     = (fst (grub_cmd_bootentries sample_world),
        with_var_names (snd (grub_cmd_bootentries sample_world))
          [("Boot0001", 7); ("Boot0002", 0); ("BootManagerFallback", 1);
           ("Boot12AB", 2)]).
Proof.
  assert (H1 : map fst [("Boot0001", 7); ("Boot0002", 0); ("BootManagerFallback", 1);
                        ("Boot12AB", 2)]
               = map fst (var_names sample_world)) by reflexivity.
  exact (conj H1 (bootentries_ignores_vendor_guid sample_world _ H1)).
Defined.
